(** * SEC EDGAR insider pipeline: name resolution, extraction, cache, status

    A shallow embedding of the Python sources
    [sec_edgar_mcp/name_matching.py], [sec_edgar_mcp/utils.py],
    [sec_edgar_mcp/form4_parser.py],
    [sec_edgar_mcp/cross_company_search.py],
    [sec_edgar_mcp/sec_fulltext_search.py] and of
    [calculate_insider_summary] in [sec_edgar_mcp/insider_tools.py], with
    the properties the design document states about them.

    Conventions of the embedding.
    - A Python [str] is a list of characters ([str := list ascii]); the
      texts are taken to be ASCII: [lower] only moves [A-Z], and the
      whitespace class is the ASCII part of [str.isspace], which is also
      what [\s] and [str.split()] use.
    - A Python [float] is an exact rational ([Q]); the scores and money
      amounts of the sources are quotients and products of small numbers,
      and no statement below depends on rounding.
    - An exception is a value: fallible code returns [Res A].
    - The functions of the standard library and of third parties whose
      code is not in the repository ([float], [strptime], [json.dumps],
      [md5], [ET.fromstring], [BeautifulSoup]) and the network
      collaborators are Section variables; [difflib.SequenceMatcher] is
      written out. The modules whose names end in [Examples] hold the
      instances used in the worked examples. *)

From stdpp Require Import gmap strings.
From Stdlib Require Import List String Ascii Bool Arith ZArith QArith Lia.
From Stdlib Require Import Permutation Sorted DecimalString Lqa.
Import ListNotations.

Close Scope Q_scope.
Open Scope nat_scope.

Set Implicit Arguments.

(** ** Python strings *)

Module PyStr.

Definition str := list ascii.

(** The characters of a literal. *)
Definition lit (x : string) : str := list_ascii_of_string x.

Definition str_eqb (a b : str) : bool :=
  if list_eq_dec ascii_dec a b then true else false.

Definition mem (w : str) (ws : list str) : bool := existsb (str_eqb w) ws.

(** [str.isspace] on ASCII: TAB..CR, FS..US and the space. *)
Definition is_space (c : ascii) : bool :=
  let n := nat_of_ascii c in
  ((9 <=? n) && (n <=? 13)) || ((28 <=? n) && (n <=? 32)).

Definition lower_char (c : ascii) : ascii :=
  let n := nat_of_ascii c in
  if (65 <=? n) && (n <=? 90) then ascii_of_nat (n + 32) else c.

Definition upper_char (c : ascii) : ascii :=
  let n := nat_of_ascii c in
  if (97 <=? n) && (n <=? 122) then ascii_of_nat (n - 32) else c.

(** [s.lower()], [s.upper()] on an ASCII text. Python maps the other
    characters by the Unicode tables, which are not modelled: a
    statement that compares the cases of a text is made for the texts of
    [isascii]. *)
Definition lower (s : str) : str := map lower_char s.
Definition upper (s : str) : str := map upper_char s.

(** [s.isascii()] *)
Definition isascii (s : str) : bool :=
  forallb (fun c => nat_of_ascii c <? 128) s.

Fixpoint dropwhile {A} (p : A -> bool) (l : list A) : list A :=
  match l with
  | [] => []
  | x :: t => if p x then dropwhile p t else l
  end.

(** [s.lstrip()], [s.rstrip()], [s.strip()] *)
Definition lstrip (s : str) : str := dropwhile is_space s.
Definition rstrip (s : str) : str := rev (dropwhile is_space (rev s)).
Definition strip (s : str) : str := rstrip (lstrip s).

(** The fields of [s] between the characters that satisfy [p]; empty
    fields are kept, so the result is never empty. *)
Fixpoint fields (p : ascii -> bool) (s : str) : list str :=
  match s with
  | [] => [[]]
  | c :: t =>
      if p c then [] :: fields p t
      else match fields p t with
           | w :: ws => (c :: w) :: ws
           | [] => [[c]]
           end
  end.

Definition nonempty {A} (l : list A) : bool :=
  match l with [] => false | _ => true end.

(** [s.split(sep)] for a one-character separator. *)
Definition split_on (sep : ascii) (s : str) : list str :=
  fields (Ascii.eqb sep) s.

(** [s.split()]: the maximal runs of non-whitespace characters. *)
Definition split (s : str) : list str :=
  filter nonempty (fields is_space s).

(** [sep.join(ws)] *)
Fixpoint join (sep : str) (ws : list str) : str :=
  match ws with
  | [] => []
  | [w] => w
  | w :: rest => w ++ sep ++ join sep rest
  end.

(** [c in s] for a character [c]. *)
Definition contains_char (c : ascii) (s : str) : bool :=
  existsb (Ascii.eqb c) s.

End PyStr.

Import PyStr.

(** ** name_matching.py *)

Module NameMatching.

(** [self.prefixes] *)
Definition prefixes : list str :=
  map lit ["mr"; "mrs"; "ms"; "dr"; "prof"; "sir"; "dame"; "lord"; "lady";
           "rev"; "father"; "sister"; "brother"]%string.

(** [self.suffixes] *)
Definition suffixes : list str :=
  map lit ["jr"; "sr"; "ii"; "iii"; "iv"; "esq"; "md"; "phd"; "jd"; "cpa";
           "cfa"; "mba"; "pe"; "rn"]%string.

(** [self.nickname_map] *)
Definition nickname_map : list (str * str) :=
  map (fun kv => (lit (fst kv), lit (snd kv)))
    [("bill", "william"); ("billy", "william"); ("will", "william");
     ("bob", "robert"); ("bobby", "robert"); ("rob", "robert");
     ("robbie", "robert");
     ("dick", "richard"); ("rick", "richard"); ("ricky", "richard");
     ("rich", "richard");
     ("jim", "james"); ("jimmy", "james"); ("jamie", "james");
     ("mike", "michael"); ("micky", "michael"); ("mickey", "michael");
     ("dave", "david"); ("davey", "david");
     ("steve", "steven"); ("stevie", "steven");
     ("chris", "christopher"); ("christi", "christopher");
     ("dan", "daniel"); ("danny", "daniel");
     ("tom", "thomas"); ("tommy", "thomas");
     ("tony", "anthony"); ("ant", "anthony");
     ("joe", "joseph"); ("joey", "joseph");
     ("ben", "benjamin"); ("benny", "benjamin");
     ("sam", "samuel"); ("sammy", "samuel");
     ("matt", "matthew"); ("matty", "matthew");
     ("nick", "nicholas"); ("nicky", "nicholas");
     ("andy", "andrew"); ("drew", "andrew");
     ("greg", "gregory"); ("greggy", "gregory");
     ("pat", "patricia"); ("patty", "patricia"); ("patti", "patricia");
     ("liz", "elizabeth"); ("beth", "elizabeth"); ("betty", "elizabeth");
     ("betsy", "elizabeth");
     ("sue", "susan"); ("susie", "susan"); ("suzy", "susan");
     ("kathy", "katherine"); ("kate", "katherine"); ("katie", "katherine");
     ("kit", "katherine");
     ("jen", "jennifer"); ("jenny", "jennifer"); ("jenn", "jennifer");
     ("amy", "amelia"); ("mel", "amelia"); ("melly", "amelia")]%string.

(** [d.get(k, default)] on an association list. *)
Fixpoint dict_get (d : list (str * str)) (k : str) (default : str) : str :=
  match d with
  | [] => default
  | (k', v) :: rest => if str_eqb k k' then v else dict_get rest k default
  end.

(** [re.sub(r'\s+', ' ', s)]: every maximal run of whitespace becomes one
    space; [in_run] tells that the previous character was whitespace. *)
Fixpoint collapse_from (in_run : bool) (s : str) : str :=
  match s with
  | [] => []
  | c :: t =>
      if is_space c
      then (if in_run then collapse_from true t
            else " "%char :: collapse_from true t)
      else c :: collapse_from false t
  end.

Definition collapse_ws (s : str) : str := collapse_from false s.

Definition is_punct (c : ascii) : bool :=
  existsb (Ascii.eqb c) (lit ".,;:!?").

(** [re.sub(r'[.,;:!?]', '', s)] *)
Definition remove_punct (s : str) : str :=
  filter (fun c => negb (is_punct c)) s.

(** The comma branch of [normalize_name] (lines 87-93). *)
Definition reorder_comma (normalized : str) : str :=
  if contains_char ","%char normalized then
    let parts := map strip (split_on ","%char normalized) in
    match parts with
    | last_name :: second :: _ =>
        let first_parts := split second in
        join (lit " ") first_parts ++ lit " " ++ last_name
    | _ => normalized
    end
  else normalized.

(** [while words and words[0] in self.prefixes: words.pop(0)] *)
Definition drop_prefixes (words : list str) : list str :=
  dropwhile (fun w => mem w prefixes) words.

(** [while words and words[-1] in self.suffixes: words.pop()] *)
Definition drop_suffixes (words : list str) : list str :=
  rev (dropwhile (fun w => mem w suffixes) (rev words)).

Definition normalize_name (name : str) : str :=
  if negb (nonempty name) || negb (nonempty (strip name)) then []
  else
    let normalized := collapse_ws (strip (lower name)) in
    let normalized := remove_punct normalized in
    let normalized := reorder_comma normalized in
    let words := split normalized in
    let words := drop_prefixes words in
    let words := drop_suffixes words in
    let words := filter (fun w => 1 <? List.length w) words in
    let words := map (fun w => dict_get nickname_map w w) words in
    join (lit " ") words.

End NameMatching.

(** ** difflib.SequenceMatcher(None, a, b)

    The standard-library matcher that [calculate_similarity] falls back
    on, with no junk predicate and the default [autojunk=True]. *)

Module Difflib.

Definition char_at (s : str) (i : nat) : ascii := nth i s zero.

(** [__chain_b]: when [b] is 200 characters or longer, the characters
    that occur more than [len(b) // 100 + 1] times are "popular" and are
    left out of the index [b2j]. *)
Definition popular (b : str) (c : ascii) : bool :=
  (200 <=? List.length b)
  && (List.length b / 100 + 1 <? count_occ ascii_dec b c).

(** [b2j.get(c, [])]: the positions of [c] in [b], in increasing order. *)
Definition b2j (b : str) (c : ascii) : list nat :=
  if popular b c then []
  else filter (fun j => Ascii.eqb (char_at b j) c) (seq 0 (List.length b)).

(** [j2len.get(j-1, 0)]; the dictionary [j2len] is a function that is 0
    off its keys. *)
Definition j2len_get_pred (j2len : nat -> nat) (j : nat) : nat :=
  match j with
  | 0 => 0
  | S j' => j2len j'
  end.

Definition best_t := (nat * nat * nat)%type.

(** The inner loop of [find_longest_match] over the positions [js] of
    [a[i]] in [b]. *)
Fixpoint inner_loop (blo bhi i : nat) (j2len : nat -> nat) (js : list nat)
    (newj2len : nat -> nat) (best : best_t) : (nat -> nat) * best_t :=
  match js with
  | [] => (newj2len, best)
  | j :: rest =>
      if j <? blo then inner_loop blo bhi i j2len rest newj2len best
      else if bhi <=? j then (newj2len, best)
      else
        let k := j2len_get_pred j2len j + 1 in
        let newj2len' := fun x => if x =? j then k else newj2len x in
        let '(_, _, bestsize) := best in
        let best' := if bestsize <? k then (i + 1 - k, j + 1 - k, k)
                     else best in
        inner_loop blo bhi i j2len rest newj2len' best'
  end.

(** The outer loop, [for i in range(alo, ahi)], run for [n] rows from
    row [i]. *)
Fixpoint outer_loop (a b : str) (blo bhi : nat) (n i : nat)
    (j2len : nat -> nat) (best : best_t) : best_t :=
  match n with
  | 0 => best
  | S n' =>
      let '(newj2len, best') :=
        inner_loop blo bhi i j2len (b2j b (char_at a i)) (fun _ => 0) best in
      outer_loop a b blo bhi n' (S i) newj2len best'
  end.

(** [while besti > alo and bestj > blo and a[besti-1] == b[bestj-1]] *)
Fixpoint extend_left (a b : str) (alo blo : nat) (besti bestj bestsize : nat)
    : best_t :=
  match besti, bestj with
  | S i', S j' =>
      if (alo <? besti) && (blo <? bestj)
         && Ascii.eqb (char_at a i') (char_at b j')
      then extend_left a b alo blo i' j' (S bestsize)
      else (besti, bestj, bestsize)
  | _, _ => (besti, bestj, bestsize)
  end.

(** [while besti+bestsize < ahi and bestj+bestsize < bhi and
    a[besti+bestsize] == b[bestj+bestsize]], at most [n] rounds. *)
Fixpoint extend_right (a b : str) (ahi bhi : nat) (n : nat)
    (besti bestj bestsize : nat) : nat :=
  match n with
  | 0 => bestsize
  | S n' =>
      if (besti + bestsize <? ahi) && (bestj + bestsize <? bhi)
         && Ascii.eqb (char_at a (besti + bestsize))
                      (char_at b (bestj + bestsize))
      then extend_right a b ahi bhi n' besti bestj (S bestsize)
      else bestsize
  end.

(** [find_longest_match(alo, ahi, blo, bhi)]; the junk set is empty, so
    the two loops that absorb junk do nothing and are left out. *)
Definition find_longest_match (a b : str) (alo ahi blo bhi : nat) : best_t :=
  let best := outer_loop a b blo bhi (ahi - alo) alo (fun _ => 0)
                (alo, blo, 0) in
  let '(besti, bestj, bestsize) := best in
  let '(besti, bestj, bestsize) :=
    extend_left a b alo blo besti bestj bestsize in
  let bestsize :=
    extend_right a b ahi bhi (ahi - (besti + bestsize)) besti bestj bestsize in
  (besti, bestj, bestsize).

(** The sum of the sizes of [get_matching_blocks()]: the longest match of
    the window, then the windows to its left and to its right. [fuel]
    bounds the depth; a window of [ahi - alo] characters needs
    [ahi - alo + 1]. *)
Fixpoint matched (a b : str) (fuel : nat) (alo ahi blo bhi : nat) : nat :=
  match fuel with
  | 0 => 0
  | S fuel' =>
      let '(i, j, k) := find_longest_match a b alo ahi blo bhi in
      if k =? 0 then 0
      else
        k
        + (if (alo <? i) && (blo <? j) then matched a b fuel' alo i blo j
           else 0)
        + (if (i + k <? ahi) && (j + k <? bhi)
           then matched a b fuel' (i + k) ahi (j + k) bhi
           else 0)
  end.

Definition matches (a b : str) : nat :=
  matched a b (S (List.length a)) 0 (List.length a) 0 (List.length b).

(** [ratio()]: [2.0 * matches / length if length else 1.0] *)
Definition ratio (a b : str) : Q :=
  let length := (List.length a + List.length b)%nat in
  if length =? 0 then 1%Q
  else (Z.of_nat (2 * matches a b) # Pos.of_nat length)%Q.

End Difflib.

Module Similarity.
Import NameMatching.

(** [set(l)]: the distinct elements. *)
Definition to_set (l : list str) : list str :=
  nodup (list_eq_dec ascii_dec) l.

(** [s1 & s2] and [s1 | s2] *)
Definition set_and (s1 s2 : list str) : list str :=
  filter (fun w => mem w s2) s1.
Definition set_or (s1 s2 : list str) : list str :=
  s1 ++ filter (fun w => negb (mem w s1)) s2.

(** [x / y] on two lengths *)
Definition div_len (x y : nat) : Q := (Z.of_nat x # Pos.of_nat y)%Q.

(** [x > y] on floats *)
Definition Qgtb (x y : Q) : bool := negb (Qle_bool x y).

Definition calculate_similarity (name1 name2 : str) : Q :=
  if negb (nonempty name1) || negb (nonempty name2) then 0%Q
  else
    let norm1 := normalize_name name1 in
    let norm2 := normalize_name name2 in
    if str_eqb norm1 norm2 then 1%Q
    else
      let words1 := to_set (split norm1) in
      let words2 := to_set (split norm2) in
      let fallback :=
        let sequence_similarity := Difflib.ratio norm1 norm2 in
        if Qgtb sequence_similarity (8 # 10)%Q then sequence_similarity
        else 0%Q in
      if nonempty words1 && nonempty words2 then
        let intersection := List.length (set_and words1 words2) in
        let union := List.length (set_or words1 words2) in
        let jaccard :=
          if 0 <? union then div_len intersection union else 0%Q in
        if 2 <=? intersection then jaccard else fallback
      else fallback.

(** The default of the parameter [threshold]. *)
Definition default_threshold : Q := (8 # 10)%Q.

Definition is_name_match (name1 name2 : str) (threshold : Q) : bool :=
  Qle_bool threshold (calculate_similarity name1 name2).

End Similarity.

(** ** Predicates on normalized names *)

Module NameShape.
Import NameMatching.

(** A character that [lower], the whitespace collapse and the punctuation
    filter leave alone and that ends no word. *)
Definition clean_char (c : ascii) : bool :=
  negb (is_space c) && negb (is_punct c) && Ascii.eqb (lower_char c) c.

(** A word as [normalize_name] emits them: at least two clean characters,
    and not a key of the nickname table. *)
Definition word_ok (w : str) : bool :=
  forallb clean_char w && (1 <? List.length w)
  && str_eqb (dict_get nickname_map w w) w.

(** [words[0] in self.prefixes] and [words[-1] in self.suffixes], false on
    the empty list. *)
Definition head_is_prefix (words : list str) : bool :=
  match words with
  | w :: _ => mem w prefixes
  | [] => false
  end.

Definition last_is_suffix (words : list str) : bool :=
  match rev words with
  | w :: _ => mem w suffixes
  | [] => false
  end.

(** A word without whitespace, and a word that [split] can return. *)
Definition space_free (w : str) : Prop :=
  Forall (fun c => is_space c = false) w.

Definition shaped (w : str) : Prop := w <> [] /\ space_free w.

End NameShape.

(** ** Windows of the matcher *)

Module DifflibShape.
Import Difflib.

(** The block [(i, j, k)] lies in the window [a[alo:ahi]], [b[blo:bhi]]. *)
Definition in_window (alo ahi blo bhi : nat) (best : best_t) : Prop :=
  let '(i, j, k) := best in
  alo <= i /\ i + k <= ahi /\ blo <= j /\ j + k <= bhi.

(** Every run recorded in [j2len] fits in [r] rows and starts at or after
    [blo]. *)
Definition run_bound (blo r : nat) (j2len : nat -> nat) : Prop :=
  forall j, j2len j <= r /\ j2len j <= j + 1 - blo.

End DifflibShape.

(** ** Python values, exceptions and results *)

Module Py.

Inductive exn : Type :=
  | TypeError
  | ValueError
  | AttributeError
  | OverflowError
  | ParseError
  | OtherError (what : str).

(** The outcome of a call: a value, or a raised exception. *)
Inductive Res (A : Type) : Type :=
  | Ok (a : A)
  | Raise (e : exn).
Arguments Ok {A} a.
Arguments Raise {A} e.

Definition bind {A B} (r : Res A) (k : A -> Res B) : Res B :=
  match r with
  | Ok a => k a
  | Raise e => Raise e
  end.

(** [try: r  except Exception: h] *)
Definition try_except {A} (r : Res A) (h : exn -> A) : A :=
  match r with
  | Ok a => a
  | Raise e => h e
  end.

(** The values that reach [json.dumps] as arguments of cached calls;
    [PObj] stands for any other object (a float, a dict, an instance such
    as [self]). *)
Unset Elimination Schemes.
Inductive pyval : Type :=
  | PNone
  | PBool (b : bool)
  | PInt (z : Z)
  | PStr (s : str)
  | PList (l : list pyval)
  | PObj (id : nat).
Set Elimination Schemes.

(** [a < b] on [str]: lexicographic on the code points. *)
Fixpoint str_compare (a b : str) : comparison :=
  match a, b with
  | [], [] => Eq
  | [], _ :: _ => Lt
  | _ :: _, [] => Gt
  | x :: a', y :: b' =>
      match Nat.compare (nat_of_ascii x) (nat_of_ascii y) with
      | Eq => str_compare a' b'
      | c => c
      end
  end.

Definition str_ltb (a b : str) : bool :=
  match str_compare a b with Lt => true | _ => false end.

End Py.

Notation "'let*' x ':=' r 'in' k" := (Py.bind r (fun x => k))
  (at level 10, x name, r at level 100, k at level 200).

(** ** utils.py: Cache and the decorator cached *)

Module Cache.
Import Py.

(** Instants ([datetime]) and durations ([timedelta]) in microseconds. *)
Definition hours (n : Z) : Z := (n * 3600 * 1000000)%Z.
Definition days (n : Z) : Z := (n * 24 * 3600 * 1000000)%Z.

(** [self.default_ttl] *)
Definition default_ttl : list (str * Z) :=
  [(lit "form4", hours 1); (lit "13f", days 1); (lit "10k", days 7);
   (lit "10q", days 7); (lit "8k", hours 1); (lit "default", hours 4)].

Fixpoint ttl_get (d : list (str * Z)) (k : str) (default : Z) : Z :=
  match d with
  | [] => default
  | (k', v) :: rest => if str_eqb k k' then v else ttl_get rest k default
  end.

(** [self.default_ttl.get(filing_type.lower(), self.default_ttl['default'])] *)
Definition ttl_of (filing_type : str) : Z :=
  ttl_get default_ttl (lower filing_type) (hours 4).

(** [sorted(kwargs.items())]: the items of a dict have distinct keys, so
    the order of two items is the order of their keys. *)
Definition item_ltb {V} (x y : str * V) : bool := str_ltb (fst x) (fst y).

Fixpoint insert_sorted {V} (x : str * V) (l : list (str * V))
    : list (str * V) :=
  match l with
  | [] => [x]
  | y :: t => if item_ltb y x then y :: insert_sorted x t else x :: l
  end.

Definition sorted {V} (l : list (str * V)) : list (str * V) :=
  fold_right insert_sorted [] l.

(** [key_parts = [func.__name__, args, sorted(kwargs.items())]]; tuples
    are written as lists, as [json.dumps] does. *)
Definition key_parts (name : str) (args : list pyval)
    (kwargs : list (str * pyval)) : pyval :=
  PList [PStr name; PList args;
         PList (map (fun kv => PList [PStr (fst kv); snd kv])
                    (sorted kwargs))].

(** An entry of [self.cache]; [V] is the type of the values the cached
    functions return other than [None], so that a stored result is [None]
    or [Some v]. *)
Record entry (V : Type) : Type := {
  value : option V;
  expires_at : Z;
  filing_type : str
}.

(** [self.cache], from hex digests to entries. *)
Abbreviation store V := (gmap (list ascii) (entry V)).

Section WithLibraries.

(** [json.dumps(v, sort_keys=True)], which raises [TypeError] on a value
    that has no JSON form, and [hashlib.md5(s.encode()).hexdigest()]. *)
Variable json_dumps : pyval -> Res str.
Variable md5_hexdigest : str -> str.

(** The values the cached functions return, other than [None]; a result
    is [None] or [Some v]. *)
Variable V : Type.

Definition _get_cache_key (parts : pyval) : Res str :=
  let* key_str := json_dumps parts in
  Ok (md5_hexdigest key_str).

(** [Cache.get], with the reading [now] of the clock. The answer [None]
    is a miss, an expired entry, or a stored [None]. *)
Definition get (parts : pyval) (now : Z) (c : store V)
    : Res (option V * store V) :=
  let* cache_key := _get_cache_key parts in
  match c !! cache_key with
  | Some e =>
      if (now <? expires_at e)%Z then Ok (value e, c)
      else Ok (None, delete cache_key c)
  | None => Ok (None, c)
  end.

(** [Cache.set], with the reading [now] of the clock. *)
Definition set (parts : pyval) (v : option V) (ftype : str) (now : Z)
    (c : store V) : Res (store V) :=
  let* cache_key := _get_cache_key parts in
  let ttl := ttl_of ftype in
  Ok (<[cache_key := {| value := v; expires_at := (now + ttl)%Z;
                        filing_type := ftype |}]> c).

(** [Cache.clear] *)
Definition clear (c : store V) : store V := ∅.

(** The process: the global cache and the number of times the decorated
    function has run. *)
Record state : Type := {
  cache : store V;
  runs : nat
}.

(** The [wrapper] that [cached(filing_type)(func)] returns, called with
    positional arguments [args] and keyword arguments [kwargs]. The
    function is given the number of its earlier runs, so that its result
    may change from run to run; [t_get] and [t_set] are the readings of
    the clock in [cache.get] and in [cache.set]. *)
Definition wrapper (ftype : str) (name : str)
    (func : nat -> list pyval -> list (str * pyval) -> Res (option V))
    (args : list pyval) (kwargs : list (str * pyval))
    (t_get t_set : Z) (st : state) : Res (option V) * state :=
  let parts := key_parts name args kwargs in
  match get parts t_get (cache st) with
  | Raise e => (Raise e, st)
  | Ok (Some v, c) => (Ok (Some v), {| cache := c; runs := runs st |})
  | Ok (None, c) =>
      let st1 := {| cache := c; runs := S (runs st) |} in
      match func (runs st) args kwargs with
      | Raise e => (Raise e, st1)
      | Ok result =>
          match set parts result ftype t_set c with
          | Raise e => (Raise e, st1)
          | Ok c' => (Ok result, {| cache := c'; runs := S (runs st) |})
          end
      end
  end.

End WithLibraries.

End Cache.

(** ** Instances of the library functions for the examples *)

Module CacheExamples.
Import Py.

Definition dquote : ascii := ascii_of_nat 34.
Definition quote (s : str) : str := dquote :: s ++ [dquote].

Definition decimal (z : Z) : str :=
  lit (DecimalString.NilZero.string_of_int (Z.to_int z)).

(** A printer that agrees with [json.dumps] on [None], booleans,
    integers, strings without characters to escape, and lists of those,
    and that rejects the other objects as [json.dumps] rejects an
    instance. *)
Fixpoint example_dumps (v : pyval) : Res str :=
  match v with
  | PNone => Ok (lit "null")
  | PBool true => Ok (lit "true")
  | PBool false => Ok (lit "false")
  | PInt z => Ok (decimal z)
  | PStr s => Ok (quote s)
  | PList l =>
      let* body :=
        (fix items (l : list pyval) : Res str :=
           match l with
           | [] => Ok []
           | [x] => example_dumps x
           | x :: t =>
               let* a := example_dumps x in
               let* b := items t in
               Ok (a ++ lit ", " ++ b)
           end) l in
      Ok (lit "[" ++ body ++ lit "]")
  | PObj _ => Raise TypeError
  end.

(** A stand-in for the digest: the text itself. *)
Definition example_digest (s : str) : str := s.

(** A function that finds nothing: it returns [None] on every run. *)
Definition finds_nothing (run : nat) (args : list pyval)
    (kwargs : list (str * pyval)) : Res (option nat) := Ok None.

(** A function whose result is the number of its earlier runs. *)
Definition counts_runs (run : nat) (args : list pyval)
    (kwargs : list (str * pyval)) : Res (option nat) := Ok (Some run).

Definition fresh : Cache.state nat := {| Cache.cache := ∅; Cache.runs := 0 |}.

End CacheExamples.

(** ** utils.py: dates and numbers *)

Module Utils.
Import Py.

(** A [date] is its proleptic Gregorian ordinal ([date.toordinal()]); the
    difference of two dates in days is the difference of the ordinals. *)
Abbreviation date := Z.

Definition date_formats : list str :=
  map lit ["%Y-%m-%d"; "%Y%m%d"; "%m/%d/%Y"; "%m-%d-%Y"; "%d-%b-%Y";
           "%Y-%m-%dT%H:%M:%S"; "%Y-%m-%dT%H:%M:%S%z"]%string.

Section WithStrptime.

(** [datetime.strptime(text, fmt).date()], or [None] when [strptime]
    raises [ValueError]. *)
Variable strptime_date : str -> str -> option date.

Fixpoint try_formats (date_str : str) (fmts : list str) : option date :=
  match fmts with
  | [] => None
  | fmt :: rest =>
      match strptime_date (strip date_str) fmt with
      | Some parsed => Some parsed
      | None => try_formats date_str rest
      end
  end.

(** [parse_date] on a text. *)
Definition parse_date (date_str : str) : option date :=
  if negb (nonempty date_str) then None
  else try_formats date_str date_formats.

(** [parse_date] on an optional text ([None] is falsy). *)
Definition parse_date_opt (date_str : option str) : option date :=
  match date_str with
  | None => None
  | Some s => parse_date s
  end.

End WithStrptime.

Definition remove_char (c : ascii) (s : str) : str :=
  filter (fun x => negb (Ascii.eqb x c)) s.

Definition startswith_char (c : ascii) (s : str) : bool :=
  match s with
  | x :: _ => Ascii.eqb x c
  | [] => false
  end.

Definition endswith_char (c : ascii) (s : str) : bool :=
  startswith_char c (rev s).

(** [s[1:-1]] *)
Definition inner (s : str) : str := removelast (tl s).

Section WithFloat.

(** [float(text)], or [None] when it raises [ValueError]. *)
Variable py_float : str -> option Q.

(** [clean_number] on what [_get_text] returns: a text or [None]. *)
Definition clean_number (value : option str) : option Q :=
  match value with
  | None => None
  | Some v =>
      let cleaned := strip v in
      let cleaned := remove_char ","%char cleaned in
      let cleaned := remove_char "$"%char cleaned in
      let cleaned := remove_char "%"%char cleaned in
      let cleaned :=
        if startswith_char "("%char cleaned && endswith_char ")"%char cleaned
        then "-"%char :: inner cleaned
        else cleaned in
      py_float cleaned
  end.

End WithFloat.

Definition is_digit (c : ascii) : bool :=
  let n := nat_of_ascii c in (48 <=? n) && (n <=? 57).

(** [s.zfill(width)] on a text of digits. *)
Definition zfill (width : nat) (s : str) : str :=
  repeat "0"%char (width - List.length s) ++ s.

(** [str(x)] for an optional text: [str(None)] is ["None"]. *)
Definition str_of_opt (x : option str) : str :=
  match x with
  | Some s => s
  | None => lit "None"
  end.

(** [normalize_cik]: [re.sub(r'\D', '', str(cik)).zfill(10)] *)
Definition normalize_cik (cik : option str) : str :=
  zfill 10 (filter is_digit (str_of_opt cik)).

End Utils.

(** ** cross_company_search.py: determine_position_status *)

Module Status.
Import Py Utils.

(** A transaction as [to_dict] gives it: a dict from field names to
    values. *)
Definition dict := list (str * pyval).

(** [d.get(k, default)] *)
Fixpoint dict_get (d : dict) (k : str) (default : pyval) : pyval :=
  match d with
  | [] => default
  | (k', v) :: rest => if str_eqb k k' then v else dict_get rest k default
  end.

(** [bool(v)] *)
Definition truthy (v : pyval) : bool :=
  match v with
  | PNone => false
  | PBool b => b
  | PInt z => negb (z =? 0)%Z
  | PStr s => nonempty s
  | PList l => nonempty l
  | PObj _ => true
  end.

Section WithStrptime.
Variable strptime_date : str -> str -> option date.

(** [parse_date(v)] on a value of any type: a falsy value gives [None];
    a text is parsed; any other value has no [strip] method. *)
Definition parse_date_val (v : pyval) : Res (option date) :=
  if negb (truthy v) then Ok None
  else match v with
       | PStr s => Ok (parse_date strptime_date s)
       | _ => Raise AttributeError
       end.

(** The values the generator hands to [max], before they are parsed:
    [t.get('transaction_date', '') for t in transactions
     if t.get('transaction_date')]. *)
Definition transaction_dates (transactions : list dict) : list pyval :=
  map (fun t => dict_get t (lit "transaction_date") (PStr []))
      (filter (fun t => truthy (dict_get t (lit "transaction_date") PNone))
              transactions).

(** [max] after its first item: each further item is compared with the
    largest so far, and a comparison with [None] raises [TypeError]. *)
Fixpoint max_loop (largest : option date) (rest : list pyval)
    : Res (option date) :=
  match rest with
  | [] => Ok largest
  | v :: rest' =>
      let* item := parse_date_val v in
      match item, largest with
      | Some d, Some m => max_loop (Some (if (m <? d)%Z then d else m)) rest'
      | _, _ => Raise TypeError
      end
  end.

(** [max(...)] over the parsed dates; on no item it raises
    [ValueError]. *)
Definition max_date (vals : list pyval) : Res (option date) :=
  match vals with
  | [] => Raise ValueError
  | v :: rest =>
      let* first := parse_date_val v in
      max_loop first rest
  end.

(** [(current_date - latest_transaction).days]; [None] has no
    subtraction. *)
Definition days_since (current_date : date) (latest : option date) : Res Z :=
  match latest with
  | Some d => Ok (current_date - d)%Z
  | None => Raise TypeError
  end.

Definition determine_position_status (transactions : list dict)
    (current_date : date) : str :=
  if negb (nonempty transactions) then lit "unknown"
  else
    try_except
      (let* latest_transaction := max_date (transaction_dates transactions) in
       let* days_since_last := days_since current_date latest_transaction in
       if (days_since_last <=? 365)%Z then Ok (lit "current")
       else if (730 <=? days_since_last)%Z then Ok (lit "former")
       else Ok (lit "unknown"))
      (fun _ => lit "unknown").

End WithStrptime.

End Status.

(** ** Instances of the library functions for the examples *)

Module LibExamples.
Import Utils.

(** An excerpt of [strptime] with the format ["%Y-%m-%d"]: six dates and
    their ordinals. *)
Definition calendar : list (str * date) :=
  [(lit "2023-01-15", 738535%Z); (lit "2024-01-01", 738886%Z);
   (lit "2024-08-26", 739124%Z); (lit "2025-06-22", 739424%Z);
   (lit "2026-10-05", 739894%Z); (lit "2026-11-04", 739924%Z)].

Fixpoint lookup_date (table : list (str * date)) (text : str) : option date :=
  match table with
  | [] => None
  | (k, d) :: rest => if str_eqb text k then Some d else lookup_date rest text
  end.

Definition example_strptime (text fmt : str) : option date :=
  if str_eqb fmt (lit "%Y-%m-%d") then lookup_date calendar text else None.

(** [float] on a run of decimal digits; other texts are not read. *)
Definition digit_value (c : ascii) : Z := Z.of_nat (nat_of_ascii c - 48).

Definition example_float (text : str) : option Q :=
  if nonempty text && forallb is_digit text
  then Some (inject_Z (fold_left (fun acc c => acc * 10 + digit_value c)%Z
                                 text 0%Z))
  else None.

(** A transaction dict with the given date. *)
Definition dated (text : string) : Status.dict :=
  [(lit "insider_name", Py.PStr (lit "KLAPPA GALE E"));
   (lit "transaction_date", Py.PStr (lit text))].

End LibExamples.

(** ** xml.etree.ElementTree *)

Module ET.

(** An element: its tag, its text (the text before the first child, or
    [None]) and its children. *)
Unset Elimination Schemes.
Inductive Element : Type :=
  | Elem (tag : str) (text : option str) (children : list Element).
Set Elimination Schemes.

Definition tag (e : Element) : str := let 'Elem t _ _ := e in t.
Definition text (e : Element) : option str := let 'Elem _ x _ := e in x.
Definition children (e : Element) : list Element := let 'Elem _ _ c := e in c.

(** [bool(e)]: an element without children is falsy. *)
Definition truthy (e : Element) : bool := nonempty (children e).

(** [e.iter()]: the element and its descendants, in document order. *)
Fixpoint iter (e : Element) : list Element :=
  match e with
  | Elem _ _ cs =>
      e :: (fix each (l : list Element) : list Element :=
              match l with
              | [] => []
              | c :: r => iter c ++ each r
              end) cs
  end.

Definition descendants (e : Element) : list Element :=
  flat_map iter (children e).

Definition named (t : str) (l : list Element) : list Element :=
  filter (fun c => str_eqb (tag c) t) l.

(** The paths of the sources: [first/rest...] from the children, or
    [.//first/rest...] from all the descendants. *)
Record path : Type := {
  anywhere : bool;
  first : str;
  rest : list str
}.

(** [e.findall(path)], in document order. *)
Definition findall (p : path) (e : Element) : list Element :=
  let start :=
    if anywhere p then named (first p) (descendants e)
    else named (first p) (children e) in
  fold_left (fun found t => flat_map (fun x => named t (children x)) found)
            (rest p) start.

(** [e.find(path)] *)
Definition find (p : path) (e : Element) : option Element :=
  hd_error (findall p e).

(** ['.//' + path] *)
Definition deep (p : path) : path :=
  {| anywhere := true; first := first p; rest := rest p |}.

(** [tag], [.//tag] and [.//tag/value] *)
Definition child (t : string) : path :=
  {| anywhere := false; first := lit t; rest := [] |}.
Definition any (t : string) : path :=
  {| anywhere := true; first := lit t; rest := [] |}.
Definition any_value (t : string) : path :=
  {| anywhere := true; first := lit t; rest := [lit "value"] |}.

End ET.

(** ** BeautifulSoup *)

Module Soup.

(** A node of the soup: a string, or a tag with its contents. *)
Unset Elimination Schemes.
Inductive Node : Type :=
  | Text (s : str)
  | Tag (name : str) (contents : list Node).
Set Elimination Schemes.

(** [n.text]: the strings below the node, concatenated. *)
Fixpoint get_text (n : Node) : str :=
  match n with
  | Text s => s
  | Tag _ cs =>
      (fix each (l : list Node) : str :=
         match l with
         | [] => []
         | c :: r => get_text c ++ each r
         end) cs
  end.

(** The tags of a list of nodes and below them, in document order. *)
Fixpoint tags_in (n : Node) : list Node :=
  match n with
  | Text _ => []
  | Tag _ cs =>
      n :: (fix each (l : list Node) : list Node :=
              match l with
              | [] => []
              | c :: r => tags_in c ++ each r
              end) cs
  end.

Definition contents (n : Node) : list Node :=
  match n with
  | Text _ => []
  | Tag _ cs => cs
  end.

Definition has_name (t : str) (n : Node) : bool :=
  match n with
  | Text _ => false
  | Tag name _ => str_eqb name t
  end.

(** [n.find_all(name)] and [n.find(name)]: the tags below [n]. *)
Definition find_all (t : str) (n : Node) : list Node :=
  filter (has_name t) (flat_map tags_in (contents n)).

Definition find (t : str) (n : Node) : option Node :=
  hd_error (find_all t n).

End Soup.

(** ** models.py and form4_parser.py *)

Module Form4.
Import Py Utils.

Inductive TransactionType : Type :=
  | PURCHASE | SALE | GIFT | CONVERSION | EXERCISE | OTHER.

Inductive OwnershipType : Type := DIRECT | INDIRECT.

Record InsiderTransaction : Type := {
  insider_name : str;
  insider_title : option str;
  company_name : str;
  company_cik : option str;
  ticker : option str;
  transaction_date : option date;
  transaction_type : TransactionType;
  security_title : str;
  shares : Q;
  price_per_share : option Q;
  total_value : option Q;
  ownership_type : OwnershipType;
  shares_owned_after : option Q;
  filing_date : Z;
  accession_number : str;
  form_type : str
}.

(** [TRANSACTION_CODE_MAP.get(code, TransactionType.OTHER)]; the code is
    a text or [None]. *)
Definition transaction_code_map : list (str * TransactionType) :=
  [(lit "P", PURCHASE); (lit "S", SALE); (lit "G", GIFT);
   (lit "C", CONVERSION); (lit "M", EXERCISE); (lit "F", SALE);
   (lit "D", SALE); (lit "A", PURCHASE); (lit "J", OTHER); (lit "K", OTHER);
   (lit "L", OTHER); (lit "U", OTHER); (lit "V", OTHER); (lit "W", OTHER);
   (lit "X", EXERCISE); (lit "Z", OTHER)].

Fixpoint code_get (m : list (str * TransactionType)) (code : str)
    : TransactionType :=
  match m with
  | [] => OTHER
  | (k, v) :: rest => if str_eqb code k then v else code_get rest code
  end.

Definition transaction_type_of (code : option str) : TransactionType :=
  match code with
  | Some c => code_get transaction_code_map c
  | None => OTHER
  end.

(** Truth of an optional text and of an optional float. *)
Definition truthy_str (x : option str) : bool :=
  match x with Some s => nonempty s | None => false end.

Definition truthy_float (x : option Q) : bool :=
  match x with Some q => negb (Qeq_bool q 0) | None => false end.

(** [a or b] on optional values *)
Definition or_str (a b : option str) : option str :=
  if truthy_str a then a else b.

Definition or_float (a b : option Q) : option Q :=
  if truthy_float a then a else b.

(** The text of a found element, when it is there and not empty. *)
Definition found_text (found : option ET.Element) : option str :=
  match found with
  | Some e => if truthy_str (ET.text e) then ET.text e else None
  | None => None
  end.

(** [_get_text(element, path, default)] *)
Definition _get_text (element : option ET.Element) (p : ET.path)
    (default : option str) : option str :=
  match element with
  | None => default
  | Some el =>
      match found_text (ET.find p el) with
      | Some t => Some (strip t)
      | None =>
          if negb (ET.anywhere p) then
            match found_text (ET.find (ET.deep p) el) with
            | Some t => Some (strip t)
            | None => default
            end
          else default
      end
  end.

(** The filing information once [_extract_filing_info] has found both
    names; a key that was not set reads [None]. *)
Record FilingInfo : Type := {
  fi_company_name : str;
  fi_company_cik : option str;
  fi_ticker : option str;
  fi_insider_name : str;
  fi_insider_title : option str;
  fi_period_of_report : option date;
  fi_filing_date : Z;
  fi_form_type : str
}.

Definition dquote : ascii := ascii_of_nat 34.

(** *** Namespace declarations *)

(** The length of the run of characters other than [stop] that starts
    [s], and the text from [stop] on. *)
Fixpoint run_until (stop : ascii) (s : str) : nat * str :=
  match s with
  | [] => (0, [])
  | c :: t =>
      if Ascii.eqb c stop then (0, s)
      else let '(n, r) := run_until stop t in (S n, r)
  end.

Fixpoint starts_with (prefix s : str) : bool :=
  match prefix, s with
  | [], _ => true
  | p :: prefix', c :: s' => Ascii.eqb p c && starts_with prefix' s'
  | _ :: _, [] => false
  end.

(** The length of the match, at the start of [s], of the pattern of
    line 68: the letters xmlns, a run of characters other than the equals
    sign, the equals sign, and a value between two double quotes. The
    runs are greedy, and a shorter run never helps the match. *)
Definition match_xmlns (s : str) : option nat :=
  if starts_with (lit "xmlns") s then
    let '(n1, r1) := run_until "="%char (skipn 5 s) in
    match r1 with
    | _ :: q :: r2 =>
        if Ascii.eqb q dquote then
          let '(n2, r3) := run_until dquote r2 in
          match r3 with
          | _ :: _ => Some (5 + n1 + 2 + n2 + 1)
          | [] => None
          end
        else None
    | _ => None
    end
  else None.

(** [re.sub] of that pattern by the empty text: the matches are removed
    from left to right; [skip] counts the characters of the current
    match that are still to be dropped. *)
Fixpoint remove_xmlns (skip : nat) (s : str) : str :=
  match s with
  | [] => []
  | c :: t =>
      match skip with
      | S skip' => remove_xmlns skip' t
      | 0 =>
          match match_xmlns s with
          | Some (S len) => remove_xmlns len t
          | _ => c :: remove_xmlns 0 t
          end
      end
  end.

(** [sub in s] *)
Fixpoint contains (sub s : str) : bool :=
  starts_with sub s
  || match s with
     | [] => false
     | _ :: t => contains sub t
     end.

(** The same for the pattern of line 69, which asks for a colon after
    the letters xmlns. *)
Definition match_xmlns_colon (s : str) : option nat :=
  if starts_with (lit "xmlns:") s then
    let '(n1, r1) := run_until "="%char (skipn 6 s) in
    match r1 with
    | _ :: q :: r2 =>
        if Ascii.eqb q dquote then
          let '(n2, r3) := run_until dquote r2 in
          match r3 with
          | _ :: _ => Some (6 + n1 + 2 + n2 + 1)
          | [] => None
          end
        else None
    | _ => None
    end
  else None.

Fixpoint remove_xmlns_colon (skip : nat) (s : str) : str :=
  match s with
  | [] => []
  | c :: t =>
      match skip with
      | S skip' => remove_xmlns_colon skip' t
      | 0 =>
          match match_xmlns_colon s with
          | Some (S len) => remove_xmlns_colon len t
          | _ => c :: remove_xmlns_colon 0 t
          end
      end
  end.

(** Lines 64-69: the two substitutions, one after the other. The second
    one acts on what the first has left, where a removal may have put the
    pieces of a prefixed declaration side by side. *)
Definition strip_namespaces (xml_content : str) : str :=
  if contains (lit "xmlns") xml_content
  then remove_xmlns_colon 0 (remove_xmlns 0 xml_content)
  else xml_content.

Section WithLibraries.

Variable strptime_date : str -> str -> option date.
Variable py_float : str -> option Q.
(** [ET.fromstring]; [None] is [ET.ParseError], the exception the parser
    raises on a text that is not well-formed. *)
Variable et_fromstring : str -> option ET.Element.
(** [BeautifulSoup(content, 'xml')], which may raise. *)
Variable beautiful_soup : str -> Res Soup.Node.
(** [datetime.now()] *)
Variable now : Z.

Definition first_of (a b : option ET.Element) : option ET.Element :=
  match a with Some _ => a | None => b end.

(** The titles that [_extract_filing_info] collects from the
    relationship flags. *)
Definition relationship_titles (relationships : ET.Element) : list str :=
  let flag t :=
    match _get_text (Some relationships) (ET.child t) None with
    | Some v => str_eqb v (lit "1")
    | None => false
    end in
  (if flag "isDirector"%string then [lit "Director"] else [])
  ++ (if flag "isOfficer"%string then
        match _get_text (Some relationships) (ET.child "officerTitle") None with
        | Some officer_title =>
            if nonempty officer_title then [officer_title] else []
        | None => []
        end
      else [])
  ++ (if flag "isTenPercentOwner"%string then [lit "10% Owner"] else []).

Definition _extract_filing_info (root : ET.Element) : option FilingInfo :=
  let issuer := ET.find (ET.any "issuer") root in
  let company_name :=
    match issuer with
    | Some i => _get_text issuer (ET.child "issuerName") None
    | None => None
    end in
  let company_cik :=
    match issuer with
    | Some i =>
        Some (normalize_cik (_get_text issuer (ET.child "issuerCik") None))
    | None => None
    end in
  let ticker :=
    match issuer with
    | Some i => _get_text issuer (ET.child "issuerTradingSymbol") None
    | None => None
    end in
  let owner :=
    first_of (ET.find (ET.any "reportingOwner") root)
             (ET.find (ET.child "reportingOwner") root) in
  let owner_id :=
    match owner with
    | Some o =>
        first_of (ET.find (ET.any "reportingOwnerId") o)
                 (ET.find (ET.child "reportingOwnerId") o)
    | None => None
    end in
  let insider_name :=
    match owner_id with
    | Some _ =>
        or_str (_get_text owner_id (ET.child "rptOwnerName") None)
          (or_str (_get_text owner_id (ET.child "reportingOwnerName") None)
             (or_str (_get_text owner_id (ET.any "rptOwnerName") None)
                (_get_text owner_id (ET.any "reportingOwnerName") None)))
    | None => None
    end in
  let insider_title :=
    match owner with
    | Some o =>
        match ET.find (ET.any "reportingOwnerRelationship") o with
        | Some relationships =>
            match relationship_titles relationships with
            | [] => None
            | titles => Some (join (lit ", ") titles)
            end
        | None => None
        end
    | None => None
    end in
  let period := _get_text (Some root) (ET.any "periodOfReport") None in
  let period_of_report :=
    if truthy_str period then parse_date_opt strptime_date period else None in
  let form_type :=
    match _get_text (Some root) (ET.any "documentType") (Some (lit "4")) with
    | Some t => t
    | None => lit "4"
    end in
  if truthy_str company_name && truthy_str insider_name then
    match company_name, insider_name with
    | Some c, Some i =>
        Some {| fi_company_name := c; fi_company_cik := company_cik;
                fi_ticker := ticker; fi_insider_name := i;
                fi_insider_title := insider_title;
                fi_period_of_report := period_of_report;
                fi_filing_date := now; fi_form_type := form_type |}
    | _, _ => None
    end
  else None.

(** The date of a transaction element, or the period of the report. *)
Definition transaction_date_of (trans_elem : ET.Element)
    (filing_info : FilingInfo) : option date :=
  let trans_date_str :=
    _get_text (Some trans_elem) (ET.any_value "transactionDate") None in
  if truthy_str trans_date_str then parse_date_opt strptime_date trans_date_str
  else fi_period_of_report filing_info.

(** The code of a transaction element; [default] stands for a missing or
    childless [transactionCoding]. *)
Definition transaction_code_of (trans_elem : ET.Element) (default : string)
    : option str :=
  match ET.find (ET.any "transactionCoding") trans_elem with
  | Some trans_coding =>
      if ET.truthy trans_coding
      then _get_text (Some trans_coding) (ET.any "transactionCode") None
      else Some (lit default)
  | None => Some (lit default)
  end.

Definition ownership_type_of (elem : ET.Element) : OwnershipType :=
  match ET.find (ET.any "ownershipNature") elem with
  | Some ownership =>
      match _get_text (Some ownership)
              (ET.any_value "directOrIndirectOwnership") None with
      | Some direct_indirect =>
          if nonempty direct_indirect
             && str_eqb (upper direct_indirect) (lit "I")
          then INDIRECT else DIRECT
      | None => DIRECT
      end
  | None => DIRECT
  end.

(** [shares * price_per_share if price_per_share else None] *)
Definition total_value_of (shares : Q) (price_per_share : option Q)
    : option Q :=
  match price_per_share with
  | Some p => if truthy_float price_per_share then Some (shares * p)%Q else None
  | None => None
  end.

(** The body of [_parse_non_derivative_transaction]. No operation of it
    raises on an element tree, so the handler of its [try] (log and
    return [None]) has nothing to catch. *)
Definition _parse_non_derivative_transaction (trans_elem : ET.Element)
    (filing_info : FilingInfo) (accession_number : str)
    : option InsiderTransaction :=
  let security_title :=
    _get_text (Some trans_elem) (ET.any_value "securityTitle") None in
  match security_title with
  | None => None
  | Some title =>
  if negb (nonempty title) then None else
  match ET.find (ET.any "transactionAmounts") trans_elem with
  | None => None
  | Some trans_amounts =>
  match clean_number py_float
          (_get_text (Some trans_amounts)
             (ET.any_value "transactionShares") None) with
  | None => None
  | Some shares =>
      let price_per_share :=
        clean_number py_float
          (_get_text (Some trans_amounts)
             (ET.any_value "transactionPricePerShare") None) in
      let trans_date := transaction_date_of trans_elem filing_info in
      let trans_code := transaction_code_of trans_elem "P" in
      let trans_type := transaction_type_of trans_code in
      let shares_after :=
        match ET.find (ET.any "postTransactionAmounts") trans_elem with
        | Some post_trans =>
            if ET.truthy post_trans then
              clean_number py_float
                (_get_text (Some post_trans)
                   (ET.any_value "sharesOwnedFollowingTransaction") None)
            else Some 0%Q
        | None => Some 0%Q
        end in
      let ownership_type := ownership_type_of trans_elem in
      let total_value := total_value_of shares price_per_share in
      Some {| insider_name := fi_insider_name filing_info;
              insider_title := fi_insider_title filing_info;
              company_name := fi_company_name filing_info;
              company_cik := fi_company_cik filing_info;
              ticker := fi_ticker filing_info;
              transaction_date := trans_date;
              transaction_type := trans_type;
              security_title := title;
              shares := shares;
              price_per_share := price_per_share;
              total_value := total_value;
              ownership_type := ownership_type;
              shares_owned_after := shares_after;
              filing_date := fi_filing_date filing_info;
              accession_number := accession_number;
              form_type := fi_form_type filing_info |}
  end end end.

Definition _parse_non_derivative_holding (holding_elem : ET.Element)
    (filing_info : FilingInfo) (accession_number : str)
    : option InsiderTransaction :=
  match _get_text (Some holding_elem) (ET.any_value "securityTitle") None with
  | None => None
  | Some title =>
  if negb (nonempty title) then None else
  match ET.find (ET.any "postTransactionAmounts") holding_elem with
  | None => None
  | Some post_trans =>
  match clean_number py_float
          (_get_text (Some post_trans)
             (ET.any_value "sharesOwnedFollowingTransaction") None) with
  | None => None
  | Some shares_owned =>
      Some {| insider_name := fi_insider_name filing_info;
              insider_title := fi_insider_title filing_info;
              company_name := fi_company_name filing_info;
              company_cik := fi_company_cik filing_info;
              ticker := fi_ticker filing_info;
              transaction_date := fi_period_of_report filing_info;
              transaction_type := OTHER;
              security_title := title;
              shares := 0%Q;
              price_per_share := None;
              total_value := None;
              ownership_type := ownership_type_of holding_elem;
              shares_owned_after := Some shares_owned;
              filing_date := fi_filing_date filing_info;
              accession_number := accession_number;
              form_type := fi_form_type filing_info |}
  end end end.

(** The loop over the elements: a parsed record is appended, a [None] is
    skipped. *)
Definition collect {A} (parse : A -> option InsiderTransaction)
    (elems : list A) : list InsiderTransaction :=
  flat_map (fun e => match parse e with Some t => [t] | None => [] end) elems.

Definition _extract_non_derivative_transactions (root : ET.Element)
    (filing_info : FilingInfo) (accession_number : str)
    : list InsiderTransaction :=
  match first_of (ET.find (ET.any "nonDerivativeTable") root)
                 (ET.find (ET.child "nonDerivativeTable") root) with
  | None => []
  | Some non_deriv_table =>
      let trans_elements :=
        match ET.findall (ET.any "nonDerivativeTransaction") non_deriv_table
        with
        | [] => ET.findall (ET.child "nonDerivativeTransaction")
                  non_deriv_table
        | found => found
        end in
      let transactions :=
        collect (fun e => _parse_non_derivative_transaction e filing_info
                            accession_number) trans_elements in
      match transactions with
      | [] =>
          collect (fun e => _parse_non_derivative_holding e filing_info
                              accession_number)
            (ET.findall (ET.any "nonDerivativeHolding") non_deriv_table)
      | _ => transactions
      end
  end.

Definition _parse_derivative_transaction (trans_elem : ET.Element)
    (filing_info : FilingInfo) (accession_number : str)
    : option InsiderTransaction :=
  match _get_text (Some trans_elem) (ET.any_value "securityTitle") None with
  | None => None
  | Some title =>
  if negb (nonempty title) then None else
  let conversion_price :=
    clean_number py_float
      (_get_text (Some trans_elem)
         (ET.any_value "conversionOrExercisePrice") None) in
  match ET.find (ET.any "transactionAmounts") trans_elem with
  | None => None
  | Some trans_amounts =>
  match clean_number py_float
          (_get_text (Some trans_amounts)
             (ET.any_value "transactionShares") None) with
  | None => None
  | Some shares =>
      let price_per_share :=
        clean_number py_float
          (_get_text (Some trans_amounts)
             (ET.any_value "transactionPricePerShare") None) in
      let trans_date := transaction_date_of trans_elem filing_info in
      let trans_code := transaction_code_of trans_elem "M" in
      let trans_type := transaction_type_of trans_code in
      let underlying_shares :=
        match ET.find (ET.any "underlyingSecurity") trans_elem with
        | Some underlying =>
            or_float
              (clean_number py_float
                 (_get_text (Some underlying)
                    (ET.any_value "underlyingSecurityShares") None))
              (Some 0%Q)
        | None => Some 0%Q
        end in
      let total_value := total_value_of shares price_per_share in
      Some {| insider_name := fi_insider_name filing_info;
              insider_title := fi_insider_title filing_info;
              company_name := fi_company_name filing_info;
              company_cik := fi_company_cik filing_info;
              ticker := fi_ticker filing_info;
              transaction_date := trans_date;
              transaction_type := trans_type;
              security_title := title ++ lit " (Derivative)";
              shares := shares;
              price_per_share := or_float price_per_share conversion_price;
              total_value := total_value;
              ownership_type := DIRECT;
              shares_owned_after := underlying_shares;
              filing_date := fi_filing_date filing_info;
              accession_number := accession_number;
              form_type := fi_form_type filing_info |}
  end end end.

Definition _extract_derivative_transactions (root : ET.Element)
    (filing_info : FilingInfo) (accession_number : str)
    : list InsiderTransaction :=
  match ET.find (ET.any "derivativeTable") root with
  | None => []
  | Some deriv_table =>
      collect (fun e => _parse_derivative_transaction e filing_info
                          accession_number)
        (ET.findall (ET.any "derivativeTransaction") deriv_table)
  end.

(** *** The fallback parser *)

(** [x.find(name)] and [x.text] on the result of an earlier [find]:
    [None] has no such attribute. *)
Definition soup_find (t : string) (x : option Soup.Node)
    : Res (option Soup.Node) :=
  match x with
  | Some n => Ok (Soup.find (lit t) n)
  | None => Raise AttributeError
  end.

Definition soup_text (x : option Soup.Node) : Res str :=
  match x with
  | Some n => Ok (Soup.get_text n)
  | None => Raise AttributeError
  end.

(** [trans.find(name).find('value').text] *)
Definition soup_value (trans : Soup.Node) (t : string) : Res str :=
  let* a := soup_find t (Some trans) in
  let* v := soup_find "value" a in
  soup_text v.

(** [float(text)] *)
Definition float_of (text : str) : Res Q :=
  match py_float text with
  | Some q => Ok q
  | None => Raise ValueError
  end.

(** The filing information of the fallback parser. *)
Definition soup_filing_info (soup : Soup.Node) : option FilingInfo :=
  let text_of t := option_map Soup.get_text (Soup.find (lit t) soup) in
  let company_name := text_of "issuerName"%string in
  let company_cik :=
    option_map (fun x => normalize_cik (Some x)) (text_of "issuerCik"%string) in
  let ticker := text_of "issuerTradingSymbol"%string in
  let insider_name := text_of "rptOwnerName"%string in
  match company_name, insider_name with
  | Some c, Some i =>
      if negb (nonempty c) || negb (nonempty i) then None
      else
        Some {| fi_company_name := c; fi_company_cik := company_cik;
                fi_ticker := ticker; fi_insider_name := i;
                fi_insider_title := text_of "officerTitle"%string;
                fi_period_of_report := None;
                fi_filing_date := now; fi_form_type := lit "4" |}
  | _, _ => None
  end.

(** The body of the inner [try] of [_parse_with_beautifulsoup], for one
    [nonDerivativeTransaction] tag. *)
Definition soup_transaction (filing_info : FilingInfo)
    (accession_number : str) (trans : Soup.Node) : Res InsiderTransaction :=
  let* shares_text := soup_value trans "transactionShares" in
  let* shares := float_of shares_text in
  let price := Soup.find (lit "transactionPricePerShare") trans in
  let* price_value :=
    match price with
    | Some p =>
        match Soup.find (lit "value") p with
        | Some v =>
            let* q := float_of (Soup.get_text v) in Ok (Some q)
        | None => Ok None
        end
    | None => Ok None
    end in
  let* date_text := soup_value trans "transactionDate" in
  let trans_date := parse_date strptime_date date_text in
  let* code :=
    soup_text (Soup.find (lit "transactionCode") trans) in
  let* title := soup_value trans "securityTitle" in
  let* after_text := soup_value trans "sharesOwnedFollowingTransaction" in
  let* shares_after := float_of after_text in
  Ok {| insider_name := fi_insider_name filing_info;
        insider_title := fi_insider_title filing_info;
        company_name := fi_company_name filing_info;
        company_cik := fi_company_cik filing_info;
        ticker := fi_ticker filing_info;
        transaction_date := trans_date;
        transaction_type := transaction_type_of (Some code);
        security_title := title;
        shares := shares;
        price_per_share := price_value;
        total_value := total_value_of shares price_value;
        ownership_type := DIRECT;
        shares_owned_after := Some shares_after;
        filing_date := fi_filing_date filing_info;
        accession_number := accession_number;
        form_type := fi_form_type filing_info |}.

(** The loop of the fallback parser: a transaction whose body raises is
    logged and skipped. *)
Fixpoint soup_transactions (filing_info : FilingInfo)
    (accession_number : str) (tags : list Soup.Node)
    : list InsiderTransaction :=
  match tags with
  | [] => []
  | trans :: rest =>
      match soup_transaction filing_info accession_number trans with
      | Ok transaction =>
          transaction :: soup_transactions filing_info accession_number rest
      | Raise _ => soup_transactions filing_info accession_number rest
      end
  end.

Definition _parse_with_beautifulsoup (content : str) (accession_number : str)
    : list InsiderTransaction :=
  try_except
    (let* soup := beautiful_soup content in
     match soup_filing_info soup with
     | None => Ok []
     | Some filing_info =>
         Ok (soup_transactions filing_info accession_number
               (Soup.find_all (lit "nonDerivativeTransaction") soup))
     end)
    (fun _ => []).

(** *** parse_form4_xml *)

(** The result is [Res]: the [try] of [parse_form4_xml] only catches
    [ET.ParseError]. *)
Definition parse_form4_xml (xml_content : str) (accession_number : str)
    : Res (list InsiderTransaction) :=
  let xml_content_clean := strip_namespaces xml_content in
  match et_fromstring xml_content_clean with
  | None => Ok (_parse_with_beautifulsoup xml_content accession_number)
  | Some root =>
      match _extract_filing_info root with
      | None => Ok []
      | Some filing_info =>
          Ok (_extract_non_derivative_transactions root filing_info
                accession_number
              ++ _extract_derivative_transactions root filing_info
                   accession_number)
      end
  end.

End WithLibraries.

End Form4.

(** ** Documents for the examples *)

Module Form4Examples.
Import Py Utils Form4 LibExamples.

Definition leaf (t : string) (x : string) : ET.Element :=
  ET.Elem (lit t) (Some (lit x)) [].

Definition node (t : string) (cs : list ET.Element) : ET.Element :=
  ET.Elem (lit t) None cs.

(** [<t><value>x</value></t>] *)
Definition valued (t : string) (x : string) : ET.Element :=
  node t [leaf "value" x].

(** A sale of 1,000 shares at 50 dollars. *)
Definition sale_1000_at_50 : ET.Element :=
  node "nonDerivativeTransaction"
    [valued "securityTitle" "Common Stock";
     valued "transactionDate" "2026-10-05";
     node "transactionCoding" [leaf "transactionFormType" "4";
                               leaf "transactionCode" "S"];
     node "transactionAmounts"
       [valued "transactionShares" "1000";
        valued "transactionPricePerShare" "50"];
     node "postTransactionAmounts"
       [valued "sharesOwnedFollowingTransaction" "2500"];
     node "ownershipNature" [valued "directOrIndirectOwnership" "D"]].

(** An award of 1,000 shares at the price 0. *)
Definition award_at_0 : ET.Element :=
  node "nonDerivativeTransaction"
    [valued "securityTitle" "Common Stock";
     node "transactionCoding" [leaf "transactionCode" "A"];
     node "transactionAmounts"
       [valued "transactionShares" "1000";
        valued "transactionPricePerShare" "0"]].

(** A grant of 400 options with an exercise price of 25 and no price of
    the transaction itself. *)
Definition option_grant : ET.Element :=
  node "derivativeTransaction"
    [valued "securityTitle" "Stock Option";
     valued "conversionOrExercisePrice" "25";
     node "transactionCoding" [leaf "transactionCode" "A"];
     node "transactionAmounts" [valued "transactionShares" "400"];
     node "underlyingSecurity" [valued "underlyingSecurityShares" "400"]].

(** An exercise of 400 options at the price 5 of its own, with an
    exercise price of 25. *)
Definition option_exercise : ET.Element :=
  node "derivativeTransaction"
    [valued "securityTitle" "Stock Option";
     valued "conversionOrExercisePrice" "25";
     node "transactionCoding" [leaf "transactionCode" "M"];
     node "transactionAmounts"
       [valued "transactionShares" "400";
        valued "transactionPricePerShare" "5"];
     node "underlyingSecurity" [valued "underlyingSecurityShares" "400"]].

Definition ownership_document (transactions : list ET.Element)
    : ET.Element :=
  node "ownershipDocument"
    [leaf "documentType" "4";
     leaf "periodOfReport" "2026-10-05";
     node "issuer" [leaf "issuerCik" "0000783325";
                    leaf "issuerName" "WEC ENERGY GROUP, INC.";
                    leaf "issuerTradingSymbol" "WEC"];
     node "reportingOwner"
       [node "reportingOwnerId" [leaf "rptOwnerCik" "0001209015";
                                 leaf "rptOwnerName" "KLAPPA GALE E"];
        node "reportingOwnerRelationship"
          [leaf "isDirector" "1"; leaf "isOfficer" "1";
           leaf "officerTitle" "Executive Chairman"]];
     node "nonDerivativeTable" transactions].

Definition wec_info : FilingInfo :=
  {| fi_company_name := lit "WEC ENERGY GROUP, INC.";
     fi_company_cik := Some (lit "0000783325");
     fi_ticker := Some (lit "WEC");
     fi_insider_name := lit "KLAPPA GALE E";
     fi_insider_title := Some (lit "Director, Executive Chairman");
     fi_period_of_report := Some 739894%Z;
     fi_filing_date := 0%Z;
     fi_form_type := lit "4" |}.

(** The record of the sale. *)
Definition sale_record : InsiderTransaction :=
  {| insider_name := lit "KLAPPA GALE E";
     insider_title := Some (lit "Director, Executive Chairman");
     company_name := lit "WEC ENERGY GROUP, INC.";
     company_cik := Some (lit "0000783325");
     ticker := Some (lit "WEC");
     transaction_date := Some 739894%Z;
     transaction_type := SALE;
     security_title := lit "Common Stock";
     shares := 1000%Q;
     price_per_share := Some 50%Q;
     total_value := Some 50000%Q;
     ownership_type := DIRECT;
     shares_owned_after := Some 2500%Q;
     filing_date := 0%Z;
     accession_number := lit "0001209015-26-000012";
     form_type := lit "4" |}.

(** A parser that knows one document, and one that rejects every text. *)
Definition reads_sale (text : str) : option ET.Element :=
  Some (ownership_document [sale_1000_at_50]).

Definition rejects (text : str) : option ET.Element := None.

(** A soup in which the issuer is named and the owner is not. *)
Definition soup_without_owner (content : str) : Res Soup.Node :=
  Ok (Soup.Tag (lit "[document]")
        [Soup.Tag (lit "issuerName") [Soup.Text (lit "WEC ENERGY GROUP")];
         Soup.Tag (lit "nonDerivativeTransaction")
           [Soup.Tag (lit "transactionShares")
              [Soup.Tag (lit "value") [Soup.Text (lit "1000")]]]]).

(** [BeautifulSoup] without its XML backend. *)
Definition soup_unavailable (content : str) : Res Soup.Node :=
  Raise (OtherError (lit "FeatureNotFound")).

End Form4Examples.

(** ** sec_fulltext_search.py: generate_name_variations *)

Module Variations.
Import NameMatching.

(** [' '.join(...)] of two or three pieces, as the f-strings build it. *)
Definition spaced (pieces : list str) : str := join (lit " ") pieces.

(** [parts[-1]] and [parts[:-1]] of a non-empty list. *)
Definition last_part (parts : list str) : str := last parts [].
Definition but_last (parts : list str) : list str := removelast parts.

(** The loop that removes duplicates and keeps the order. *)
Fixpoint unique (seen : list str) (variations : list str) : list str :=
  match variations with
  | [] => []
  | v :: rest =>
      let v_clean := strip v in
      if nonempty v_clean && negb (mem v_clean seen)
      then v_clean :: unique (v_clean :: seen) rest
      else unique seen rest
  end.

Definition generate_name_variations (person_name : str) : list str :=
  let normalized := normalize_name person_name in
  let parts := split normalized in
  match parts with
  | [] => [person_name]
  | first_name :: _ =>
      let last_name := last_part parts in
      let base := [person_name; normalized] in
      let two :=
        if 2 <=? List.length parts then
          [spaced [first_name; last_name];
           spaced [last_name; first_name];
           last_name ++ lit ", " ++ first_name;
           spaced [upper last_name; upper first_name];
           upper last_name ++ lit ", " ++ upper first_name;
           spaced [upper last_name; spaced (map upper (but_last parts))]]
        else [] in
      let three :=
        match parts with
        | [f; middle; l] =>
            let m := firstn 1 middle in
            [spaced [f; m ++ lit "."; l];
             spaced [f; m; l];
             spaced [l; f; m];
             spaced [upper l; upper f; upper m]]
        | _ => []
        end in
      unique [] (base ++ two ++ three)
  end.

End Variations.

(** ** cross_company_search.py: get_all_insider_companies *)

Module Search.
Import Py Utils Status.

(** [date.min], [date.max] and the largest [timedelta], in days. *)
Definition date_min : date := 1%Z.
Definition date_max : date := 3652059%Z.
Definition timedelta_max_days : Z := 999999999%Z.

(** [timedelta(days=n)] *)
Definition timedelta_days (n : Z) : Res Z :=
  if (Z.abs n <=? timedelta_max_days)%Z then Ok n else Raise OverflowError.

(** [d - delta] on a date and a duration in days *)
Definition date_sub (d : date) (delta : Z) : Res date :=
  let r := (d - delta)%Z in
  if (date_min <=? r)%Z && (r <=? date_max)%Z then Ok r
  else Raise OverflowError.

Record CompanyInsiderSummary : Type := {
  ticker : str;
  company_name : option str;
  cik : option str;
  transaction_count : Z;
  total_shares_bought : Q;
  total_shares_sold : Q;
  net_shares : Q;
  first_transaction_date : option date;
  last_transaction_date : option date;
  current_position : pyval;
  position_status : str
}.

(** What [get_insider_transactions] returns: the count, the transactions
    as dicts, and the fields of the summary that are read here;
    [date_range] is absent when there is no transaction. *)
Record transactions_result : Type := {
  tr_transaction_count : Z;
  tr_transactions : list dict;
  tr_total_shares_bought : Q;
  tr_total_shares_sold : Q;
  tr_net_shares : Q;
  tr_date_range : option (str * str)
}.

(** An entry of [get_companies_for_person]. *)
Record company_hit : Type := {
  hit_ticker : option str;
  hit_company_name : option str;
  hit_cik : option str;
  hit_filing_count : Z;
  hit_first_filing : option str;
  hit_last_filing : option str
}.

(** The result dictionary without the key ["error"]. *)
Record SearchResult : Type := {
  r_person_name : str;
  r_search_date : date;
  r_search_method : str;
  r_total_companies : nat;
  r_active_positions : nat;
  r_former_positions : nat;
  r_total_transactions : Z;
  r_companies : list CompanyInsiderSummary;
  r_message : option str;
  r_name_variations_searched : option (list str)
}.

(** What the operation returns: the dictionary with the key ["error"]
    (and no company), or a search result. *)
Inductive Outcome : Type :=
  | ErrorResult (person_name : str) (error : str)
  | Found (r : SearchResult).

(** [l[:n]] *)
Definition slice_to {A} (n : Z) (l : list A) : list A :=
  if (0 <=? n)%Z then firstn (Z.to_nat n) l
  else firstn (Z.to_nat (Z.of_nat (List.length l) + n)) l.

(** [x.strip()] on a value read from a dict: only a text has the
    method. *)
Definition strip_val (v : pyval) : Res str :=
  match v with
  | PStr s => Ok (strip s)
  | _ => Raise AttributeError
  end.

(** [companies.sort(key=lambda x: x.last_transaction_date or date.min,
    reverse=True)]: a stable sort, latest first. *)
Definition sort_key (c : CompanyInsiderSummary) : date :=
  match last_transaction_date c with
  | Some d => d
  | None => date_min
  end.

Fixpoint insert_desc (c : CompanyInsiderSummary)
    (l : list CompanyInsiderSummary) : list CompanyInsiderSummary :=
  match l with
  | [] => [c]
  | y :: t =>
      if (sort_key c <? sort_key y)%Z then y :: insert_desc c t else c :: l
  end.

Definition sort_desc (l : list CompanyInsiderSummary)
    : list CompanyInsiderSummary :=
  fold_right insert_desc [] l.

Definition count_status (status : string) (l : list CompanyInsiderSummary)
    : nat :=
  List.length (filter (fun c => str_eqb (position_status c) (lit status)) l).

Section WithCollaborators.

Variable strptime_date : str -> str -> option date.
(** [date.today()] *)
Variable today : date.
(** [SECFullTextSearcher(user_agent).get_companies_for_person(name)] *)
Variable get_companies_for_person : str -> Res (list company_hit).
(** [get_insider_transactions(person_name, company, start_date, end_date,
    user_agent)] *)
Variable get_insider_transactions :
  str -> str -> date -> date -> Res transactions_result.
(** [get_all_public_companies(user_agent)]: the listing, empty when it
    could not be fetched. *)
Variable get_all_public_companies : list dict.
(** The order in which the pool completes the searches. *)
Variable as_completed :
  list (Res (option CompanyInsiderSummary)) ->
  list (Res (option CompanyInsiderSummary)).

(** [parse_date(t.get('transaction_date', '')) or date.min] *)
Definition position_key (t : dict) : Res date :=
  let* d := parse_date_val strptime_date
              (dict_get t (lit "transaction_date") (PStr [])) in
  Ok (match d with Some x => x | None => date_min end).

(** [max(transactions, key=...)] after its first item. *)
Fixpoint max_by_key (best : dict) (best_key : date) (rest : list dict)
    : Res dict :=
  match rest with
  | [] => Ok best
  | t :: rest' =>
      let* k := position_key t in
      if (best_key <? k)%Z then max_by_key t k rest'
      else max_by_key best best_key rest'
  end.

Definition extract_current_position (transactions : list dict) : pyval :=
  match transactions with
  | [] => PNone
  | t :: rest =>
      try_except
        (let* k := position_key t in
         let* latest_transaction := max_by_key t k rest in
         Ok (dict_get latest_transaction (lit "insider_title")
               (PStr (lit "Director"))))
        (fun _ => PNone)
  end.

(** The summary built from the detailed transactions of one company. *)
Definition summarize (ticker : str) (company_name cik : option str)
    (end_date : date) (result : transactions_result)
    : CompanyInsiderSummary :=
  let range_date (pick : str * str -> str) :=
    match tr_date_range result with
    | Some range => parse_date strptime_date (pick range)
    | None => None
    end in
  {| ticker := ticker;
     company_name := company_name;
     cik := cik;
     transaction_count := tr_transaction_count result;
     total_shares_bought := tr_total_shares_bought result;
     total_shares_sold := tr_total_shares_sold result;
     net_shares := tr_net_shares result;
     first_transaction_date := range_date fst;
     last_transaction_date := range_date snd;
     current_position := extract_current_position (tr_transactions result);
     position_status :=
       determine_position_status strptime_date (tr_transactions result)
         end_date |}.

(** The summary kept when the detailed search of a company raised. *)
Definition degraded (ticker : str) (hit : company_hit)
    : CompanyInsiderSummary :=
  {| ticker := ticker;
     company_name := hit_company_name hit;
     cik := hit_cik hit;
     transaction_count := hit_filing_count hit;
     total_shares_bought := 0%Q;
     total_shares_sold := 0%Q;
     net_shares := 0%Q;
     first_transaction_date :=
       parse_date_opt strptime_date (hit_first_filing hit);
     last_transaction_date :=
       parse_date_opt strptime_date (hit_last_filing hit);
     current_position := PStr (lit "Unknown");
     position_status := lit "unknown" |}.

(** One round of the loop over [companies_from_search]. *)
Definition fulltext_company (person_name : str) (min_transactions : Z)
    (start_date end_date : date) (hit : company_hit)
    : list CompanyInsiderSummary :=
  match hit_ticker hit with
  | None => []
  | Some ticker =>
      if negb (nonempty ticker) then []
      else
        match get_insider_transactions person_name ticker start_date end_date
        with
        | Ok result =>
            if (min_transactions <=? tr_transaction_count result)%Z
            then [summarize ticker (hit_company_name hit) (hit_cik hit)
                    end_date result]
            else []
        | Raise _ =>
            if (min_transactions <=? hit_filing_count hit)%Z
            then [degraded ticker hit]
            else []
        end
  end.

(** The full-text strategy: [Raise] when the [try] of line 147 is left
    by its handler. *)
Definition fulltext_search (person_name : str) (min_transactions : Z)
    (start_date end_date : date) : Res (list CompanyInsiderSummary) :=
  let* companies_from_search := get_companies_for_person person_name in
  Ok (flat_map (fulltext_company person_name min_transactions
                  start_date end_date) companies_from_search).

(** [search_company]: the first three lines are outside its [try]. *)
Definition search_company (person_name : str) (min_transactions : Z)
    (start_date end_date : date) (company_info : dict)
    : Res (option CompanyInsiderSummary) :=
  let* ticker := strip_val (dict_get company_info (lit "ticker") (PStr [])) in
  let* company_name :=
    strip_val (dict_get company_info (lit "title") (PStr [])) in
  let* cik := strip_val (dict_get company_info (lit "cik_str") (PStr [])) in
  if negb (nonempty ticker) then Ok None
  else
    match get_insider_transactions person_name ticker start_date end_date with
    | Ok result =>
        if (min_transactions <=? tr_transaction_count result)%Z
        then Ok (Some (summarize ticker (Some company_name) (Some cik)
                         end_date result))
        else Ok None
    | Raise _ => Ok None
    end.

(** The loop over the completed futures: a result is appended, [None]
    and a raised exception are passed over. *)
Definition gather (results : list (Res (option CompanyInsiderSummary)))
    : list CompanyInsiderSummary :=
  flat_map (fun r => match r with Ok (Some c) => [c] | _ => [] end) results.

Definition brute_force_search (person_name : str) (min_transactions : Z)
    (start_date end_date : date) (company_list : list dict)
    : list CompanyInsiderSummary :=
  gather (as_completed
            (map (search_company person_name min_transactions
                    start_date end_date) company_list)).

Definition no_activity_message (person_name search_method : str) : str :=
  lit "No insider activity found for '" ++ person_name ++ lit "'. "
  ++ lit "This could mean: "
  ++ lit "1) The person has not filed Form 4s with the SEC, "
  ++ lit "2) The name format doesn't match SEC records (try variations like 'LAST, FIRST' or 'LAST FIRST MIDDLE'), "
  ++ lit "3) The person may not be a public company insider. "
  ++ lit "Search method used: " ++ search_method.

(** Lines 319-393: filter, sort, count and build the result. *)
Definition build_result (person_name : str) (include_former : bool)
    (use_fulltext_search : bool)
    (companies_with_activity : list CompanyInsiderSummary) : SearchResult :=
  let companies :=
    if negb include_former then
      filter (fun c => str_eqb (position_status c) (lit "current")
                       || str_eqb (position_status c) (lit "unknown"))
             companies_with_activity
    else companies_with_activity in
  let companies := sort_desc companies in
  let search_method :=
    if use_fulltext_search then lit "fulltext" else lit "brute-force" in
  let empty := List.length companies =? 0 in
  {| r_person_name := person_name;
     r_search_date := today;
     r_search_method := search_method;
     r_total_companies := List.length companies;
     r_active_positions := count_status "current" companies;
     r_former_positions := count_status "former" companies;
     r_total_transactions :=
       fold_right Z.add 0%Z (map transaction_count companies);
     r_companies := companies;
     r_message :=
       if empty then Some (no_activity_message person_name search_method)
       else None;
     r_name_variations_searched :=
       if empty
       then Some (firstn 5 (Variations.generate_name_variations person_name))
       else None |}.

Definition get_all_insider_companies (person_name : str)
    (include_former : bool) (min_transactions : Z) (years_back : Z)
    (use_fulltext_search : bool) (company_limit : option Z) : Res Outcome :=
  let end_date := today in
  let* delta := timedelta_days (years_back * 365)%Z in
  let* start_date := date_sub end_date delta in
  let fulltext :=
    if use_fulltext_search
    then Some (fulltext_search person_name min_transactions
                 start_date end_date)
    else None in
  match fulltext with
  | Some (Ok companies_with_activity) =>
      Ok (Found (build_result person_name include_former true
                   companies_with_activity))
  | _ =>
      (* the fallback: the full-text search failed or was not asked for *)
      match get_all_public_companies with
      | [] => Ok (ErrorResult person_name
                    (lit "Could not retrieve public company listings"))
      | _ =>
          let company_list :=
            match company_limit with
            | Some n =>
                if (n =? 0)%Z then get_all_public_companies
                else slice_to n get_all_public_companies
            | None => get_all_public_companies
            end in
          Ok (Found (build_result person_name include_former false
                       (brute_force_search person_name min_transactions
                          start_date end_date company_list)))
      end
  end.

End WithCollaborators.

End Search.

(** ** Collaborators for the examples *)

Module SearchExamples.
Import Py Utils Status Search LibExamples.

(** An index that knows nobody, and one that is down. *)
Definition index_empty (person_name : str) : Res (list company_hit) := Ok [].
Definition index_down (person_name : str) : Res (list company_hit) :=
  Raise (OtherError (lit "ConnectionError")).

(** A transaction service that fails on every company. *)
Definition transactions_down (person_name company : str)
    (start_date end_date : date) : Res transactions_result :=
  Raise (OtherError (lit "ConnectionError")).

(** The pool completes the searches in the order of their submission. *)
Definition in_order (results : list (Res (option CompanyInsiderSummary)))
    : list (Res (option CompanyInsiderSummary)) := results.

(** The result of the search for the empty name when the index knows
    nobody. *)
Definition nobody_found : SearchResult :=
  {| r_person_name := [];
     r_search_date := 739924%Z;
     r_search_method := lit "fulltext";
     r_total_companies := 0;
     r_active_positions := 0;
     r_former_positions := 0;
     r_total_transactions := 0%Z;
     r_companies := [];
     r_message := Some (no_activity_message [] (lit "fulltext"));
     r_name_variations_searched := Some [[]] |}.

End SearchExamples.

(** ** utils.py: the other helpers *)

Module UtilsMore.
Import Py Utils.

(** [normalize_ticker] *)
Definition normalize_ticker (ticker : str) : str :=
  if negb (nonempty ticker) then [] else strip (upper ticker).

(** [s.endswith(suffix)] *)
Definition ends_with (suffix s : str) : bool :=
  Form4.starts_with (rev suffix) (rev s).

(** [s.rsplit(sep, 1)[0]]: the text before the last [sep], or all of [s]
    when there is none. *)
Definition rsplit1_head (sep : ascii) (s : str) : str :=
  match snd (Form4.run_until sep (rev s)) with
  | [] => s
  | _ :: before => rev before
  end.

(** [extract_xml_url] *)
Definition extract_xml_url (filing_url : str) : str :=
  if ends_with (lit ".html") filing_url || ends_with (lit ".htm") filing_url
  then rsplit1_head "."%char filing_url ++ lit "_doc.xml"
  else filing_url.

(** [range(0, stop, step)] for a positive [step] *)
Definition range0 (stop step : nat) : list nat :=
  map (fun k => k * step) (seq 0 ((stop + step - 1) / step)).

(** [list(chunk_list(lst, chunk_size))]: [range] refuses the step 0, and
    with a negative step it is empty. *)
Definition chunk_list {A} (lst : list A) (chunk_size : Z)
    : Res (list (list A)) :=
  if (chunk_size =? 0)%Z then Raise ValueError
  else if (chunk_size <? 0)%Z then Ok []
  else
    let n := Z.to_nat chunk_size in
    Ok (map (fun i => firstn n (skipn i lst)) (range0 (List.length lst) n)).


Section Retry.
Variable A : Type.
(** The decorated function: the outcome of its call number [k]. *)
Variable func : nat -> Res A.



End Retry.


End UtilsMore.

(** ** utils.py: RateLimiter *)

Module RateLimiter.
Import Py.

(** [x < y] on floats *)
Definition Qltb (x y : Q) : bool := negb (Qle_bool y x).



End RateLimiter.

(** ** name_matching.py: the searches in a text *)

Module NameSearch.
Import NameMatching.

(** [smart_name_search]; the threshold is not used. *)
Definition smart_name_search (search_name content : str) : bool :=
  Form4.contains (normalize_name search_name) (normalize_name content).

Definition enhance_name_matching_in_search (person_name xml_content : str)
    : bool :=
  if smart_name_search person_name xml_content then true
  else
    let words := split (normalize_name person_name) in
    match words with
    | first_name :: _ :: _ =>
        let last_name := last words [] in
        let variations :=
          [first_name ++ lit " " ++ last_name;
           last_name ++ lit ", " ++ first_name;
           last_name ++ lit " " ++ first_name;
           upper last_name ++ lit ", " ++ upper first_name] in
        let xml_lower := lower xml_content in
        existsb (fun variation => Form4.contains (lower variation) xml_lower)
                variations
    | _ => false
    end.

End NameSearch.

(** ** What the records of one filing share *)

Module Form4Shape.
Import Form4.

(** What every record of a filing takes from the filing. *)
Definition of_filing (info : FilingInfo) (acc : str)
    (t : InsiderTransaction) : Prop :=
  company_name t = fi_company_name info
  /\ insider_name t = fi_insider_name info
  /\ accession_number t = acc
  /\ filing_date t = fi_filing_date info.

End Form4Shape.

(** ** What a search result keeps together *)

Module SearchShape.
Import Search.

(** [a] comes no later than [b] in a list sorted by recency. *)
Definition not_older (a b : CompanyInsiderSummary) : Prop :=
  (sort_key b <= sort_key a)%Z.


End SearchShape.

(** ** sec_fulltext_search.py *)

Module FullText.
Import Py Utils Search Variations.

(** A result of [_perform_search], with the fields that are read later.
    Each of them is a text of the response, or [None]. *)
Record filing : Type := {
  accession_number : option str;
  filing_date : option str;
  company_name : option str;
  cik : option str;
  ticker : option str
}.

Definition truthy_text (x : option str) : bool :=
  match x with Some s => nonempty s | None => false end.

Definition is_text (x : option str) : bool :=
  match x with Some _ => true | None => false end.

Definition text_of (x : option str) : str :=
  match x with Some s => s | None => [] end.

(** [l.sort(key=key, reverse=True)] on keys that are texts or [None]: a
    stable sort, largest first. A list of two items or more is compared,
    and a comparison with [None] raises [TypeError]. *)
Section Sorting.
Variable A : Type.
Variable key : A -> option str.

Fixpoint insert_reverse (x : A) (l : list A) : list A :=
  match l with
  | [] => [x]
  | y :: t =>
      if str_ltb (text_of (key x)) (text_of (key y))
      then y :: insert_reverse x t
      else x :: l
  end.

Definition sort_reverse (l : list A) : Res (list A) :=
  match l with
  | [] | [_] => Ok l
  | _ =>
      if forallb (fun x => is_text (key x)) l
      then Ok (fold_right insert_reverse [] l)
      else Raise TypeError
  end.

End Sorting.

(** The loop over the results of one search: a result with an accession
    number that was not seen is kept. *)
Fixpoint deduplicate (results : list filing) (seen : list str)
    (all_results : list filing) : list str * list filing :=
  match results with
  | [] => (seen, all_results)
  | result :: rest =>
      match accession_number result with
      | Some accession =>
          if nonempty accession && negb (mem accession seen)
          then deduplicate rest (accession :: seen) (all_results ++ [result])
          else deduplicate rest seen all_results
      | None => deduplicate rest seen all_results
      end
  end.

Section WithSearch.

(** [date.today()] *)
Variable today : date.
(** [self._perform_search(query, "4", start_date, end_date, limit)];
    [Raise] is an exception other than the two it handles itself. *)
Variable _perform_search : str -> date -> date -> Z -> Res (list filing).

(** The loop over the name variants: a search that raises is logged and
    the next variant is tried. *)
Fixpoint search_variants (variants : list str) (start_date end_date : date)
    (limit : Z) (seen : list str) (all_results : list filing)
    : list filing :=
  match variants with
  | [] => all_results
  | name_variant :: rest =>
      match _perform_search name_variant start_date end_date limit with
      | Ok results =>
          let '(seen', all_results') :=
            deduplicate results seen all_results in
          search_variants rest start_date end_date limit seen' all_results'
      | Raise _ =>
          search_variants rest start_date end_date limit seen all_results
      end
  end.

Definition search_form4_by_person (person_name : str)
    (start_date end_date : option date) (limit : Z) : Res (list filing) :=
  let* start_date :=
    match start_date with
    | Some d => Ok d
    | None => date_sub today (5 * 365)
    end in
  let end_date := match end_date with Some d => d | None => today end in
  let name_variations := generate_name_variations person_name in
  let all_results :=
    search_variants (firstn 3 name_variations) start_date end_date limit
      [] [] in
  let* all_results := sort_reverse filing_date all_results in
  Ok (slice_to limit all_results).

(** [filing.get('ticker') or filing.get('cik', 'Unknown')]: the key
    ['cik'] is always there. *)
Definition company_key (f : filing) : option str :=
  if truthy_text (ticker f) then ticker f else cik f.

Definition key_eqb (a b : option str) : bool :=
  match a, b with
  | Some x, Some y => str_eqb x y
  | None, None => true
  | _, _ => false
  end.

(** The entry of a company that was not seen before. *)
Definition new_company (f : filing) : company_hit :=
  {| hit_ticker := company_key f;
     hit_company_name := company_name f;
     hit_cik := cik f;
     hit_filing_count := 0;
     hit_first_filing := filing_date f;
     hit_last_filing := filing_date f |}.

(** The filing is counted and the range of the dates is widened; a date
    compared with [None] raises [TypeError]. *)
Definition record_filing (c : company_hit) (f : filing) : Res company_hit :=
  let counted (first last : option str) :=
    {| hit_ticker := hit_ticker c;
       hit_company_name := hit_company_name c;
       hit_cik := hit_cik c;
       hit_filing_count := hit_filing_count c + 1;
       hit_first_filing := first;
       hit_last_filing := last |} in
  match filing_date f with
  | Some d =>
      if nonempty d then
        match hit_first_filing c with
        | None => Raise TypeError
        | Some first =>
            let first' := if str_ltb d first then d else first in
            match hit_last_filing c with
            | None => Raise TypeError
            | Some last =>
                let last' := if str_ltb last d then d else last in
                Ok (counted (Some first') (Some last'))
            end
        end
      else Ok (counted (hit_first_filing c) (hit_last_filing c))
  | None => Ok (counted (hit_first_filing c) (hit_last_filing c))
  end.

(** One round of the loop over the filings: [companies_map] keeps the
    order in which the companies came in. *)
Fixpoint add_filing (companies_map : list company_hit) (f : filing)
    : Res (list company_hit) :=
  match companies_map with
  | [] =>
      let* c := record_filing (new_company f) f in Ok [c]
  | c :: rest =>
      if key_eqb (hit_ticker c) (company_key f) then
        let* c' := record_filing c f in Ok (c' :: rest)
      else
        let* rest' := add_filing rest f in Ok (c :: rest')
  end.

Fixpoint group_filings (filings : list filing)
    (companies_map : list company_hit) : Res (list company_hit) :=
  match filings with
  | [] => Ok companies_map
  | f :: rest =>
      let* companies_map := add_filing companies_map f in
      group_filings rest companies_map
  end.

Definition get_companies_for_person (person_name : str)
    : Res (list company_hit) :=
  let* start_date := date_sub today (10 * 365) in
  let* filings :=
    search_form4_by_person person_name (Some start_date) None 500 in
  let* companies_map := group_filings filings [] in
  sort_reverse hit_last_filing companies_map.

End WithSearch.

End FullText.

(** ** What the full-text search keeps *)

Module FullTextShape.
Import Py Search FullText.

(** [a] does not sort after [b]. *)
Definition not_before {A} (key : A -> option str) (a b : A) : Prop :=
  str_ltb (text_of (key a)) (text_of (key b)) = false.

(** What the loop keeps: the accession numbers of the results are
    distinct, not empty and all in [seen], and the results satisfy
    whatever the answers of the searches do. *)
Definition kept (P : filing -> Prop) (seen : list str)
    (all_results : list filing) : Prop :=
  List.NoDup (map accession_number all_results)
  /\ Forall (fun f => P f /\ exists a, accession_number f = Some a
                                      /\ a <> [] /\ In a seen) all_results.



End FullTextShape.

(** ** insider_tools.py: calculate_insider_summary *)

Module InsiderSummary.
Import Py Utils Form4.

(** [t.transaction_type.name in ["PURCHASE", "EXERCISE"]] and
    [t.transaction_type.name == "SALE"] *)
Definition is_bought (t : InsiderTransaction) : bool :=
  match transaction_type t with
  | PURCHASE | EXERCISE => true
  | _ => false
  end.

Definition is_sold (t : InsiderTransaction) : bool :=
  match transaction_type t with
  | SALE => true
  | _ => false
  end.

(** [sum(...)]: from 0, left to right. *)
Definition sum (l : list Q) : Q := fold_left Qplus l 0%Q.

(** [t.total_value or 0] *)
Definition value_or_0 (t : InsiderTransaction) : Q :=
  match total_value t with
  | Some v => if truthy_float (total_value t) then v else 0%Q
  | None => 0%Q
  end.

(** [min(...)] and [max(...)] after their first item: each further date
    is compared with the one kept, and a comparison with [None] raises
    [TypeError]. *)
Fixpoint min_loop (smallest : option date) (rest : list (option date))
    : Res (option date) :=
  match rest with
  | [] => Ok smallest
  | item :: rest' =>
      match item, smallest with
      | Some d, Some m => min_loop (Some (if (d <? m)%Z then d else m)) rest'
      | _, _ => Raise TypeError
      end
  end.

Fixpoint max_loop (largest : option date) (rest : list (option date))
    : Res (option date) :=
  match rest with
  | [] => Ok largest
  | item :: rest' =>
      match item, largest with
      | Some d, Some m => max_loop (Some (if (m <? d)%Z then d else m)) rest'
      | _, _ => Raise TypeError
      end
  end.

(** [x.isoformat()]: [None] has no such method. The date stands for its
    text. *)
Definition isoformat (x : option date) : Res date :=
  match x with
  | Some d => Ok d
  | None => Raise AttributeError
  end.

(** The summary; the averages and the range of the dates are absent
    from the summary of no transaction. *)
Record Summary : Type := {
  total_transactions : nat;
  total_shares_bought : Q;
  total_shares_sold : Q;
  total_value_bought : Q;
  total_value_sold : Q;
  net_shares : Q;
  net_value : Q;
  averages : option (option Q * option Q);
  date_range : option (date * date)
}.

Definition calculate_insider_summary
    (transactions : list InsiderTransaction) : Res Summary :=
  match transactions with
  | [] =>
      Ok {| total_transactions := 0;
            total_shares_bought := 0; total_shares_sold := 0;
            total_value_bought := 0; total_value_sold := 0;
            net_shares := 0; net_value := 0;
            averages := None; date_range := None |}
  | t0 :: rest =>
      let bought_shares := sum (map shares (filter is_bought transactions)) in
      let sold_shares := sum (map shares (filter is_sold transactions)) in
      let bought_value :=
        sum (map value_or_0
               (filter (fun t => is_bought t && truthy_float (total_value t))
                       transactions)) in
      let sold_value :=
        sum (map value_or_0
               (filter (fun t => is_sold t && truthy_float (total_value t))
                       transactions)) in
      let average_buy_price :=
        if RateLimiter.Qltb 0 bought_shares
        then Some (bought_value / bought_shares)%Q else None in
      let average_sell_price :=
        if RateLimiter.Qltb 0 sold_shares
        then Some (sold_value / sold_shares)%Q else None in
      let* first := min_loop (transaction_date t0)
                      (map transaction_date rest) in
      let* first := isoformat first in
      let* last := max_loop (transaction_date t0)
                     (map transaction_date rest) in
      let* last := isoformat last in
      Ok {| total_transactions := List.length transactions;
            total_shares_bought := bought_shares;
            total_shares_sold := sold_shares;
            total_value_bought := bought_value;
            total_value_sold := sold_value;
            net_shares := (bought_shares - sold_shares)%Q;
            net_value := (bought_value - sold_value)%Q;
            averages := Some (average_buy_price, average_sell_price);
            date_range := Some (first, last) |}
  end.

End InsiderSummary.

(** ** Instances for the examples of the helpers *)

Module MoreExamples.
Import Py.


End MoreExamples.

Module SearchMoreExamples.
Import Py Search.


End SearchMoreExamples.

Module FullTextExamples.
Import Py FullText.

(** Two filings of one company and one of another; the second comes
    twice. *)
Definition hit (accession day name symbol : string) : filing :=
  {| accession_number := Some (lit accession);
     filing_date := Some (lit day);
     company_name := Some (lit name);
     cik := Some (lit "0000783325");
     ticker := Some (lit symbol) |}.

Definition three_hits : list filing :=
  [hit "0001209015-26-000012" "2026-10-05" "WEC ENERGY GROUP, INC." "WEC";
   hit "0001209015-25-000007" "2025-06-22" "BADGER METER INC" "BMI";
   hit "0001209015-25-000007" "2025-06-22" "BADGER METER INC" "BMI";
   hit "0001209015-24-000031" "2024-08-26" "WEC ENERGY GROUP, INC." "WEC"].

(** A search service that gives the same answer to every query. *)
Definition search_same (query : str) (start_date end_date : Z) (limit : Z)
    : Res (list filing) := Ok three_hits.

End FullTextExamples.

Module PositionExamples.
Import Py.

(** A transaction dict as [to_dict] writes it, with its title: the key
    is always there, and its value is [None] when the filing gave no
    title. *)
Definition titled (day : string) (title : pyval) : Status.dict :=
  [(lit "insider_name", PStr (lit "KLAPPA GALE E"));
   (lit "insider_title", title);
   (lit "transaction_date", PStr (lit day))].

End PositionExamples.
(** ** Facts about Python strings *)

Section StrFacts.

Lemma str_eqb_eq (a b : str) : str_eqb a b = true <-> a = b.
Proof.
  unfold str_eqb. destruct (list_eq_dec ascii_dec a b); split; congruence.
Qed.

Lemma str_eqb_refl (a : str) : str_eqb a a = true.
Proof. now apply str_eqb_eq. Qed.

Lemma dropwhile_none {A} (p : A -> bool) (l : list A) :
  match l with x :: _ => p x = false | [] => True end -> dropwhile p l = l.
Proof. destruct l as [|x t]; simpl; [easy|]. now intros ->. Qed.

Lemma dropwhile_length {A} (p : A -> bool) (l : list A) :
  List.length (dropwhile p l) <= List.length l.
Proof.
  induction l as [|x t IH]; simpl; [lia|].
  destruct (p x); simpl; lia.
Qed.

Lemma dropwhile_Forall {A} (P : A -> Prop) (p : A -> bool) (l : list A) :
  Forall P l -> Forall P (dropwhile p l).
Proof.
  induction 1 as [|x t Hx Ht IH]; simpl; [constructor|].
  destruct (p x); [exact IH | now constructor].
Qed.

Lemma filter_all {A} (p : A -> bool) (l : list A) :
  Forall (fun x => p x = true) l -> filter p l = l.
Proof.
  induction 1 as [|x t Hx Ht IH]; simpl; [reflexivity|].
  now rewrite Hx, IH.
Qed.

Lemma filter_Forall {A} (P : A -> Prop) (p : A -> bool) (l : list A) :
  Forall P l -> Forall P (filter p l).
Proof.
  induction 1 as [|x t Hx Ht IH]; simpl; [constructor|].
  destruct (p x); [now constructor | exact IH].
Qed.

Lemma map_id_on {A} (f : A -> A) (l : list A) :
  Forall (fun x => f x = x) l -> map f l = l.
Proof.
  induction 1 as [|x t Hx Ht IH]; simpl; [reflexivity|].
  now rewrite Hx, IH.
Qed.

(** The words of a field decomposition only hold characters of the text. *)
Lemma fields_Forall (P : ascii -> Prop) (p : ascii -> bool) (s : str) :
  Forall P s -> Forall (Forall P) (fields p s).
Proof.
  induction 1 as [|c t Hc Ht IH]; simpl.
  - repeat constructor.
  - destruct (p c).
    + constructor; [constructor | exact IH].
    + destruct (fields p t) as [|w ws].
      * repeat constructor; exact Hc.
      * inversion IH; subst. constructor; [now constructor | assumption].
Qed.

(** No separator survives inside a field. *)
Lemma fields_sep_free (p : ascii -> bool) (s : str) :
  Forall (Forall (fun c => p c = false)) (fields p s).
Proof.
  induction s as [|c t IH]; simpl.
  - repeat constructor.
  - destruct (p c) eqn:E.
    + constructor; [constructor | exact IH].
    + destruct (fields p t) as [|w ws].
      * repeat constructor; exact E.
      * inversion IH; subst. constructor; [now constructor | assumption].
Qed.

Lemma fields_word (p : ascii -> bool) (w : str) :
  Forall (fun c => p c = false) w -> fields p w = [w].
Proof.
  induction 1 as [|c t Hc Ht IH]; simpl; [reflexivity|].
  now rewrite Hc, IH.
Qed.

Lemma fields_word_sep (p : ascii -> bool) (w : str) (c : ascii) (s : str) :
  Forall (fun c => p c = false) w -> p c = true ->
  fields p (w ++ c :: s) = w :: fields p s.
Proof.
  intros Hw Hc. induction Hw as [|x t Hx Ht IH]; simpl.
  - now rewrite Hc.
  - now rewrite Hx, IH.
Qed.

Lemma split_nonempty_words (s : str) :
  Forall (fun w => w <> [] /\ Forall (fun c => is_space c = false) w)
         (split s).
Proof.
  unfold split.
  pose proof (fields_sep_free is_space s) as H.
  induction H as [|w ws Hw Hws IH]; simpl; [constructor|].
  destruct w as [|c w]; simpl; [exact IH|].
  constructor; [split; [discriminate | exact Hw] | exact IH].
Qed.

Lemma split_Forall (P : ascii -> Prop) (s : str) :
  Forall P s -> Forall (Forall P) (split s).
Proof.
  intros H. unfold split. apply filter_Forall. now apply fields_Forall.
Qed.

End StrFacts.

(** ** normalize_name *)

Section NormalizeFacts.
Import NameMatching NameShape.

Lemma space_char_facts :
  is_space " "%char = true /\ is_punct " "%char = false
  /\ lower_char " "%char = " "%char.
Proof. repeat split. Qed.

Lemma clean_char_inv (c : ascii) :
  clean_char c = true ->
  is_space c = false /\ is_punct c = false /\ lower_char c = c.
Proof.
  unfold clean_char. intros H.
  apply andb_prop in H as [H H3]. apply andb_prop in H as [H1 H2].
  apply negb_true_iff in H1, H2. apply Ascii.eqb_eq in H3. auto.
Qed.

Lemma word_ok_inv (w : str) :
  word_ok w = true ->
  Forall (fun c => clean_char c = true) w /\ 1 < List.length w
  /\ dict_get nickname_map w w = w.
Proof.
  unfold word_ok. intros H.
  apply andb_prop in H as [H H3]. apply andb_prop in H as [H1 H2].
  repeat split.
  - apply Forall_forall. now apply forallb_forall.
  - now apply Nat.ltb_lt.
  - now apply str_eqb_eq.
Qed.

Lemma word_ok_intro (w : str) :
  Forall (fun c => clean_char c = true) w -> 1 < List.length w ->
  dict_get nickname_map w w = w -> word_ok w = true.
Proof.
  intros H1 H2 H3. unfold word_ok.
  rewrite H3, str_eqb_refl, andb_true_r.
  apply andb_true_intro; split.
  - apply forallb_forall. now apply Forall_forall.
  - now apply Nat.ltb_lt.
Qed.

(** *** The text after the punctuation filter *)

Lemma lower_char_idem (c : ascii) : lower_char (lower_char c) = lower_char c.
Proof.
  destruct c as [[] [] [] [] [] [] [] []]; reflexivity.
Qed.

Lemma lower_char_space (c : ascii) : is_space (lower_char c) = is_space c.
Proof.
  destruct c as [[] [] [] [] [] [] [] []]; reflexivity.
Qed.

Lemma collapse_from_Forall (P : ascii -> Prop) (s : str) (r : bool) :
  P " "%char -> Forall P s -> Forall P (collapse_from r s).
Proof.
  intros Hsp H. revert r.
  induction H as [|c t Hc Ht IH]; intros r; simpl; [constructor|].
  destruct (is_space c); [destruct r|]; auto.
Qed.

Lemma rev_Forall {A} (P : A -> Prop) (l : list A) :
  Forall P l -> Forall P (rev l).
Proof.
  intros H. apply Forall_forall. intros x Hx.
  apply in_rev in Hx. revert x Hx. now apply Forall_forall.
Qed.

Lemma strip_Forall (P : ascii -> Prop) (s : str) :
  Forall P s -> Forall P (strip s).
Proof.
  intros H. unfold strip, rstrip, lstrip.
  apply rev_Forall, dropwhile_Forall, rev_Forall, dropwhile_Forall, H.
Qed.

Lemma lower_Forall (s : str) :
  Forall (fun c => lower_char c = c) (lower s).
Proof.
  unfold lower. induction s; simpl; constructor; auto using lower_char_idem.
Qed.

Lemma remove_punct_Forall (P : ascii -> Prop) (s : str) :
  Forall P s ->
  Forall (fun c => P c /\ is_punct c = false) (remove_punct s).
Proof.
  unfold remove_punct.
  induction 1 as [|c t Hc Ht IH]; simpl; [constructor|].
  destruct (is_punct c) eqn:E; simpl; [exact IH|].
  constructor; auto.
Qed.

Lemma no_punct_no_comma (s : str) :
  Forall (fun c => is_punct c = false) s -> contains_char ","%char s = false.
Proof.
  unfold contains_char.
  induction 1 as [|c t Hc Ht IH]; cbn [existsb]; [reflexivity|].
  rewrite IH, orb_false_r.
  destruct (Ascii.eqb_spec ","%char c) as [<-|]; [discriminate Hc | reflexivity].
Qed.

(** The comma test of line 87 comes after the punctuation filter of line
    84, which has removed every comma: the branch is never taken. *)
Lemma reorder_comma_after_remove_punct (s : str) :
  reorder_comma (remove_punct s) = remove_punct s.
Proof.
  unfold reorder_comma. rewrite no_punct_no_comma; [reflexivity|].
  assert (H : Forall (fun _ : ascii => True) s) by (apply Forall_forall; auto).
  apply remove_punct_Forall in H.
  eapply Forall_impl; [|exact H]. now intros c [_ Hc].
Qed.

(** *** The nickname table *)

Lemma dict_get_cases (d : list (str * str)) (k : str) :
  dict_get d k k = k \/ In (dict_get d k k) (map snd d).
Proof.
  assert (H : forall dflt,
             dict_get d k dflt = dflt \/ In (dict_get d k dflt) (map snd d)).
  { intros dflt. induction d as [|[k' v] rest IH]; simpl; [now left|].
    destruct (str_eqb k k'); [right; now left|].
    destruct IH as [IH|IH]; [now left | right; now right]. }
  apply H.
Qed.

Lemma nickname_values_ok :
  forallb word_ok (map snd nickname_map) = true.
Proof. vm_compute. reflexivity. Qed.

Lemma nickname_word_ok (w : str) :
  Forall (fun c => clean_char c = true) w -> 1 < List.length w ->
  word_ok (dict_get nickname_map w w) = true.
Proof.
  intros Hc Hl.
  destruct (dict_get_cases nickname_map w) as [E|E].
  - rewrite E. apply word_ok_intro; assumption.
  - pose proof nickname_values_ok as H.
    rewrite forallb_forall in H. now apply H.
Qed.

End NormalizeFacts.

Section NormalizeShape.
Import NameMatching NameShape.

Lemma filter_sat {A} (p : A -> bool) (l : list A) :
  Forall (fun x => p x = true) (filter p l).
Proof.
  apply Forall_forall. intros x Hx. now apply filter_In in Hx.
Qed.

Lemma drop_prefixes_Forall (P : str -> Prop) (ws : list str) :
  Forall P ws -> Forall P (drop_prefixes ws).
Proof. apply dropwhile_Forall. Qed.

Lemma drop_suffixes_Forall (P : str -> Prop) (ws : list str) :
  Forall P ws -> Forall P (drop_suffixes ws).
Proof.
  intros H. unfold drop_suffixes.
  now apply rev_Forall, dropwhile_Forall, rev_Forall.
Qed.

(** The characters that reach the word split are lower-case and free of
    punctuation. *)
Lemma prepared_chars (x : str) :
  Forall (fun c => lower_char c = c /\ is_punct c = false)
         (remove_punct (collapse_ws (strip (lower x)))).
Proof.
  apply remove_punct_Forall. unfold collapse_ws.
  apply collapse_from_Forall; [reflexivity|].
  apply strip_Forall, lower_Forall.
Qed.

Lemma split_clean_words (s : str) :
  Forall (fun c => lower_char c = c /\ is_punct c = false) s ->
  Forall (Forall (fun c => clean_char c = true)) (split s).
Proof.
  intros H.
  pose proof (split_Forall H) as H1.
  pose proof (split_nonempty_words s) as H2.
  rewrite Forall_forall in *. intros w Hw.
  specialize (H1 w Hw). destruct (H2 w Hw) as [_ H3].
  rewrite Forall_forall in *. intros c Hc.
  destruct (H1 c Hc) as [Hl Hp]. specialize (H3 c Hc).
  unfold clean_char. rewrite H3, Hp, Hl. simpl. apply Ascii.eqb_refl.
Qed.

(** [normalize_name] returns words of the expected shape, joined by
    single spaces. *)
Lemma normalize_name_words (x : str) :
  exists ws, normalize_name x = join (lit " ") ws
             /\ Forall (fun w => word_ok w = true) ws.
Proof.
  unfold normalize_name.
  destruct (negb (nonempty x) || negb (nonempty (strip x))).
  - exists []. split; [reflexivity | constructor].
  - cbv zeta. rewrite reorder_comma_after_remove_punct.
    eexists; split; [reflexivity|].
    set (s := remove_punct (collapse_ws (strip (lower x)))).
    pose proof (split_clean_words (prepared_chars x)) as H. fold s in H.
    apply drop_prefixes_Forall, drop_suffixes_Forall in H.
    set (ws := drop_suffixes (drop_prefixes (split s))) in *.
    apply Forall_forall. intros w Hw.
    apply in_map_iff in Hw as [w0 [<- Hw0]].
    apply filter_In in Hw0 as [Hin Hlen].
    apply nickname_word_ok.
    + rewrite Forall_forall in H. now apply H.
    + now apply Nat.ltb_lt.
Qed.

(** *** Normalizing a text that is already in shape *)

Lemma join_cons2 (sep w w' : str) (rest : list str) :
  join sep (w :: w' :: rest) = w ++ sep ++ join sep (w' :: rest).
Proof. reflexivity. Qed.

Lemma join_Forall (P : ascii -> Prop) (sep : str) (ws : list str) :
  Forall P sep -> Forall (Forall P) ws -> Forall P (join sep ws).
Proof.
  intros Hs H. induction H as [|w rest Hw Hr IH]; [constructor|].
  destruct rest as [|w' rest']; [exact Hw|].
  rewrite join_cons2. apply Forall_app; split; [exact Hw|].
  apply Forall_app; split; [exact Hs | exact IH].
Qed.

Lemma word_ok_shaped (w : str) : word_ok w = true -> shaped w.
Proof.
  intros H. apply word_ok_inv in H as [Hc [Hl _]]. split.
  - destruct w; [simpl in Hl; lia | discriminate].
  - eapply Forall_impl; [|exact Hc].
    intros c Hcc. now apply clean_char_inv in Hcc.
Qed.

Lemma fields_join (ws : list str) :
  ws <> [] -> Forall shaped ws ->
  fields is_space (join (lit " ") ws) = ws.
Proof.
  intros Hne H. induction H as [|w rest [_ Hw] Hr IH]; [congruence|].
  destruct rest as [|w' rest'].
  - simpl. now apply fields_word.
  - rewrite join_cons2. change (lit " " ++ ?s) with (" "%char :: s).
    rewrite fields_word_sep; [|exact Hw|reflexivity].
    rewrite IH; [reflexivity | discriminate].
Qed.

Lemma split_join (ws : list str) :
  Forall shaped ws -> split (join (lit " ") ws) = ws.
Proof.
  intros H. unfold split. destruct ws as [|w rest]; [reflexivity|].
  rewrite fields_join; [|discriminate|exact H].
  apply filter_all. eapply Forall_impl; [|exact H].
  intros [|c t] [Hne _]; [congruence | reflexivity].
Qed.

Lemma join_head (w : str) (rest : list str) :
  exists s, join (lit " ") (w :: rest) = w ++ s.
Proof.
  destruct rest as [|w' rest'].
  - exists []. simpl. now rewrite app_nil_r.
  - eexists. apply join_cons2.
Qed.

Lemma join_last (ws : list str) (w : str) :
  exists s, join (lit " ") (ws ++ [w]) = s ++ w.
Proof.
  induction ws as [|w0 rest IH].
  - now exists [].
  - destruct IH as [s Hs]. simpl app.
    destruct (rest ++ [w]) as [|w1 rest1] eqn:E.
    + destruct rest; discriminate.
    + rewrite join_cons2, Hs. exists (w0 ++ lit " " ++ s).
      now rewrite <- !app_assoc.
Qed.

Lemma lstrip_shaped (w s : str) : shaped w -> lstrip (w ++ s) = w ++ s.
Proof.
  intros [Hne Hw]. destruct w as [|c t]; [congruence|].
  inversion Hw as [|? ? Hc Ht]; subst. unfold lstrip.
  cbn [app dropwhile]. now rewrite Hc.
Qed.

Lemma rstrip_shaped (w s : str) : shaped w -> rstrip (s ++ w) = s ++ w.
Proof.
  intros [Hne Hw]. unfold rstrip. rewrite rev_app_distr.
  assert (Hr : shaped (rev w)).
  { split.
    - intros E. apply Hne. now rewrite <- (rev_involutive w), E.
    - now apply rev_Forall. }
  fold (lstrip (rev w ++ rev s)). rewrite lstrip_shaped; [|exact Hr].
  now rewrite <- rev_app_distr, rev_involutive.
Qed.

Lemma strip_join (ws : list str) :
  Forall shaped ws -> strip (join (lit " ") ws) = join (lit " ") ws.
Proof.
  intros H. destruct ws as [|w rest]; [reflexivity|].
  unfold strip.
  destruct (join_head w rest) as [s Hs]. rewrite Hs.
  inversion H; subst. rewrite lstrip_shaped; [|assumption]. rewrite <- Hs.
  destruct (exists_last (l := w :: rest)) as [ini [lst E]]; [discriminate|].
  rewrite E in *. destruct (join_last ini lst) as [s' Hs']. rewrite Hs'.
  apply rstrip_shaped.
  apply Forall_app in H as [_ Hl]. now inversion Hl.
Qed.

Lemma collapse_from_word (w s : str) :
  space_free w ->
  collapse_from false (w ++ s) = w ++ collapse_from false s.
Proof.
  induction 1 as [|c t Hc Ht IH]; simpl; [reflexivity|].
  now rewrite Hc, IH.
Qed.

Lemma collapse_from_run (w s : str) :
  shaped w -> collapse_from true (w ++ s) = collapse_from false (w ++ s).
Proof.
  intros [Hne Hw]. destruct w as [|c t]; [congruence|].
  inversion Hw as [|? ? Hc Ht]; subst.
  cbn [app collapse_from]. now rewrite Hc.
Qed.

Lemma collapse_ws_join (ws : list str) :
  Forall shaped ws -> collapse_ws (join (lit " ") ws) = join (lit " ") ws.
Proof.
  unfold collapse_ws. induction 1 as [|w rest [Hne Hw] Hr IH]; [reflexivity|].
  destruct rest as [|w' rest'].
  - simpl. rewrite <- (app_nil_r w) at 1.
    rewrite collapse_from_word; [|exact Hw]. simpl. now rewrite app_nil_r.
  - rewrite join_cons2, collapse_from_word; [|exact Hw].
    f_equal. change (lit " " ++ ?s) with (" "%char :: s).
    cbn [collapse_from]. change (is_space " "%char) with true. cbv iota.
    f_equal. rewrite <- IH at 2.
    destruct (join_head w' rest') as [s Hs]. rewrite Hs.
    inversion Hr as [|? ? Hs' ?]; subst.
    now apply collapse_from_run.
Qed.

End NormalizeShape.

Section NormalizeTwice.
Import NameMatching NameShape.

Lemma drop_suffixes_length (ws : list str) :
  List.length (drop_suffixes ws) <= List.length ws.
Proof.
  unfold drop_suffixes. rewrite length_rev.
  pose proof (dropwhile_length (fun w => mem w suffixes) (rev ws)) as H.
  now rewrite length_rev in H.
Qed.

Lemma drop_both_fixed (ws : list str) :
  drop_suffixes (drop_prefixes ws) = ws <->
  head_is_prefix ws = false /\ last_is_suffix ws = false.
Proof.
  split.
  - intros E.
    assert (Hh : head_is_prefix ws = false).
    { destruct (head_is_prefix ws) eqn:Hh; [exfalso | reflexivity].
      destruct ws as [|w t]; [discriminate|]. cbn [head_is_prefix] in Hh.
      apply (f_equal (@List.length str)) in E.
      pose proof (drop_suffixes_length (drop_prefixes (w :: t))) as H1.
      unfold drop_prefixes in E, H1. cbn [dropwhile] in E, H1.
      rewrite Hh in E, H1.
      pose proof (dropwhile_length (fun w => mem w prefixes) t) as H2.
      cbn [List.length] in E. lia. }
    split; [exact Hh|].
    unfold drop_prefixes in E. rewrite dropwhile_none in E.
    2:{ destruct ws; [exact I | exact Hh]. }
    destruct (last_is_suffix ws) eqn:Hl; [exfalso | reflexivity].
    unfold last_is_suffix in Hl. unfold drop_suffixes in E.
    apply (f_equal (@List.length str)) in E. rewrite length_rev in E.
    rewrite <- (length_rev ws) in E.
    destruct (rev ws) as [|w t]; [discriminate|].
    cbn [dropwhile] in E. rewrite Hl in E.
    pose proof (dropwhile_length (fun w => mem w suffixes) t) as H2.
    cbn [List.length] in E. lia.
  - intros [Hh Hl]. unfold drop_prefixes. rewrite dropwhile_none.
    2:{ destruct ws; [exact I | exact Hh]. }
    unfold drop_suffixes, last_is_suffix in *. rewrite dropwhile_none.
    + apply rev_involutive.
    + destruct (rev ws); [exact I | exact Hl].
Qed.

Lemma words_shaped (ws : list str) :
  Forall (fun w => word_ok w = true) ws -> Forall shaped ws.
Proof. apply Forall_impl. exact word_ok_shaped. Qed.

Lemma words_chars (P : ascii -> Prop) (ws : list str) :
  (forall c, clean_char c = true -> P c) ->
  Forall (fun w => word_ok w = true) ws -> Forall (Forall P) ws.
Proof.
  intros HP. apply Forall_impl. intros w Hw.
  apply word_ok_inv in Hw as [Hc _].
  eapply Forall_impl; [|exact Hc]. exact HP.
Qed.

(** On a text that is already a list of well-shaped words, only the
    removal of leading prefixes and trailing suffixes can still act. *)
Lemma normalize_name_join (ws : list str) :
  Forall (fun w => word_ok w = true) ws ->
  normalize_name (join (lit " ") ws)
  = join (lit " ") (drop_suffixes (drop_prefixes ws)).
Proof.
  intros H. pose proof (words_shaped H) as Hs.
  destruct ws as [|w0 rest0] eqn:Ews; [reflexivity|]. rewrite <- Ews in *.
  unfold normalize_name.
  rewrite (strip_join Hs).
  assert (Hne : nonempty (join (lit " ") ws) = true).
  { subst ws. destruct (join_head w0 rest0) as [s ->].
    inversion Hs as [|? ? [Hne _] ?]; subst.
    destruct w0; [congruence | reflexivity]. }
  rewrite Hne. cbn [negb orb]. cbv zeta.
  rewrite reorder_comma_after_remove_punct.
  assert (Hlow : lower (join (lit " ") ws) = join (lit " ") ws).
  { apply map_id_on. apply join_Forall; [repeat constructor|].
    apply (words_chars _ (ws := ws)); [|exact H].
    intros c Hc. now apply clean_char_inv in Hc. }
  rewrite Hlow, (strip_join Hs), (collapse_ws_join Hs).
  assert (Hp : remove_punct (join (lit " ") ws) = join (lit " ") ws).
  { apply filter_all. apply join_Forall; [repeat constructor|].
    apply (words_chars _ (ws := ws)); [|exact H].
    intros c Hc. apply clean_char_inv in Hc as [_ [Hc _]]. now rewrite Hc. }
  rewrite Hp, (split_join Hs).
  assert (Hd : Forall (fun w => word_ok w = true)
                 (drop_suffixes (drop_prefixes ws))).
  { now apply drop_suffixes_Forall, drop_prefixes_Forall. }
  rewrite filter_all.
  2:{ eapply Forall_impl; [|exact Hd]. intros w Hw.
      apply word_ok_inv in Hw as [_ [Hl _]]. now apply Nat.ltb_lt. }
  rewrite map_id_on; [reflexivity|].
  eapply Forall_impl; [|exact Hd]. intros w Hw.
  now apply word_ok_inv in Hw as [_ [_ Hn]].
Qed.

End NormalizeTwice.

(** ** The claims about normalize_name *)

Section NormalizeClaims.
Import NameMatching NameShape.

(** C2 (the code departs from the claim): the name "Klappa, Gale" is not
    reordered; [normalize_name] returns "klappa gale", the part before
    the comma first, and not "gale klappa". *)
Theorem normalize_name_comma_not_reordered :
  normalize_name (lit "Klappa, Gale") = lit "klappa gale"
  /\ normalize_name (lit "Klappa, Gale") <> lit "gale klappa".
Proof. split; [vm_compute; reflexivity | vm_compute; discriminate]. Qed.

(** C8 as stated fails: "A Mr Smith" normalizes to "mr smith", which
    normalizes to "smith". *)
Lemma normalize_name_not_idempotent :
  normalize_name (lit "A Mr Smith") = lit "mr smith"
  /\ normalize_name (normalize_name (lit "A Mr Smith")) = lit "smith"
  /\ ~ (forall x, normalize_name (normalize_name x) = normalize_name x).
Proof.
  split; [vm_compute; reflexivity|]. split; [vm_compute; reflexivity|].
  intros H. specialize (H (lit "A Mr Smith")). vm_compute in H. discriminate.
Qed.

(** C8 (amended): normalizing twice gives the same as normalizing once
    exactly for the names whose normal form neither begins with a
    honorific prefix nor ends with a suffix. *)
Theorem normalize_name_idempotent_iff (x : str) :
  normalize_name (normalize_name x) = normalize_name x <->
  head_is_prefix (split (normalize_name x)) = false
  /\ last_is_suffix (split (normalize_name x)) = false.
Proof.
  destruct (normalize_name_words x) as [ws [E H]]. rewrite E.
  pose proof (words_shaped H) as Hs.
  rewrite (split_join Hs), (normalize_name_join H), <- drop_both_fixed.
  split.
  - intros Hj. apply (f_equal split) in Hj.
    rewrite (split_join Hs), split_join in Hj; [exact Hj|].
    apply words_shaped.
    now apply drop_suffixes_Forall, drop_prefixes_Forall.
  - now intros ->.
Qed.

End NormalizeClaims.

(** ** difflib: the matching blocks stay inside their window *)

Section DifflibBounds.
Import Difflib DifflibShape.
Variables a b : str.

Lemma in_window_mono (alo ahi ahi' blo bhi : nat) (best : best_t) :
  ahi <= ahi' -> in_window alo ahi blo bhi best ->
  in_window alo ahi' blo bhi best.
Proof. destruct best as [[i j] k]. simpl. lia. Qed.

Lemma inner_loop_inv (alo blo bhi i : nat) (j2len : nat -> nat) :
  alo <= i -> run_bound blo (i - alo) j2len ->
  forall js newj2len best,
    run_bound blo (S i - alo) newj2len ->
    in_window alo (S i) blo bhi best ->
    run_bound blo (S i - alo) (fst (inner_loop blo bhi i j2len js newj2len best))
    /\ in_window alo (S i) blo bhi
         (snd (inner_loop blo bhi i j2len js newj2len best)).
Proof.
  intros Hi HJ. induction js as [|j rest IH]; intros newj2len best Hn Hb.
  - simpl. auto.
  - cbn [inner_loop].
    destruct (j <? blo) eqn:E1; [now apply IH|].
    destruct (bhi <=? j) eqn:E2; [simpl; auto|].
    apply Nat.ltb_ge in E1. apply Nat.leb_gt in E2.
    destruct best as [[bi bj] bk].
    assert (Hk : j2len_get_pred j2len j + 1 <= S i - alo
                 /\ j2len_get_pred j2len j + 1 <= j + 1 - blo).
    { destruct j as [|j']; cbn [j2len_get_pred].
      - lia.
      - destruct (HJ j') as [H1 H2]. lia. }
    apply IH.
    + intros x. destruct (x =? j) eqn:Ex.
      * apply Nat.eqb_eq in Ex. subst x. exact Hk.
      * apply Hn.
    + destruct (bk <? j2len_get_pred j2len j + 1); [|exact Hb].
      simpl. lia.
Qed.

Lemma outer_loop_inv (alo ahi blo bhi : nat) :
  forall n i j2len best,
    alo <= i -> i + n <= ahi ->
    run_bound blo (i - alo) j2len ->
    in_window alo i blo bhi best ->
    in_window alo ahi blo bhi (outer_loop a b blo bhi n i j2len best).
Proof.
  induction n as [|n IH]; intros i j2len best Hi Hn HJ Hb.
  - simpl. eapply in_window_mono; [|exact Hb]. lia.
  - cbn [outer_loop].
    assert (H0 : run_bound blo (S i - alo) (fun _ : nat => 0))
      by (intros j; lia).
    assert (Hb' : in_window alo (S i) blo bhi best)
      by (eapply in_window_mono; [|exact Hb]; lia).
    pose proof (@inner_loop_inv alo blo bhi i j2len Hi HJ
                  (b2j b (char_at a i)) _ _ H0 Hb') as [H1 H2].
    destruct (inner_loop blo bhi i j2len (b2j b (char_at a i))
                (fun _ => 0) best) as [newj2len best'].
    apply IH; [lia | lia | exact H1 | exact H2].
Qed.

Lemma extend_left_inv (alo ahi blo bhi : nat) :
  forall besti bestj bestsize,
    in_window alo ahi blo bhi (besti, bestj, bestsize) ->
    in_window alo ahi blo bhi (extend_left a b alo blo besti bestj bestsize).
Proof.
  induction besti as [|i' IH]; intros bestj bestsize H; [exact H|].
  destruct bestj as [|j']; [exact H|]. cbn [extend_left].
  destruct ((alo <? S i') && (blo <? S j')
            && Ascii.eqb (char_at a i') (char_at b j')) eqn:E; [|exact H].
  apply andb_prop in E as [E _]. apply andb_prop in E as [E1 E2].
  apply Nat.ltb_lt in E1, E2. apply IH. simpl in *. lia.
Qed.

Lemma extend_right_inv (ahi bhi besti bestj : nat) :
  forall n bestsize,
    besti + bestsize <= ahi -> bestj + bestsize <= bhi ->
    let k := extend_right a b ahi bhi n besti bestj bestsize in
    besti + k <= ahi /\ bestj + k <= bhi /\ bestsize <= k.
Proof.
  induction n as [|n IH]; intros bestsize Ha Hb; simpl; [lia|].
  destruct ((besti + bestsize <? ahi) && (bestj + bestsize <? bhi)
            && Ascii.eqb (char_at a (besti + bestsize))
                         (char_at b (bestj + bestsize))) eqn:E; [|lia].
  apply andb_prop in E as [E _]. apply andb_prop in E as [E1 E2].
  apply Nat.ltb_lt in E1, E2.
  specialize (IH (S bestsize)). simpl in IH. lia.
Qed.

(** [find_longest_match] answers with a block of its window. *)
Lemma find_longest_match_in_window (alo ahi blo bhi : nat) :
  alo <= ahi -> blo <= bhi ->
  in_window alo ahi blo bhi (find_longest_match a b alo ahi blo bhi).
Proof.
  intros Ha Hb. unfold find_longest_match.
  assert (H : in_window alo ahi blo bhi
                (outer_loop a b blo bhi (ahi - alo) alo (fun _ => 0)
                   (alo, blo, 0))).
  { apply outer_loop_inv; [lia | lia | intros j; lia | simpl; lia]. }
  destruct (outer_loop a b blo bhi (ahi - alo) alo (fun _ => 0)
              (alo, blo, 0)) as [[i0 j0] k0].
  apply extend_left_inv in H.
  destruct (extend_left a b alo blo i0 j0 k0) as [[i1 j1] k1].
  simpl in H.
  pose proof (@extend_right_inv ahi bhi i1 j1 (ahi - (i1 + k1)) k1) as R.
  simpl in R. simpl. lia.
Qed.

(** The matched characters of a window are at most its width on either
    side. *)
Lemma matched_le (fuel : nat) :
  forall alo ahi blo bhi,
    alo <= ahi -> blo <= bhi ->
    matched a b fuel alo ahi blo bhi <= ahi - alo
    /\ matched a b fuel alo ahi blo bhi <= bhi - blo.
Proof.
  induction fuel as [|fuel IH]; intros alo ahi blo bhi Ha Hb; simpl; [lia|].
  pose proof (find_longest_match_in_window Ha Hb) as W.
  destruct (find_longest_match a b alo ahi blo bhi) as [[i j] k].
  simpl in W. destruct (k =? 0); [lia|].
  assert (L : (if (alo <? i) && (blo <? j)
               then matched a b fuel alo i blo j else 0) <= i - alo
              /\ (if (alo <? i) && (blo <? j)
                  then matched a b fuel alo i blo j else 0) <= j - blo).
  { destruct ((alo <? i) && (blo <? j)); [apply IH; lia | lia]. }
  assert (R : (if (i + k <? ahi) && (j + k <? bhi)
               then matched a b fuel (i + k) ahi (j + k) bhi else 0)
              <= ahi - (i + k)
              /\ (if (i + k <? ahi) && (j + k <? bhi)
                  then matched a b fuel (i + k) ahi (j + k) bhi else 0)
                 <= bhi - (j + k)).
  { destruct ((i + k <? ahi) && (j + k <? bhi)); [apply IH; lia | lia]. }
  lia.
Qed.

(** More fuel than the width of the window changes nothing: the depth
    bound of [matches] loses no block. *)
Lemma matched_fuel (fuel : nat) :
  forall fuel' alo ahi blo bhi,
    alo <= ahi -> blo <= bhi -> ahi - alo < fuel -> ahi - alo < fuel' ->
    matched a b fuel alo ahi blo bhi = matched a b fuel' alo ahi blo bhi.
Proof.
  induction fuel as [|fuel IH]; intros fuel' alo ahi blo bhi Ha Hb Hf Hf';
    [lia|].
  destruct fuel' as [|fuel']; [lia|]. simpl.
  pose proof (find_longest_match_in_window Ha Hb) as W.
  destruct (find_longest_match a b alo ahi blo bhi) as [[i j] k].
  simpl in W. destruct (k =? 0) eqn:Ek; [reflexivity|].
  apply Nat.eqb_neq in Ek.
  f_equal; [f_equal|].
  - destruct ((alo <? i) && (blo <? j)); [|reflexivity].
    apply IH; lia.
  - destruct ((i + k <? ahi) && (j + k <? bhi)); [|reflexivity].
    apply IH; lia.
Qed.

Lemma matches_fuel (fuel : nat) :
  List.length a < fuel ->
  matched a b fuel 0 (List.length a) 0 (List.length b) = matches a b.
Proof.
  intros H. unfold matches. apply matched_fuel; lia.
Qed.

Lemma matches_le :
  2 * matches a b <= List.length a + List.length b.
Proof.
  unfold matches.
  pose proof (@matched_le (S (List.length a)) 0 (List.length a)
                0 (List.length b) (Nat.le_0_l _) (Nat.le_0_l _)) as [H1 H2].
  lia.
Qed.

End DifflibBounds.

Section Rationals.

Lemma Zpos_of_nat (n : nat) : n <> 0 -> Z.pos (Pos.of_nat n) = Z.of_nat n.
Proof.
  intros H. rewrite <- positive_nat_Z, Nat2Pos.id; [reflexivity | exact H].
Qed.

(** A quotient of two lengths, the smaller over the larger, is in [0,1]. *)
Lemma quotient_unit (x y : nat) :
  x <= y -> y <> 0 -> (0 <= Z.of_nat x # Pos.of_nat y <= 1)%Q.
Proof.
  intros Hxy Hy. unfold Qle. simpl. rewrite Zpos_of_nat by exact Hy. lia.
Qed.

Lemma ratio_unit (a b : str) : (0 <= Difflib.ratio a b <= 1)%Q.
Proof.
  unfold Difflib.ratio.
  destruct (List.length a + List.length b =? 0) eqn:E.
  - split; unfold Qle; simpl; lia.
  - apply Nat.eqb_neq in E.
    apply quotient_unit; [apply matches_le | exact E].
Qed.

End Rationals.

(** ** calculate_similarity and is_name_match *)

Section SimilarityClaims.
Import NameMatching Similarity.

Lemma set_and_le_set_or (s1 s2 : list str) :
  List.length (set_and s1 s2) <= List.length (set_or s1 s2).
Proof.
  unfold set_and, set_or. rewrite length_app.
  pose proof (filter_length_le (fun w => mem w s2) s1). lia.
Qed.

Lemma unit_0 : (0 <= 0 <= 1)%Q.
Proof. split; unfold Qle; simpl; lia. Qed.

Lemma unit_1 : (0 <= 1 <= 1)%Q.
Proof. split; unfold Qle; simpl; lia. Qed.

Lemma fallback_unit (norm1 norm2 : str) :
  (0 <= (if Qgtb (Difflib.ratio norm1 norm2) (8 # 10)
         then Difflib.ratio norm1 norm2 else 0) <= 1)%Q.
Proof.
  destruct (Qgtb (Difflib.ratio norm1 norm2) (8 # 10));
    [apply ratio_unit | apply unit_0].
Qed.

Lemma jaccard_unit (s1 s2 : list str) :
  (0 <= (if 0 <? List.length (set_or s1 s2)
         then div_len (List.length (set_and s1 s2))
                      (List.length (set_or s1 s2))
         else 0) <= 1)%Q.
Proof.
  destruct (0 <? List.length (set_or s1 s2)) eqn:E; [|apply unit_0].
  apply Nat.ltb_lt in E. unfold div_len.
  apply quotient_unit; [apply set_and_le_set_or | lia].
Qed.

(** C7: with the default threshold, "Gale Klappa" matches
    "KLAPPA GALE E" and does not match "John Smith". *)
Theorem is_name_match_examples :
  is_name_match (lit "Gale Klappa") (lit "KLAPPA GALE E") default_threshold
  = true
  /\ is_name_match (lit "Gale Klappa") (lit "John Smith") default_threshold
     = false.
Proof. split; vm_compute; reflexivity. Qed.

(** C10 as stated fails: the two empty names have equal normal forms, and
    so have "J" and the empty name, yet the similarity is 0 and not 1. *)
Lemma calculate_similarity_empty_not_one :
  normalize_name (lit "") = normalize_name (lit "")
  /\ calculate_similarity (lit "") (lit "") = 0%Q
  /\ normalize_name (lit "J") = normalize_name (lit "")
  /\ calculate_similarity (lit "J") (lit "") = 0%Q
  /\ ~ (forall a b, normalize_name a = normalize_name b ->
                    calculate_similarity a b = 1%Q).
Proof.
  repeat split.
  intros H. specialize (H (lit "") (lit "") eq_refl). discriminate H.
Qed.

(** C10 (amended): the similarity lies in [0,1]; it is 0 when either
    input is empty, and it is 1 when both inputs are non-empty and their
    normal forms are equal. *)
Theorem calculate_similarity_range (name1 name2 : str) :
  (0 <= calculate_similarity name1 name2 <= 1)%Q
  /\ (name1 = [] \/ name2 = [] -> calculate_similarity name1 name2 = 0%Q)
  /\ (name1 <> [] -> name2 <> [] ->
      normalize_name name1 = normalize_name name2 ->
      calculate_similarity name1 name2 = 1%Q).
Proof.
  unfold calculate_similarity. repeat split.
  - destruct (negb (nonempty name1) || negb (nonempty name2));
      [apply unit_0|].
    destruct (str_eqb (normalize_name name1) (normalize_name name2));
      [apply unit_1|].
    cbv zeta.
    destruct (nonempty (to_set (split (normalize_name name1)))
              && nonempty (to_set (split (normalize_name name2))));
      [|apply fallback_unit].
    destruct (2 <=? _); [apply jaccard_unit | apply fallback_unit].
  - destruct (negb (nonempty name1) || negb (nonempty name2));
      [apply unit_0|].
    destruct (str_eqb (normalize_name name1) (normalize_name name2));
      [apply unit_1|].
    cbv zeta.
    destruct (nonempty (to_set (split (normalize_name name1)))
              && nonempty (to_set (split (normalize_name name2))));
      [|apply fallback_unit].
    destruct (2 <=? _); [apply jaccard_unit | apply fallback_unit].
  - intros [-> | ->]; [reflexivity|].
    destruct name1; reflexivity.
  - intros H1 H2 E.
    destruct name1; [congruence|]. destruct name2; [congruence|].
    cbn [nonempty negb orb]. now rewrite E, str_eqb_refl.
Qed.

Lemma calculate_similarity_range_witness :
  calculate_similarity (lit "Klappa Gale") (lit "KLAPPA  GALE E.") = 1%Q.
Proof.
  apply (proj2 (proj2 (calculate_similarity_range
                         (lit "Klappa Gale") (lit "KLAPPA  GALE E.")))).
  - discriminate.
  - discriminate.
  - vm_compute. reflexivity.
Defined.

End SimilarityClaims.

(** ** The order of strings and the sort of keyword arguments *)

Section StrOrder.
Import Py.

Lemma nat_of_ascii_inj (x y : ascii) :
  nat_of_ascii x = nat_of_ascii y -> x = y.
Proof.
  intros H. rewrite <- (ascii_nat_embedding x), <- (ascii_nat_embedding y).
  now rewrite H.
Qed.

Lemma str_compare_eq (a b : str) : str_compare a b = Eq <-> a = b.
Proof.
  revert b. induction a as [|x a IH]; intros [|y b]; simpl;
    try (split; [discriminate | congruence]); [tauto|].
  destruct (Nat.compare_spec (nat_of_ascii x) (nat_of_ascii y)) as [E|L|L].
  - apply nat_of_ascii_inj in E. subst y. rewrite IH.
    split; congruence.
  - split; [discriminate|]. intros [= -> _]. lia.
  - split; [discriminate|]. intros [= -> _]. lia.
Qed.

Lemma str_compare_antisym (a b : str) :
  str_compare b a = CompOpp (str_compare a b).
Proof.
  revert b. induction a as [|x a IH]; intros [|y b]; simpl; try reflexivity.
  rewrite (Nat.compare_antisym (nat_of_ascii x) (nat_of_ascii y)).
  destruct (nat_of_ascii x ?= nat_of_ascii y); simpl; auto.
Qed.

Lemma str_compare_lt_trans (a b c : str) :
  str_compare a b = Lt -> str_compare b c = Lt -> str_compare a c = Lt.
Proof.
  revert b c. induction a as [|x a IH]; intros [|y b] [|z c]; simpl;
    try discriminate; try reflexivity.
  destruct (Nat.compare_spec (nat_of_ascii x) (nat_of_ascii y)) as [E|L|L];
    destruct (Nat.compare_spec (nat_of_ascii y) (nat_of_ascii z)) as [E'|L'|L'];
    try discriminate; intros H1 H2.
  - rewrite E, E', Nat.compare_refl. eapply IH; eassumption.
  - rewrite E. now apply Nat.compare_lt_iff in L' as ->.
  - rewrite <- E'. now apply Nat.compare_lt_iff in L as ->.
  - assert (L2 : nat_of_ascii x < nat_of_ascii z) by lia.
    now apply Nat.compare_lt_iff in L2 as ->.
Qed.

Lemma str_ltb_trans (a b c : str) :
  str_ltb a b = true -> str_ltb b c = true -> str_ltb a c = true.
Proof.
  unfold str_ltb. intros H1 H2.
  destruct (str_compare a b) eqn:E1; try discriminate.
  destruct (str_compare b c) eqn:E2; try discriminate.
  now rewrite (str_compare_lt_trans _ _ _ E1 E2).
Qed.

Lemma str_ltb_asym (a b : str) : str_ltb a b = true -> str_ltb b a = false.
Proof.
  unfold str_ltb. rewrite (str_compare_antisym a b).
  destruct (str_compare a b); simpl; congruence.
Qed.

Lemma str_ltb_total (a b : str) :
  a <> b -> str_ltb a b = true \/ str_ltb b a = true.
Proof.
  intros H. unfold str_ltb. rewrite (str_compare_antisym a b).
  destruct (str_compare a b) eqn:E; simpl; auto.
  now apply str_compare_eq in E.
Qed.

End StrOrder.

Section SortedKwargs.
Import Py Cache.
Variable V : Type.
Implicit Types (x y : str * V) (l : list (str * V)).

(** Two insertions commute when the keys differ. *)
Lemma insert_sorted_comm_lt x y l :
  item_ltb x y = true ->
  insert_sorted x (insert_sorted y l) = insert_sorted y (insert_sorted x l).
Proof.
  intros Hxy.
  assert (Hyx : item_ltb y x = false) by now apply str_ltb_asym.
  induction l as [|h t IH]; cbn [insert_sorted].
  - now rewrite Hyx, Hxy.
  - destruct (item_ltb h y) eqn:Hy; destruct (item_ltb h x) eqn:Hx;
      cbn [insert_sorted]; rewrite ?Hy, ?Hx, ?Hxy, ?Hyx.
    + now rewrite IH.
    + reflexivity.
    + unfold item_ltb in *.
      now rewrite (str_ltb_trans _ _ _ Hx Hxy) in Hy.
    + reflexivity.
Qed.

Lemma insert_sorted_comm x y l :
  fst x <> fst y ->
  insert_sorted x (insert_sorted y l) = insert_sorted y (insert_sorted x l).
Proof.
  intros H. destruct (str_ltb_total H) as [L|L].
  - now apply insert_sorted_comm_lt.
  - symmetry. now apply insert_sorted_comm_lt.
Qed.

(** [sorted] sees a dict, not the order in which it was written. *)
Lemma sorted_permutation l1 l2 :
  Permutation l1 l2 -> List.NoDup (map fst l1) -> sorted l1 = sorted l2.
Proof.
  induction 1 as [|x l l' HP IH|x y l|l l' l'' HP1 IH1 HP2 IH2]; intros ND.
  - reflexivity.
  - simpl. rewrite IH; [reflexivity|]. now inversion ND.
  - simpl. apply insert_sorted_comm.
    inversion ND as [|? ? Hin _]; subst. intros E. apply Hin. left.
    now symmetry.
  - rewrite IH1 by exact ND. apply IH2.
    eapply Permutation_NoDup; [|exact ND]. now apply Permutation_map.
Qed.

End SortedKwargs.

(** ** The cache *)

Section CacheFacts.
Import Py Cache.
Variable json_dumps : pyval -> Res str.
Variable md5_hexdigest : str -> str.
Variable V : Type.

Local Abbreviation key_of := (_get_cache_key json_dumps md5_hexdigest).
Local Abbreviation get := (@get json_dumps md5_hexdigest V).
Local Abbreviation set := (@set json_dumps md5_hexdigest V).
Local Abbreviation wrapper := (@wrapper json_dumps md5_hexdigest V).

Lemma key_parts_permutation (name : str) (args : list pyval)
    (kw1 kw2 : list (str * pyval)) :
  List.NoDup (map fst kw1) -> Permutation kw1 kw2 ->
  key_parts name args kw1 = key_parts name args kw2.
Proof.
  intros ND HP. unfold key_parts. now rewrite (sorted_permutation HP ND).
Qed.

(** An expired entry is not returned, and the lookup removes it. *)
Lemma get_expired (parts : pyval) (k : str) (now : Z) (c : store V)
    (e : entry V) :
  key_of parts = Ok k -> c !! k = Some e -> (expires_at e <= now)%Z ->
  get parts now c = Ok (None, delete k c) /\ delete k c !! k = None.
Proof.
  intros Hk He Hx. unfold Cache.get. rewrite Hk. simpl. rewrite He.
  destruct (now <? expires_at e)%Z eqn:E; [apply Z.ltb_lt in E; lia|].
  split; [reflexivity | apply lookup_delete_eq].
Qed.

(** A live entry is returned as it was stored, and the cache is left as
    it is. *)
Lemma get_live (parts : pyval) (k : str) (now : Z) (c : store V)
    (e : entry V) :
  key_of parts = Ok k -> c !! k = Some e -> (now < expires_at e)%Z ->
  get parts now c = Ok (value e, c).
Proof.
  intros Hk He Hx. unfold Cache.get. rewrite Hk. simpl. rewrite He.
  now apply Z.ltb_lt in Hx as ->.
Qed.

(** What a run of the decorated function leaves behind: if a call ran the
    function and returned normally, the result is stored under the key of
    the call, to expire one TTL after the clock reading of [set]. *)
Lemma wrapper_ran (ftype name : str)
    (func : nat -> list pyval -> list (str * pyval) -> Res (option V))
    (args : list pyval) (kwargs : list (str * pyval)) (t_get t_set : Z)
    (st st1 : state V) (r : option V) :
  wrapper ftype name func args kwargs t_get t_set st = (Ok r, st1) ->
  runs st1 = S (runs st) ->
  exists k,
    key_of (key_parts name args kwargs) = Ok k
    /\ func (runs st) args kwargs = Ok r
    /\ cache st1 !! k
       = Some {| value := r; expires_at := (t_set + ttl_of ftype)%Z;
                 filing_type := ftype |}.
Proof.
  unfold Cache.wrapper, Cache.get, Cache.set. intros H Hr.
  destruct (key_of (key_parts name args kwargs)) as [k|e] eqn:Hk;
    [|discriminate]. simpl in H. exists k. split; [reflexivity|].
  assert (Hmiss : forall c,
    match func (runs st) args kwargs with
    | Ok result =>
        (Ok result,
         {| cache := <[k := {| value := result;
                               expires_at := (t_set + ttl_of ftype)%Z;
                               filing_type := ftype |}]> c;
            runs := S (runs st) |})
    | Raise e => (Raise e, {| cache := c; runs := S (runs st) |})
    end = (Ok r, st1) ->
    func (runs st) args kwargs = Ok r
    /\ cache st1 !! k
       = Some {| value := r; expires_at := (t_set + ttl_of ftype)%Z;
                 filing_type := ftype |}).
  { intros c Hc. destruct (func (runs st) args kwargs) as [res|e];
      [|discriminate].
    injection Hc as -> <-. split; [reflexivity|]. simpl.
    apply lookup_insert_eq. }
  destruct (cache st !! k) as [e|] eqn:He.
  - destruct (t_get <? expires_at e)%Z.
    + destruct (value e) as [v|].
      * injection H as _ <-. simpl in Hr. lia.
      * eapply Hmiss, H.
    + eapply Hmiss, H.
  - eapply Hmiss, H.
Qed.

(** The second of two calls with the same key, after a first call that
    stored [Some v] at [t_set]. *)
Lemma wrapper_second (ftype name : str)
    (func : nat -> list pyval -> list (str * pyval) -> Res (option V))
    (args : list pyval) (kwargs : list (str * pyval)) (k : str)
    (t_set t2 t2' : Z) (st1 : state V) (v : V) :
  key_of (key_parts name args kwargs) = Ok k ->
  cache st1 !! k
  = Some {| value := Some v; expires_at := (t_set + ttl_of ftype)%Z;
            filing_type := ftype |} ->
  ((t2 < t_set + ttl_of ftype)%Z ->
   wrapper ftype name func args kwargs t2 t2' st1 = (Ok (Some v), st1))
  /\ ((t_set + ttl_of ftype <= t2)%Z ->
      fst (wrapper ftype name func args kwargs t2 t2' st1)
      = func (runs st1) args kwargs
      /\ runs (snd (wrapper ftype name func args kwargs t2 t2' st1))
         = S (runs st1)).
Proof.
  intros Hk He. split; intros Ht; unfold Cache.wrapper.
  - rewrite (@get_live _ k t2 (cache st1) _ Hk He Ht). simpl.
    now destruct st1.
  - destruct (@get_expired _ k t2 (cache st1) _ Hk He Ht) as [-> _].
    unfold Cache.set. rewrite Hk. simpl.
    destruct (func (runs st1) args kwargs); auto.
Qed.

End CacheFacts.

Section CacheClaims.
Import Py Cache CacheExamples.

(** C9: the cache key is a function of the operation name, the positional
    arguments and the set of keyword bindings; the order in which the
    keyword arguments are written does not change it, and a call written
    in another order is served the entry the first call stored. *)
Theorem cache_key_order_independent
    (json_dumps : pyval -> Res str) (md5_hexdigest : str -> str)
    (name : str) (args : list pyval) (kw1 kw2 : list (str * pyval)) :
  List.NoDup (map fst kw1) -> Permutation kw1 kw2 ->
  _get_cache_key json_dumps md5_hexdigest (key_parts name args kw1)
  = _get_cache_key json_dumps md5_hexdigest (key_parts name args kw2)
  /\ forall (V : Type) ftype func t_get t_set t2 t2' (st st1 : state V) v,
       wrapper json_dumps md5_hexdigest ftype name func args kw1
         t_get t_set st = (Ok (Some v), st1) ->
       runs st1 = S (runs st) ->
       (t2 < t_set + ttl_of ftype)%Z ->
       wrapper json_dumps md5_hexdigest ftype name func args kw2
         t2 t2' st1 = (Ok (Some v), st1).
Proof.
  intros ND HP. pose proof (key_parts_permutation name args ND HP) as E.
  split; [now rewrite E|].
  intros V ftype func t_get t_set t2 t2' st st1 v H1 Hr Ht.
  edestruct wrapper_ran as [k [Hk [_ He]]]; [exact H1 | exact Hr |].
  rewrite E in Hk.
  now apply (@wrapper_second json_dumps md5_hexdigest V ftype name func
               args kw2 k t_set t2 t2' st1 v Hk He).
Qed.

Lemma cache_key_order_independent_witness :
  _get_cache_key example_dumps example_digest
    (key_parts (lit "get_insider_transactions") [PStr (lit "Gale Klappa")]
       [(lit "company", PStr (lit "WEC")); (lit "user_agent", PNone)])
  = _get_cache_key example_dumps example_digest
    (key_parts (lit "get_insider_transactions") [PStr (lit "Gale Klappa")]
       [(lit "user_agent", PNone); (lit "company", PStr (lit "WEC"))]).
Proof.
  apply (cache_key_order_independent example_dumps example_digest
           (lit "get_insider_transactions") [PStr (lit "Gale Klappa")]
           (kw1 := [(lit "company", PStr (lit "WEC"));
                    (lit "user_agent", PNone)])
           (kw2 := [(lit "user_agent", PNone);
                    (lit "company", PStr (lit "WEC"))])).
  - repeat constructor; simpl; intuition discriminate.
  - apply perm_swap.
Defined.

(** C5 as stated fails for a function that returns [None]: the stored
    [None] reads as a miss, and the second call, one microsecond later,
    runs the function again. *)
Lemma cached_none_runs_twice :
  let call := wrapper example_dumps example_digest (lit "form4")
                (lit "find_person_cik") finds_nothing
                [PStr (lit "Gale Klappa")] [] in
  let '(r1, st1) := call 0%Z 0%Z fresh in
  let '(r2, st2) := call 1%Z 1%Z st1 in
  r1 = Ok None /\ runs st1 = 1 /\ r2 = Ok None /\ runs st2 = 2.
Proof. vm_compute. auto. Qed.

(** C5 (amended): after a call that ran the function and got a result
    [v] other than [None], a call with the same name and arguments
    - before the entry expires (one TTL after it was stored) returns [v]
      and does not run the function, so that the two calls ran it once;
    - at or after the expiry runs the function again and returns what
      that run returns;
    and no lookup returns an entry at or after its expiry: the lookup
    answers [None] and removes the entry. *)
Theorem cached_within_ttl_runs_once
    (json_dumps : pyval -> Res str) (md5_hexdigest : str -> str) (V : Type)
    (ftype name : str)
    (func : nat -> list pyval -> list (str * pyval) -> Res (option V))
    (args : list pyval) (kwargs : list (str * pyval))
    (t_get t_set t2 t2' : Z) (st st1 : state V) (v : V) :
  wrapper json_dumps md5_hexdigest ftype name func args kwargs
    t_get t_set st = (Ok (Some v), st1) ->
  runs st1 = S (runs st) ->
  let second :=
    wrapper json_dumps md5_hexdigest ftype name func args kwargs
      t2 t2' st1 in
  ((t2 < t_set + ttl_of ftype)%Z ->
   fst second = Ok (Some v) /\ runs (snd second) = S (runs st))
  /\ ((t_set + ttl_of ftype <= t2)%Z ->
      fst second = func (runs st1) args kwargs
      /\ runs (snd second) = S (S (runs st)))
  /\ (forall parts k now (c : store V) e,
        _get_cache_key json_dumps md5_hexdigest parts = Ok k ->
        c !! k = Some e -> (expires_at e <= now)%Z ->
        get json_dumps md5_hexdigest parts now c = Ok (None, delete k c)
        /\ delete k c !! k = None).
Proof.
  intros H1 Hr second.
  edestruct wrapper_ran as [k [Hk [_ He]]]; [exact H1 | exact Hr |].
  destruct (@wrapper_second json_dumps md5_hexdigest V ftype name func
              args kwargs k t_set t2 t2' st1 v Hk He) as [A B].
  repeat split.
  - subst second. now rewrite (A H).
  - subst second. now rewrite (A H).
  - now apply B.
  - rewrite <- Hr. now apply B.
  - eapply get_expired; eassumption.
  - apply lookup_delete_eq.
Qed.

Lemma cached_within_ttl_runs_once_witness :
  let call := wrapper example_dumps example_digest (lit "form4")
                (lit "get_insider_transactions") counts_runs
                [PStr (lit "Gale Klappa")] [] in
  let st1 := snd (call 0%Z 5%Z fresh) in
  fst (call (5 + hours 1 - 1)%Z (5 + hours 1)%Z st1) = Ok (Some 0)
  /\ runs (snd (call (5 + hours 1 - 1)%Z (5 + hours 1)%Z st1)) = 1.
Proof.
  intros call st1.
  apply (cached_within_ttl_runs_once example_dumps example_digest
           (lit "form4") (lit "get_insider_transactions") counts_runs
           [PStr (lit "Gale Klappa")] [] 0%Z 5%Z
           (5 + hours 1 - 1)%Z (5 + hours 1)%Z fresh (st1 := st1)
           (v := 0)).
  - reflexivity.
  - reflexivity.
  - reflexivity.
Defined.

End CacheClaims.

(** ** The status classifier *)

Section StatusFacts.
Import Py Utils Status.
Variable strptime_date : str -> str -> option date.

Local Abbreviation parsed_as :=
  (fun v d => parse_date_val strptime_date v = Ok (Some d)).

Lemma max_loop_parsed (vs : list pyval) (ds : list date) :
  Forall2 parsed_as vs ds ->
  forall m, max_loop strptime_date (Some m) vs
            = Ok (Some (fold_left Z.max ds m)).
Proof.
  induction 1 as [|v d vs ds Hv Hrest IH]; intros m; simpl; [reflexivity|].
  rewrite Hv. simpl. rewrite IH. do 3 f_equal.
  destruct (m <? d)%Z eqn:E;
    [apply Z.ltb_lt in E | apply Z.ltb_ge in E]; lia.
Qed.

Lemma fold_max_ge (ds : list date) (m : date) :
  (m <= fold_left Z.max ds m)%Z
  /\ Forall (fun d => d <= fold_left Z.max ds m)%Z ds.
Proof.
  revert m. induction ds as [|d ds IH]; intros m; simpl.
  - split; [lia | constructor].
  - destruct (IH (Z.max m d)) as [H1 H2]. split; [lia|].
    constructor; [lia | exact H2].
Qed.

Lemma fold_max_in (ds : list date) (m : date) :
  fold_left Z.max ds m = m \/ In (fold_left Z.max ds m) ds.
Proof.
  revert m. induction ds as [|d ds IH]; intros m; simpl; [now left|].
  destruct (IH (Z.max m d)) as [E|E].
  - rewrite E. destruct (Z.max_spec m d) as [[_ ->]|[_ ->]]; auto.
  - auto.
Qed.

(** When every dated transaction carries a date that parses, [max] finds
    the latest of them. *)
Lemma max_date_latest (vs : list pyval) (ds : list date) (m : date) :
  Forall2 parsed_as vs ds -> In m ds -> Forall (fun d => d <= m)%Z ds ->
  max_date strptime_date vs = Ok (Some m).
Proof.
  intros H Hin Hmax. destruct H as [|v d vs ds Hv Hrest]; [destruct Hin|].
  simpl. rewrite Hv. simpl. rewrite (max_loop_parsed Hrest). do 2 f_equal.
  destruct (fold_max_ge ds d) as [G1 G2].
  inversion Hmax as [|? ? Hd Hds]; subst.
  apply Z.le_antisymm.
  - destruct (fold_max_in ds d) as [E|E]; [lia|].
    rewrite Forall_forall in Hds. now apply Hds.
  - destruct Hin as [<-|Hin]; [exact G1|].
    rewrite Forall_forall in G2. now apply G2.
Qed.

End StatusFacts.

Section StatusClaims.
Import Py Utils Status LibExamples.

(** C4: with no transactions the status is unknown; otherwise, with [m]
    the most recent of the transaction dates and [d] the days from [m] to
    the current date, the status is current when [d <= 365], former when
    [d >= 730], and unknown in between. *)
Theorem determine_position_status_classifies
    (strptime_date : str -> str -> option date)
    (transactions : list dict) (ds : list date) (m current_date : date) :
  determine_position_status strptime_date [] current_date = lit "unknown"
  /\ (Forall2 (fun v d => parse_date_val strptime_date v = Ok (Some d))
              (transaction_dates transactions) ds ->
      In m ds -> Forall (fun d => d <= m)%Z ds ->
      let d := (current_date - m)%Z in
      let status :=
        determine_position_status strptime_date transactions current_date in
      ((d <= 365)%Z -> status = lit "current")
      /\ ((730 <= d)%Z -> status = lit "former")
      /\ ((365 < d < 730)%Z -> status = lit "unknown")).
Proof.
  split; [reflexivity|]. intros H Hin Hmax d status.
  assert (E : status
              = if (d <=? 365)%Z then lit "current"
                else if (730 <=? d)%Z then lit "former" else lit "unknown").
  { subst status. unfold determine_position_status.
    destruct transactions as [|t ts].
    - inversion H; subst. destruct Hin.
    - cbn [nonempty negb].
      rewrite (max_date_latest strptime_date H Hin Hmax). simpl. fold d.
      destruct (d <=? 365)%Z; [reflexivity|].
      destruct (730 <=? d)%Z; reflexivity. }
  rewrite E. repeat split; intros Hd.
  - apply Z.leb_le in Hd. now rewrite Hd.
  - destruct (d <=? 365)%Z eqn:E1; [apply Z.leb_le in E1; lia|].
    apply Z.leb_le in Hd. now rewrite Hd.
  - destruct (d <=? 365)%Z eqn:E1; [apply Z.leb_le in E1; lia|].
    destruct (730 <=? d)%Z eqn:E2; [apply Z.leb_le in E2; lia|].
    reflexivity.
Qed.

Lemma determine_position_status_classifies_witness :
  determine_position_status example_strptime
    [dated "2025-06-22"; dated "2026-10-05"; dated "2024-08-26"] 739924%Z
  = lit "current".
Proof.
  apply (@determine_position_status_classifies example_strptime
           [dated "2025-06-22"; dated "2026-10-05"; dated "2024-08-26"]
           [739424; 739894; 739124]%Z 739894%Z 739924%Z).
  - repeat constructor.
  - simpl. auto.
  - repeat constructor; lia.
  - lia.
Defined.

(** The examples of the design document, on 2026-11-04: a last
    transaction 30 days ago, 800 days ago, 500 days ago. *)
Example status_30_days :
  determine_position_status example_strptime [dated "2026-10-05"] 739924%Z
  = lit "current".
Proof. reflexivity. Qed.

Example status_800_days :
  determine_position_status example_strptime [dated "2024-08-26"] 739924%Z
  = lit "former".
Proof. reflexivity. Qed.

Example status_500_days :
  determine_position_status example_strptime [dated "2025-06-22"] 739924%Z
  = lit "unknown".
Proof. reflexivity. Qed.

(** A date that does not parse alongside one that does: the comparison
    inside [max] fails and the status is unknown. *)
Example status_unparsed_date :
  determine_position_status example_strptime
    [dated "2026-10-05"; dated "n/a"] 739924%Z
  = lit "unknown".
Proof. reflexivity. Qed.

End StatusClaims.

(** ** The Form 4 extractor *)

Section Form4Facts.
Import Py Utils Form4.

Lemma total_value_none (shares : Q) : total_value_of shares None = None.
Proof. reflexivity. Qed.

Lemma total_value_some (shares : Q) (price : option Q) (t : Q) :
  total_value_of shares price = Some t ->
  exists p, price = Some p /\ truthy_float price = true
            /\ t = (shares * p)%Q.
Proof.
  unfold total_value_of. destruct price as [p|]; [|discriminate].
  destruct (truthy_float (Some p)) eqn:E; [|discriminate].
  intros [= <-]. exists p. auto.
Qed.

Lemma truthy_float_nonzero (p : Q) :
  truthy_float (Some p) = true <-> ~ (p == 0)%Q.
Proof.
  simpl. rewrite negb_true_iff.
  split.
  - intros E H. apply Qeq_bool_iff in H. congruence.
  - intros H. destruct (Qeq_bool p 0) eqn:E; [|reflexivity].
    apply Qeq_bool_iff in E. contradiction.
Qed.

Lemma total_value_nonzero (shares p : Q) :
  ~ (p == 0)%Q -> total_value_of shares (Some p) = Some (shares * p)%Q.
Proof.
  intros H. apply truthy_float_nonzero in H. unfold total_value_of.
  now rewrite H.
Qed.

(** The price and the total of a record of the non-derivative table. *)
Lemma non_derivative_fields strptime_date py_float elem info acc r :
  _parse_non_derivative_transaction strptime_date py_float elem info acc
  = Some r ->
  total_value r = total_value_of (shares r) (price_per_share r).
Proof.
  unfold _parse_non_derivative_transaction.
  destruct (_get_text (Some elem) (ET.any_value "securityTitle") None)
    as [title|]; [|discriminate].
  destruct (negb (nonempty title)); [discriminate|].
  destruct (ET.find (ET.any "transactionAmounts") elem) as [amounts|];
    [|discriminate].
  destruct (clean_number py_float _) as [q|]; [|discriminate].
  intros [= <-]. reflexivity.
Qed.

(** The same for the derivative table: the total is computed from the
    price of the transaction, the price of the record falls back on the
    conversion price. *)
Lemma derivative_fields strptime_date py_float elem info acc r :
  _parse_derivative_transaction strptime_date py_float elem info acc
  = Some r ->
  exists price conversion,
    total_value r = total_value_of (shares r) price
    /\ price_per_share r = or_float price conversion.
Proof.
  unfold _parse_derivative_transaction.
  destruct (_get_text (Some elem) (ET.any_value "securityTitle") None)
    as [title|]; [|discriminate].
  destruct (negb (nonempty title)); [discriminate|].
  destruct (ET.find (ET.any "transactionAmounts") elem) as [amounts|];
    [|discriminate].
  destruct (clean_number py_float
              (_get_text (Some amounts) (ET.any_value "transactionShares")
                 None)) as [q|]; [|discriminate].
  intros [= <-]. simpl. eauto.
Qed.

(** The derivative record in terms of the element: the total comes from
    the price of the transaction itself, the price of the record is that
    price or, when it is missing or zero, the conversion price. *)
Lemma derivative_own_price strptime_date py_float elem info acc r amounts :
  _parse_derivative_transaction strptime_date py_float elem info acc
  = Some r ->
  ET.find (ET.any "transactionAmounts") elem = Some amounts ->
  let own :=
    clean_number py_float
      (_get_text (Some amounts) (ET.any_value "transactionPricePerShare")
         None) in
  let conversion :=
    clean_number py_float
      (_get_text (Some elem) (ET.any_value "conversionOrExercisePrice")
         None) in
  total_value r = total_value_of (shares r) own
  /\ price_per_share r = or_float own conversion.
Proof.
  unfold _parse_derivative_transaction. intros H Ha. revert H.
  destruct (_get_text (Some elem) (ET.any_value "securityTitle") None)
    as [title|]; [|discriminate].
  destruct (negb (nonempty title)); [discriminate|].
  rewrite Ha.
  destruct (clean_number py_float
              (_get_text (Some amounts) (ET.any_value "transactionShares")
                 None)) as [q|]; [|discriminate].
  intros [= <-]. split; reflexivity.
Qed.

Lemma total_value_zero (shares p : Q) :
  (p == 0)%Q -> total_value_of shares (Some p) = None.
Proof.
  intros H. unfold total_value_of, truthy_float.
  apply Qeq_bool_iff in H. now rewrite H.
Qed.

Lemma or_float_nonzero (p : Q) (other : option Q) :
  ~ (p == 0)%Q -> or_float (Some p) other = Some p.
Proof.
  intros H. unfold or_float, truthy_float.
  destruct (Qeq_bool p 0) eqn:E; [|reflexivity].
  apply Qeq_bool_iff in E. contradiction.
Qed.

Lemma or_float_zero (p : Q) (other : option Q) :
  (p == 0)%Q -> or_float (Some p) other = other.
Proof.
  intros H. unfold or_float, truthy_float.
  apply Qeq_bool_iff in H. now rewrite H.
Qed.

End Form4Facts.

Section Form4Claims.
Import Py Utils Form4 Form4Examples LibExamples.

(** C1 as stated fails: an award at the price 0 is parsed into a record
    whose price is 0, not null, and whose total is null; an option grant
    without a price of its own is parsed into a record whose price is the
    exercise price 25 and whose total is null. *)
Lemma total_value_null_with_price :
  (exists r,
     _parse_non_derivative_transaction example_strptime example_float
       award_at_0 wec_info (lit "0001209015-26-000012") = Some r
     /\ shares r = 1000%Q /\ price_per_share r = Some 0%Q
     /\ total_value r = None)
  /\ (exists r,
        _parse_derivative_transaction example_strptime example_float
          option_grant wec_info (lit "0001209015-26-000012") = Some r
        /\ shares r = 400%Q /\ price_per_share r = Some 25%Q
        /\ total_value r = None).
Proof.
  split; eexists; (split; [vm_compute; reflexivity|]); repeat split.
Qed.

(** C1 (amended): in a record parsed from a transaction element, with
    quantity [q] and price [p], the total is null whenever [p] is null,
    and a total that is not null is [q * p]. In a record of the
    non-derivative table the total is [q * p] when [p] is neither null
    nor zero, and null when [p] is zero. In a record of the derivative
    table the total is computed from the price of the transaction
    itself: when that price is there and not zero, it is the price [p] of
    the record and the total is [q * p]; when it is missing or zero, the
    total is null and [p] is the conversion price. *)
Theorem total_value_is_quantity_times_price
    (strptime_date : str -> str -> option date) (py_float : str -> option Q)
    (elem : ET.Element) (info : FilingInfo) (acc : str)
    (r : InsiderTransaction) :
  _parse_non_derivative_transaction strptime_date py_float elem info acc
  = Some r
  \/ _parse_derivative_transaction strptime_date py_float elem info acc
     = Some r ->
  (price_per_share r = None -> total_value r = None)
  /\ (forall t, total_value r = Some t ->
        exists p, price_per_share r = Some p /\ t = (shares r * p)%Q)
  /\ (_parse_non_derivative_transaction strptime_date py_float elem info acc
      = Some r ->
      forall p, price_per_share r = Some p ->
        (~ (p == 0)%Q -> total_value r = Some (shares r * p)%Q)
        /\ ((p == 0)%Q -> total_value r = None))
  /\ (_parse_derivative_transaction strptime_date py_float elem info acc
      = Some r ->
      forall amounts,
        ET.find (ET.any "transactionAmounts") elem = Some amounts ->
        let own :=
          clean_number py_float
            (_get_text (Some amounts)
               (ET.any_value "transactionPricePerShare") None) in
        let conversion :=
          clean_number py_float
            (_get_text (Some elem)
               (ET.any_value "conversionOrExercisePrice") None) in
        (forall p, own = Some p -> ~ (p == 0)%Q ->
           price_per_share r = Some p
           /\ total_value r = Some (shares r * p)%Q)
        /\ (own = None \/ (exists p, own = Some p /\ (p == 0)%Q) ->
            price_per_share r = conversion /\ total_value r = None)).
Proof.
  intros H. split; [|split; [|split]].
  - intros Hp. destruct H as [H|H].
    + rewrite (non_derivative_fields _ _ _ _ _ H), Hp. reflexivity.
    + destruct (derivative_fields _ _ _ _ _ H) as [price [conv [Ht Hpr]]].
      rewrite Ht. rewrite Hp in Hpr. unfold or_float in Hpr.
      destruct price as [p|]; [|reflexivity].
      unfold total_value_of.
      destruct (truthy_float (Some p)); [discriminate | reflexivity].
  - intros t Ht. destruct H as [H|H].
    + rewrite (non_derivative_fields _ _ _ _ _ H) in Ht.
      apply total_value_some in Ht as [p [Hp [_ ->]]]. eauto.
    + destruct (derivative_fields _ _ _ _ _ H) as [price [conv [Hv Hpr]]].
      rewrite Hv in Ht.
      apply total_value_some in Ht as [p [Hp [Htr ->]]].
      exists p. split; [|reflexivity].
      rewrite Hpr. unfold or_float. now rewrite Htr.
  - intros Hn p Hp.
    rewrite (non_derivative_fields _ _ _ _ _ Hn), Hp. split.
    + now apply total_value_nonzero.
    + now apply total_value_zero.
  - intros Hd amounts Ha. cbv zeta.
    destruct (derivative_own_price _ _ _ _ _ Hd Ha) as [Ht Hp].
    cbv zeta in Ht, Hp. rewrite Ht, Hp. split.
    + intros p Eo Hz. rewrite Eo. split.
      * now apply or_float_nonzero.
      * now apply total_value_nonzero.
    + intros [Eo|[p [Eo Hz]]]; rewrite Eo.
      * split; reflexivity.
      * split; [now apply or_float_zero | now apply total_value_zero].
Qed.

Lemma total_value_is_quantity_times_price_witness :
  (_parse_non_derivative_transaction example_strptime example_float
     sale_1000_at_50 wec_info (lit "0001209015-26-000012") = Some sale_record
   /\ total_value sale_record = Some (shares sale_record * 50)%Q)
  /\ (exists r,
        _parse_derivative_transaction example_strptime example_float
          option_exercise wec_info (lit "0001209015-26-000012") = Some r
        /\ price_per_share r = Some 5%Q
        /\ total_value r = Some (shares r * 5)%Q).
Proof.
  split.
  - split; [reflexivity|].
    apply (proj1 (proj2 (proj2
             (@total_value_is_quantity_times_price example_strptime
                example_float sale_1000_at_50 wec_info
                (lit "0001209015-26-000012") sale_record
                (or_introl eq_refl)))) eq_refl 50%Q eq_refl).
    discriminate.
  - destruct (_parse_derivative_transaction example_strptime example_float
                option_exercise wec_info (lit "0001209015-26-000012"))
      as [r|] eqn:E; [|discriminate E].
    exists r. split; [reflexivity|].
    destruct (@total_value_is_quantity_times_price example_strptime
                example_float option_exercise wec_info
                (lit "0001209015-26-000012") r (or_intror E))
      as [_ [_ [_ D]]].
    destruct (D E _ eq_refl) as [D1 _].
    apply (D1 5%Q); [reflexivity | discriminate].
Defined.

(** The scenario of the design document: one sale of 1,000 shares at 50
    dollars by "KLAPPA GALE E" gives one record, a sale worth 50,000,
    and the name matcher keeps it for "Gale Klappa". *)
Example sale_document_parsed :
  parse_form4_xml example_strptime example_float reads_sale soup_unavailable
    0%Z (lit "<ownershipDocument/>") (lit "0001209015-26-000012")
  = Ok [sale_record]
  /\ transaction_type sale_record = SALE
  /\ total_value sale_record = Some 50000%Q
  /\ Similarity.is_name_match (lit "Gale Klappa") (insider_name sale_record)
       Similarity.default_threshold = true.
Proof. repeat split. Qed.

End Form4Claims.

Section Form4Boundary.
Import Py Utils Form4 Form4Examples LibExamples.

(** Whether the fallback parser finds the two names in the soup. *)
Lemma soup_filing_info_none (now : Z) (soup : Soup.Node) :
  truthy_str (option_map Soup.get_text (Soup.find (lit "issuerName") soup))
  = false
  \/ truthy_str
       (option_map Soup.get_text (Soup.find (lit "rptOwnerName") soup))
     = false ->
  soup_filing_info now soup = None.
Proof.
  unfold soup_filing_info.
  destruct (option_map Soup.get_text (Soup.find (lit "issuerName") soup))
    as [c|];
    destruct (option_map Soup.get_text (Soup.find (lit "rptOwnerName") soup))
      as [i|]; simpl; intros [H|H]; try discriminate; try reflexivity.
  - now rewrite H.
  - rewrite H. now rewrite orb_true_r.
Qed.

(** C3: on every document text and identifier [parse_form4_xml] returns
    a list and raises nothing. When the text is not well-formed XML the
    result is that of the fallback parser; and when the names of the
    issuer and of the owner are not both found (by the fallback parser,
    or in the parsed tree) the result is the empty list. *)
Theorem parse_form4_xml_never_raises
    (strptime_date : str -> str -> option date) (py_float : str -> option Q)
    (et_fromstring : str -> option ET.Element)
    (beautiful_soup : str -> Res Soup.Node) (now : Z)
    (xml_content accession_number : str) :
  let result :=
    parse_form4_xml strptime_date py_float et_fromstring beautiful_soup now
      xml_content accession_number in
  (exists transactions, result = Ok transactions)
  /\ (et_fromstring (strip_namespaces xml_content) = None ->
      result
      = Ok (_parse_with_beautifulsoup strptime_date py_float beautiful_soup
              now xml_content accession_number)
      /\ (forall e, beautiful_soup xml_content = Raise e -> result = Ok [])
      /\ (forall soup,
            beautiful_soup xml_content = Ok soup ->
            truthy_str
              (option_map Soup.get_text (Soup.find (lit "issuerName") soup))
            = false
            \/ truthy_str
                 (option_map Soup.get_text
                    (Soup.find (lit "rptOwnerName") soup))
               = false ->
            result = Ok []))
  /\ (forall root,
        et_fromstring (strip_namespaces xml_content) = Some root ->
        _extract_filing_info strptime_date now root = None ->
        result = Ok []).
Proof.
  intros result. subst result. unfold parse_form4_xml.
  destruct (et_fromstring (strip_namespaces xml_content)) as [root|].
  - split; [|split; [discriminate|]].
    + destruct (_extract_filing_info strptime_date now root); eauto.
    + intros root' [= <-] H. now rewrite H.
  - split; [eauto|]. split; [|discriminate].
    intros _. split; [reflexivity|].
    unfold _parse_with_beautifulsoup. split.
    + intros e He. now rewrite He.
    + intros soup Hs Hn. rewrite Hs. simpl.
      now rewrite (soup_filing_info_none now soup Hn).
Qed.

Lemma parse_form4_xml_never_raises_witness :
  parse_form4_xml example_strptime example_float rejects soup_without_owner
    0%Z (lit "<ownershipDocument><issuer>") (lit "0001209015-26-000012")
  = Ok [].
Proof.
  refine (proj2 (proj2 (proj1 (proj2 (parse_form4_xml_never_raises
            example_strptime example_float rejects soup_without_owner 0%Z
            (lit "<ownershipDocument><issuer>")
            (lit "0001209015-26-000012"))) eq_refl)) _ eq_refl _).
  right. reflexivity.
Defined.

(** One transaction of the soup that cannot be read is skipped, and the
    others are kept. *)
Lemma soup_transactions_skip strptime_date py_float info acc trans rest e :
  soup_transaction strptime_date py_float info acc trans = Raise e ->
  soup_transactions strptime_date py_float info acc (trans :: rest)
  = soup_transactions strptime_date py_float info acc rest.
Proof. intros H. simpl. now rewrite H. Qed.

End Form4Boundary.

(** ** The cross-company search *)

Section SearchClaims.
Import Py Utils Status Search SearchExamples LibExamples.

(** C6 as stated fails: for the empty person name, with an index that
    knows nobody, the operation returns an ordinary result (no company,
    the diagnostic message, the variations tried) and not a failure. *)
Lemma empty_name_is_searched :
  get_all_insider_companies example_strptime 739924%Z index_empty
    transactions_down [] in_order (lit "") true 1%Z 10%Z true None
  = Ok (Found nobody_found).
Proof. vm_compute. reflexivity. Qed.

(** C6 (amended): when the start of the look-back window is a date, the
    operation returns a result on every person name, the empty one
    included, whatever the collaborators do: failures of the index and of
    the per-company searches are caught. The result is the error
    dictionary exactly when the full-text strategy was not used or
    failed, and the company listing is empty. *)
Theorem get_all_insider_companies_returns
    (strptime_date : str -> str -> option date) (today : date)
    (get_companies_for_person : str -> Res (list company_hit))
    (get_insider_transactions :
       str -> str -> date -> date -> Res transactions_result)
    (get_all_public_companies : list dict)
    (as_completed : list (Res (option CompanyInsiderSummary)) ->
                    list (Res (option CompanyInsiderSummary)))
    (person_name : str) (include_former : bool)
    (min_transactions years_back : Z) (use_fulltext_search : bool)
    (company_limit : option Z) :
  (date_min <= today <= date_max)%Z ->
  (date_min <= today - years_back * 365 <= date_max)%Z ->
  exists outcome,
    get_all_insider_companies strptime_date today get_companies_for_person
      get_insider_transactions get_all_public_companies as_completed
      person_name include_former min_transactions years_back
      use_fulltext_search company_limit = Ok outcome
    /\ ((exists error, outcome = ErrorResult person_name error) <->
        (use_fulltext_search = false
         \/ exists e, get_companies_for_person person_name = Raise e)
        /\ get_all_public_companies = []).
Proof.
  intros Ht Hs. unfold get_all_insider_companies, timedelta_days, date_sub.
  unfold date_min, date_max, timedelta_max_days in *.
  destruct (Z.abs (years_back * 365) <=? 999999999)%Z eqn:E1;
    [|apply Z.leb_gt in E1; lia].
  cbn [bind].
  destruct ((1 <=? today - years_back * 365)%Z
            && (today - years_back * 365 <=? 3652059)%Z) eqn:E2.
  2:{ apply andb_false_iff in E2 as [E2|E2]; apply Z.leb_gt in E2; lia. }
  cbn [bind].
  assert (Fallback : forall found_by_brute_force,
    exists outcome,
      match get_all_public_companies with
      | [] => Ok (ErrorResult person_name
                    (lit "Could not retrieve public company listings"))
      | _ :: _ => Ok (Found found_by_brute_force)
      end = Ok outcome
      /\ ((exists error, outcome = ErrorResult person_name error) <->
          get_all_public_companies = [])).
  { intros r. destruct get_all_public_companies as [|c cs];
      eexists; (split; [reflexivity|]); split; eauto.
    - intros [error H]. discriminate.
    - discriminate. }
  destruct use_fulltext_search.
  - unfold fulltext_search.
    destruct (get_companies_for_person person_name) as [hits|e] eqn:Eh;
      cbn [bind].
    + eexists. split; [reflexivity|]. split.
      * intros [error H]. discriminate.
      * intros [[H|[e H]] _]; discriminate.
    + destruct (Fallback (build_result today person_name include_former false
                  (brute_force_search strptime_date get_insider_transactions
                     as_completed person_name min_transactions
                     (today - years_back * 365) today
                     match company_limit with
                     | Some n =>
                         if (n =? 0)%Z then get_all_public_companies
                         else slice_to n get_all_public_companies
                     | None => get_all_public_companies
                     end))) as [outcome [Ho Hiff]].
      exists outcome. split.
      * rewrite <- Ho. destruct get_all_public_companies; reflexivity.
      * rewrite Hiff. split; [eauto | tauto].
  - destruct (Fallback (build_result today person_name include_former false
                (brute_force_search strptime_date get_insider_transactions
                   as_completed person_name min_transactions
                   (today - years_back * 365) today
                   match company_limit with
                   | Some n =>
                       if (n =? 0)%Z then get_all_public_companies
                       else slice_to n get_all_public_companies
                   | None => get_all_public_companies
                   end))) as [outcome [Ho Hiff]].
    exists outcome. split.
    + rewrite <- Ho. destruct get_all_public_companies; reflexivity.
    + rewrite Hiff. split; [eauto | tauto].
Qed.

Lemma get_all_insider_companies_returns_witness :
  exists outcome,
    get_all_insider_companies example_strptime 739924%Z index_down
      transactions_down [] in_order (lit "") true 1%Z 10%Z true None
    = Ok outcome
    /\ ((exists error, outcome = ErrorResult (lit "") error) <->
        (true = false
         \/ exists e, index_down (lit "") = Raise e)
        /\ @nil dict = []).
Proof.
  apply (@get_all_insider_companies_returns example_strptime 739924%Z
           index_down transactions_down [] in_order (lit "") true 1%Z 10%Z
           true None).
  - unfold date_min, date_max. lia.
  - unfold date_min, date_max. lia.
Defined.

(** The start of the window is computed before anything is caught: with
    a look-back of 3000 years there is no such date and the operation
    raises [OverflowError]. *)
Example look_back_too_long :
  get_all_insider_companies example_strptime 739924%Z index_empty
    transactions_down [] in_order (lit "Gale Klappa") true 1%Z 3000%Z
    true None
  = Raise OverflowError.
Proof. reflexivity. Qed.

(** A listing whose [cik_str] is a number, as the SEC serves it: the
    search of that company raises in the worker, the loop over the
    futures passes over it, and nothing is found. *)
Example numeric_cik_is_passed_over :
  brute_force_search example_strptime transactions_down in_order
    (lit "Gale Klappa") 1%Z 736274%Z 739924%Z
    [[(lit "cik_str", PInt 783325); (lit "ticker", PStr (lit "WEC"));
      (lit "title", PStr (lit "WEC ENERGY GROUP, INC."))]]
  = [].
Proof. reflexivity. Qed.

End SearchClaims.

(** ** More on strings: strip, case *)

Section StripFacts.

Lemma dropwhile_head {A} (p : A -> bool) (l : list A) :
  match dropwhile p l with x :: _ => p x = false | [] => True end.
Proof.
  induction l as [|x t IH]; simpl; [exact I|].
  destruct (p x) eqn:E; [exact IH | exact E].
Qed.

Lemma dropwhile_idem {A} (p : A -> bool) (l : list A) :
  dropwhile p (dropwhile p l) = dropwhile p l.
Proof. apply dropwhile_none, dropwhile_head. Qed.

Lemma dropwhile_snoc {A} (p : A -> bool) (l : list A) (c : A) :
  p c = false -> dropwhile p (l ++ [c]) = dropwhile p l ++ [c].
Proof.
  intros Hc. induction l as [|x t IH]; simpl; [now rewrite Hc|].
  destruct (p x); [exact IH | reflexivity].
Qed.

Lemma dropwhile_map {A} (p : A -> bool) (f : A -> A) (l : list A) :
  (forall x, p (f x) = p x) ->
  dropwhile p (map f l) = map f (dropwhile p l).
Proof.
  intros H. induction l as [|x t IH]; simpl; [reflexivity|].
  rewrite H. destruct (p x); [exact IH | reflexivity].
Qed.

Lemma rstrip_cons (c : ascii) (t : str) :
  is_space c = false -> rstrip (c :: t) = c :: rstrip t.
Proof.
  intros Hc. unfold rstrip. simpl rev.
  rewrite dropwhile_snoc by exact Hc. rewrite rev_app_distr. reflexivity.
Qed.

Lemma rstrip_idem (s : str) : rstrip (rstrip s) = rstrip s.
Proof.
  unfold rstrip. now rewrite rev_involutive, dropwhile_idem.
Qed.

(** A stripped text is empty or starts with a character that is not
    whitespace. *)
Lemma strip_head (s : str) :
  match strip s with c :: _ => is_space c = false | [] => True end.
Proof.
  unfold strip, lstrip. pose proof (dropwhile_head is_space s) as H.
  destruct (dropwhile is_space s) as [|c t]; [exact I|].
  now rewrite rstrip_cons.
Qed.

Lemma strip_idem (s : str) : strip (strip s) = strip s.
Proof.
  unfold strip at 1. unfold lstrip.
  rewrite dropwhile_none by apply strip_head.
  unfold strip. apply rstrip_idem.
Qed.

Lemma strip_map (f : ascii -> ascii) (s : str) :
  (forall c, is_space (f c) = is_space c) ->
  strip (map f s) = map f (strip s).
Proof.
  intros H. unfold strip, rstrip, lstrip.
  now rewrite !dropwhile_map, <- !map_rev, !dropwhile_map, <- !map_rev
    by exact H.
Qed.

Lemma upper_char_space (c : ascii) : is_space (upper_char c) = is_space c.
Proof. destruct c as [[] [] [] [] [] [] [] []]; reflexivity. Qed.

Lemma upper_char_idem (c : ascii) : upper_char (upper_char c) = upper_char c.
Proof. destruct c as [[] [] [] [] [] [] [] []]; reflexivity. Qed.

Lemma lower_upper_char (c : ascii) : lower_char (upper_char c) = lower_char c.
Proof. destruct c as [[] [] [] [] [] [] [] []]; reflexivity. Qed.

Lemma nonempty_map {A} (f : A -> A) (l : list A) :
  nonempty (map f l) = nonempty l.
Proof. now destruct l. Qed.

End StripFacts.

(** ** utils.py: tickers, identifiers, URLs, chunks, retries *)

Section UtilsClaims.
Import Py Utils UtilsMore.

(** X1: [normalize_ticker] is idempotent, and its result has no
    lower-case letter and no whitespace at either end. *)
Theorem normalize_ticker_idempotent (ticker : str) :
  normalize_ticker (normalize_ticker ticker) = normalize_ticker ticker
  /\ map upper_char (normalize_ticker ticker) = normalize_ticker ticker
  /\ strip (normalize_ticker ticker) = normalize_ticker ticker.
Proof.
  assert (U : map upper_char (normalize_ticker ticker)
              = normalize_ticker ticker).
  { unfold normalize_ticker. destruct (negb (nonempty ticker));
      [reflexivity|].
    unfold upper. rewrite <- strip_map by apply upper_char_space.
    f_equal. rewrite map_map. apply map_ext, upper_char_idem. }
  assert (S : strip (normalize_ticker ticker) = normalize_ticker ticker).
  { unfold normalize_ticker. destruct (negb (nonempty ticker));
      [reflexivity | apply strip_idem]. }
  split; [|split; assumption].
  unfold normalize_ticker at 1.
  destruct (negb (nonempty (normalize_ticker ticker))) eqn:E.
  - destruct (normalize_ticker ticker); [reflexivity | discriminate].
  - unfold upper. now rewrite U, S.
Qed.

Lemma filter_idem {A} (p : A -> bool) (l : list A) :
  filter p (filter p l) = filter p l.
Proof. apply filter_all, filter_sat. Qed.

Lemma zfill_digits (width : nat) (s : str) :
  Forall (fun c => is_digit c = true) s ->
  Forall (fun c => is_digit c = true) (zfill width s).
Proof.
  intros H. unfold zfill. apply Forall_app. split; [|exact H].
  apply Forall_forall. intros c Hc. apply repeat_spec in Hc. now subst c.
Qed.

Lemma zfill_length (width : nat) (s : str) :
  List.length (zfill width s) = Nat.max width (List.length s).
Proof. unfold zfill. rewrite length_app, repeat_length. lia. Qed.

(** X2: [normalize_cik] returns digits only, at least ten of them and
    exactly ten when the input holds at most ten digits; it is
    idempotent. *)
Theorem normalize_cik_digits (cik : option str) :
  Forall (fun c => is_digit c = true) (normalize_cik cik)
  /\ List.length (normalize_cik cik)
     = Nat.max 10 (List.length (filter is_digit (str_of_opt cik)))
  /\ normalize_cik (Some (normalize_cik cik)) = normalize_cik cik.
Proof.
  assert (D : Forall (fun c => is_digit c = true) (normalize_cik cik)).
  { unfold normalize_cik. apply zfill_digits, filter_sat. }
  split; [exact D|]. split.
  - unfold normalize_cik. apply zfill_length.
  - unfold normalize_cik at 1. cbn [str_of_opt].
    rewrite (filter_all _ D). unfold zfill at 1.
    replace (10 - List.length (normalize_cik cik)) with 0; [reflexivity|].
    unfold normalize_cik. rewrite zfill_length. lia.
Qed.

End UtilsClaims.

Section UrlClaims.
Import Py Utils UtilsMore.

Lemma ends_with_doc_xml (x : str) :
  ends_with (lit ".html") (x ++ lit "_doc.xml") = false
  /\ ends_with (lit ".htm") (x ++ lit "_doc.xml") = false.
Proof. unfold ends_with. rewrite rev_app_distr. split; reflexivity. Qed.

(** X3: [extract_xml_url] replaces a final ".html" or ".htm" by
    "_doc.xml", leaves every other URL as it is, and applying it twice
    gives the same as applying it once. *)
Theorem extract_xml_url_suffix (base filing_url : str) :
  extract_xml_url (base ++ lit ".html") = base ++ lit "_doc.xml"
  /\ extract_xml_url (base ++ lit ".htm") = base ++ lit "_doc.xml"
  /\ (ends_with (lit ".html") filing_url = false ->
      ends_with (lit ".htm") filing_url = false ->
      extract_xml_url filing_url = filing_url)
  /\ extract_xml_url (extract_xml_url filing_url)
     = extract_xml_url filing_url.
Proof.
  repeat split.
  - unfold extract_xml_url, ends_with, rsplit1_head.
    rewrite rev_app_distr. cbn. now rewrite rev_involutive.
  - unfold extract_xml_url, ends_with, rsplit1_head.
    rewrite rev_app_distr. cbn. now rewrite rev_involutive.
  - intros H1 H2. unfold extract_xml_url. now rewrite H1, H2.
  - destruct (ends_with (lit ".html") filing_url
              || ends_with (lit ".htm") filing_url) eqn:E.
    + assert (R : extract_xml_url filing_url
                  = rsplit1_head "."%char filing_url ++ lit "_doc.xml")
        by (unfold extract_xml_url; now rewrite E).
      rewrite R. unfold extract_xml_url.
      destruct (ends_with_doc_xml (rsplit1_head "."%char filing_url))
        as [-> ->]. reflexivity.
    + assert (R : extract_xml_url filing_url = filing_url)
        by (unfold extract_xml_url; now rewrite E).
      now rewrite !R.
Qed.

End UrlClaims.

Section ChunkClaims.
Import Py UtilsMore.
Variable A : Type.

Lemma firstn_add_split (a b : nat) (l : list A) :
  firstn (a + b) l = firstn a l ++ firstn b (skipn a l).
Proof.
  revert l. induction a as [|a IH]; intros l; [reflexivity|].
  destruct l as [|x t]; simpl.
  - now rewrite firstn_nil.
  - now rewrite IH.
Qed.

Lemma concat_chunks (n m : nat) (l : list A) :
  List.concat (map (fun i => firstn n (skipn i l))
              (map (fun k => k * n) (seq 0 m)))
  = firstn (m * n) l.
Proof.
  induction m as [|m IH]; [reflexivity|].
  rewrite seq_S, !map_app, List.concat_app, IH. simpl.
  rewrite app_nil_r. now rewrite <- firstn_add_split, Nat.add_comm.
Qed.

Lemma ceil_covers (len n : nat) :
  0 < n -> len <= (len + n - 1) / n * n.
Proof.
  intros Hn. pose proof (Nat.div_mod (len + n - 1) n) as H.
  pose proof (Nat.mod_upper_bound (len + n - 1) n). nia.
Qed.

Lemma ceil_tight (len n k : nat) :
  0 < n -> k < (len + n - 1) / n -> k * n < len.
Proof.
  intros Hn Hk. pose proof (Nat.div_mod (len + n - 1) n) as H.
  pose proof (Nat.mod_upper_bound (len + n - 1) n). nia.
Qed.

(** X4: for a positive chunk size the chunks, put end to end, are the
    list; no chunk is empty or longer than the size. With the size 0 the
    call raises ValueError, and with a negative size there is no chunk,
    whatever the list. *)
Theorem chunk_list_concat (lst : list A) (chunk_size : Z) :
  ((0 < chunk_size)%Z ->
   exists chunks,
     chunk_list lst chunk_size = Ok chunks
     /\ List.concat chunks = lst
     /\ Forall (fun c => c <> []
                         /\ (Z.of_nat (List.length c) <= chunk_size)%Z)
               chunks)
  /\ (chunk_size = 0%Z -> chunk_list lst chunk_size = Raise ValueError)
  /\ ((chunk_size < 0)%Z -> chunk_list lst chunk_size = Ok []).
Proof.
  repeat split.
  - intros Hpos. unfold chunk_list.
    destruct (chunk_size =? 0)%Z eqn:E0; [apply Z.eqb_eq in E0; lia|].
    destruct (chunk_size <? 0)%Z eqn:E1; [apply Z.ltb_lt in E1; lia|].
    set (n := Z.to_nat chunk_size). assert (Hn : 0 < n) by lia.
    eexists. split; [reflexivity|]. unfold range0. split.
    + rewrite concat_chunks. apply firstn_all2.
      now apply ceil_covers.
    + apply Forall_forall. intros c Hc.
      apply in_map_iff in Hc as [i [<- Hi]].
      apply in_map_iff in Hi as [k [<- Hk]].
      apply in_seq in Hk.
      assert (Hlt : k * n < List.length lst)
        by (apply ceil_tight; lia).
      split.
      * intros E. apply (f_equal (@List.length A)) in E.
        rewrite length_firstn, length_skipn in E. simpl in E. lia.
      * rewrite length_firstn. lia.
  - intros ->. reflexivity.
  - intros Hneg. unfold chunk_list.
    destruct (chunk_size =? 0)%Z eqn:E0; [apply Z.eqb_eq in E0; lia|].
    apply Z.ltb_lt in Hneg. now rewrite Hneg.
Qed.

End ChunkClaims.

Section RetryClaims.
Import Py UtilsMore.
Variable A : Type.
Variable func : nat -> Res A.







End RetryClaims.

Section RetryWitness.
Import Py UtilsMore MoreExamples.


Lemma chunk_list_concat_witness :
  exists chunks,
    chunk_list [1; 2; 3; 4; 5] 2 = Ok chunks
    /\ List.concat chunks = [1; 2; 3; 4; 5]
    /\ Forall (fun c => c <> [] /\ (Z.of_nat (List.length c) <= 2)%Z) chunks.
Proof.
  apply (proj1 (chunk_list_concat [1; 2; 3; 4; 5] 2)). lia.
Defined.

End RetryWitness.

(** ** The rate limiter *)

Section RateLimiterClaims.
Import Py RateLimiter.





End RateLimiterClaims.

(** ** The cache: failures and lifetimes *)

Section CacheMore.
Import Py Cache CacheExamples.

Lemma ttl_get_bounds (d : list (str * Z)) (k : str) (lo hi default : Z) :
  Forall (fun kv => (lo <= snd kv <= hi)%Z) d -> (lo <= default <= hi)%Z ->
  (lo <= ttl_get d k default <= hi)%Z.
Proof.
  intros H Hd. induction H as [|[k' v] rest Hv Hrest IH]; simpl; [exact Hd|].
  destruct (str_eqb k k'); [exact Hv | exact IH].
Qed.

(** X7: every filing type has a lifetime between one hour and seven
    days; the type is read without regard to case, and a type that is
    not in the table has four hours. *)
Theorem ttl_of_bounds (ftype : str) :
  (hours 1 <= ttl_of ftype <= days 7)%Z
  /\ ttl_of (upper ftype) = ttl_of ftype
  /\ (mem (lower ftype) (map fst default_ttl) = false ->
      ttl_of ftype = hours 4).
Proof.
  split; [|split].
  - apply ttl_get_bounds; [|unfold hours, days; lia].
    unfold default_ttl, hours, days.
    repeat (constructor; [simpl; lia|]). constructor.
  - unfold ttl_of. f_equal. unfold lower, upper. rewrite map_map.
    apply map_ext, lower_upper_char.
  - unfold ttl_of. generalize (lower ftype) as k. intros k.
    induction default_ttl as [|[k' v] rest IH]; [reflexivity|].
    cbn [map fst mem existsb ttl_get]. intros H.
    apply orb_false_iff in H as [H1 H2]. rewrite H1. now apply IH.
Qed.

Lemma ttl_of_bounds_witness : ttl_of (lit "cross_company") = hours 4.
Proof.
  apply (proj2 (proj2 (ttl_of_bounds (lit "cross_company")))). reflexivity.
Defined.

(** X8: a call in which the decorated function raises stores nothing:
    when no entry is stored under the key of the call, the exception
    goes to the caller, the key is still without an entry, and the next
    call runs the function again. *)
Theorem wrapper_failure_not_cached
    (json_dumps : pyval -> Res str) (md5_hexdigest : str -> str) (V : Type)
    (ftype name : str)
    (func : nat -> list pyval -> list (str * pyval) -> Res (option V))
    (args : list pyval) (kwargs : list (str * pyval))
    (t_get t_set t2 t2' : Z) (st : state V) (k : str) (e : exn) :
  _get_cache_key json_dumps md5_hexdigest (key_parts name args kwargs)
  = Ok k ->
  cache st !! k = None ->
  func (runs st) args kwargs = Raise e ->
  let '(r1, st1) :=
    wrapper json_dumps md5_hexdigest ftype name func args kwargs
      t_get t_set st in
  r1 = Raise e
  /\ cache st1 = cache st
  /\ runs st1 = S (runs st)
  /\ fst (wrapper json_dumps md5_hexdigest ftype name func args kwargs
            t2 t2' st1)
     = func (S (runs st)) args kwargs.
Proof.
  intros Hk Hnone Hraise. unfold wrapper, get. rewrite Hk. cbn [bind].
  rewrite Hnone, Hraise. repeat split.
  cbn [cache runs]. rewrite Hnone. unfold set. rewrite Hk. cbn [bind].
  destruct (func (S (runs st)) args kwargs); reflexivity.
Qed.

Lemma wrapper_failure_not_cached_witness :
  let '(r1, st1) :=
    wrapper example_dumps example_digest (lit "form4") (lit "fetch")
      (fun run _ _ => if run =? 0 then Raise ValueError else Ok (Some run))
      [PStr (lit "WEC")] [] 0%Z 0%Z fresh in
  r1 = Raise ValueError
  /\ cache st1 = cache fresh
  /\ runs st1 = 1
  /\ fst (wrapper example_dumps example_digest (lit "form4") (lit "fetch")
            (fun run _ _ => if run =? 0 then Raise ValueError
                            else Ok (Some run))
            [PStr (lit "WEC")] [] 1%Z 1%Z st1)
     = Ok (Some 1).
Proof.
  eapply (@wrapper_failure_not_cached example_dumps example_digest nat
            (lit "form4") (lit "fetch")
            (fun run _ _ => if run =? 0 then Raise ValueError
                            else Ok (Some run))
            [PStr (lit "WEC")] [] 0%Z 0%Z 1%Z 1%Z fresh _ ValueError).
  - reflexivity.
  - reflexivity.
  - reflexivity.
Defined.

End CacheMore.

(** ** More on the name matcher *)

Section NameMore.
Import NameMatching NameShape Similarity NameSearch.

Lemma mem_In (w : str) (ws : list str) : mem w ws = true <-> In w ws.
Proof.
  unfold mem. rewrite existsb_exists. split.
  - intros [x [Hx E]]. apply str_eqb_eq in E. now subst x.
  - intros H. exists w. split; [exact H | apply str_eqb_refl].
Qed.

(** X9: the normalized name is made of words joined by single spaces;
    every word has at least two characters, all of them lower-case and
    neither whitespace nor punctuation, and no word is a key of the
    nickname table. *)
Theorem normalize_name_shape (name : str) :
  let words := split (normalize_name name) in
  normalize_name name = join (lit " ") words
  /\ Forall (fun w =>
               2 <= List.length w
               /\ Forall (fun c => is_space c = false /\ is_punct c = false
                                   /\ lower_char c = c) w
               /\ dict_get nickname_map w w = w) words.
Proof.
  destruct (normalize_name_words name) as [ws [E H]]. cbv zeta. rewrite E.
  rewrite (split_join (words_shaped H)). split; [reflexivity|].
  eapply Forall_impl; [|exact H]. intros w Hw.
  apply word_ok_inv in Hw as [Hc [Hl Hn]]. repeat split; [lia | | exact Hn].
  eapply Forall_impl; [|exact Hc]. intros c Hcc.
  now apply clean_char_inv.
Qed.

(** X10: on ASCII names [normalize_name] does not see the case of its
    input. *)
Theorem normalize_name_case_insensitive (name : str) :
  isascii name = true ->
  normalize_name (upper name) = normalize_name name
  /\ normalize_name (lower name) = normalize_name name.
Proof.
  intros _.
  assert (G : forall f : ascii -> ascii,
             (forall c, is_space (f c) = is_space c) ->
             (forall c, lower_char (f c) = lower_char c) ->
             normalize_name (map f name) = normalize_name name).
  { intros f Hs Hl. unfold normalize_name.
    rewrite nonempty_map, (strip_map f name Hs), nonempty_map.
    replace (lower (map f name)) with (lower name); [reflexivity|].
    unfold lower. rewrite map_map. apply map_ext. intros c. now rewrite Hl. }
  split.
  - apply G; [apply upper_char_space | apply lower_upper_char].
  - apply G; [apply lower_char_space | apply lower_char_idem].
Qed.

Lemma normalize_name_case_insensitive_witness :
  normalize_name (upper (lit "Gale E. Klappa"))
  = normalize_name (lit "Gale E. Klappa")
  /\ normalize_name (lower (lit "Gale E. Klappa"))
     = normalize_name (lit "Gale E. Klappa").
Proof.
  apply normalize_name_case_insensitive. reflexivity.
Defined.

Lemma to_set_NoDup (l : list str) : List.NoDup (to_set l).
Proof. apply NoDup_nodup. Qed.

Lemma set_and_same (s1 s2 : list str) :
  (forall w, In w s1 -> In w s2) -> set_and s1 s2 = s1.
Proof.
  intros H. unfold set_and. apply filter_all, Forall_forall.
  intros w Hw. apply mem_In. auto.
Qed.

Lemma set_or_same (s1 s2 : list str) :
  (forall w, In w s2 -> In w s1) -> set_or s1 s2 = s1.
Proof.
  intros H. unfold set_or.
  replace (filter (fun w => negb (mem w s1)) s2) with (@nil str);
    [apply app_nil_r|].
  symmetry. induction s2 as [|w t IH]; [reflexivity|]. simpl.
  assert (Hw : mem w s1 = true) by (apply mem_In, H; now left).
  rewrite Hw. simpl. apply IH. intros x Hx. apply H. now right.
Qed.

Lemma div_len_same (n : nat) : n <> 0 -> (div_len n n == 1)%Q.
Proof.
  intros H. unfold div_len, Qeq. simpl. rewrite Zpos_of_nat by exact H. lia.
Qed.

(** X11: the order of the words does not count: two non-empty names whose
    normal forms have the same set of words, two words or more, have
    similarity 1 and match under the default threshold. *)
Theorem calculate_similarity_word_order (name1 name2 : str) :
  name1 <> [] -> name2 <> [] ->
  (forall w, In w (split (normalize_name name1))
             <-> In w (split (normalize_name name2))) ->
  2 <= List.length (to_set (split (normalize_name name1))) ->
  (calculate_similarity name1 name2 == 1)%Q
  /\ is_name_match name1 name2 default_threshold = true.
Proof.
  intros H1 H2 Hsame Hlen.
  assert (S : (calculate_similarity name1 name2 == 1)%Q).
  { unfold calculate_similarity.
    destruct name1 as [|c1 t1]; [congruence|].
    destruct name2 as [|c2 t2]; [congruence|].
    cbn [nonempty negb orb].
    set (n1 := normalize_name (c1 :: t1)) in *.
    set (n2 := normalize_name (c2 :: t2)) in *.
    destruct (str_eqb n1 n2); [reflexivity|]. cbv zeta.
    assert (A : forall w, In w (to_set (split n1)) <-> In w (to_set (split n2))).
    { intros w. unfold to_set. rewrite !nodup_In. apply Hsame. }
    rewrite set_and_same by (intros w; apply A).
    rewrite set_or_same by (intros w; apply A).
    destruct (to_set (split n1)) as [|w1 r1] eqn:E1; [simpl in Hlen; lia|].
    destruct (to_set (split n2)) as [|w2 r2] eqn:E2.
    { exfalso. apply (A w1). now left. }
    cbn [nonempty andb].
    destruct (2 <=? List.length (w1 :: r1)) eqn:L;
      [|apply Nat.leb_gt in L; lia].
    cbn [List.length Nat.ltb Nat.leb].
    apply div_len_same. discriminate. }
  split; [exact S|].
  unfold is_name_match, default_threshold. apply Qle_bool_iff.
  rewrite S. unfold Qle. simpl. lia.
Qed.

Lemma calculate_similarity_word_order_witness :
  (calculate_similarity (lit "Gale Klappa") (lit "KLAPPA, GALE E.") == 1)%Q
  /\ is_name_match (lit "Gale Klappa") (lit "KLAPPA, GALE E.")
       default_threshold = true.
Proof.
  apply (calculate_similarity_word_order
           (name1 := lit "Gale Klappa") (name2 := lit "KLAPPA, GALE E.")).
  - discriminate.
  - discriminate.
  - intros w. vm_compute. tauto.
  - vm_compute. lia.
Defined.

End NameMore.

(** ** Symmetry of the similarity, and the search helpers *)

Section NameSymmetry.
Import NameMatching Similarity NameSearch Variations.

Lemma str_eqb_sym (a b : str) : str_eqb a b = str_eqb b a.
Proof.
  destruct (str_eqb a b) eqn:E.
  - apply str_eqb_eq in E. subst b. symmetry. apply str_eqb_refl.
  - destruct (str_eqb b a) eqn:E'; [|reflexivity].
    apply str_eqb_eq in E'. subst b. now rewrite str_eqb_refl in E.
Qed.

Lemma set_and_In (s1 s2 : list str) (w : str) :
  In w (set_and s1 s2) <-> In w s1 /\ In w s2.
Proof. unfold set_and. rewrite filter_In, mem_In. tauto. Qed.

Lemma set_and_length_sym (s1 s2 : list str) :
  List.NoDup s1 -> List.NoDup s2 ->
  List.length (set_and s1 s2) = List.length (set_and s2 s1).
Proof.
  intros N1 N2. apply Permutation_length, NoDup_Permutation.
  - now apply List.NoDup_filter.
  - now apply List.NoDup_filter.
  - intros w. rewrite !set_and_In. tauto.
Qed.

Lemma filter_split_length {A} (p : A -> bool) (l : list A) :
  List.length (filter p l) + List.length (filter (fun x => negb (p x)) l)
  = List.length l.
Proof.
  induction l as [|x t IH]; [reflexivity|]. simpl.
  destruct (p x); simpl; lia.
Qed.

Lemma set_or_length (s1 s2 : list str) :
  List.length (set_or s1 s2) + List.length (set_and s2 s1)
  = List.length s1 + List.length s2.
Proof.
  unfold set_or, set_and. rewrite length_app.
  pose proof (filter_split_length (fun w => mem w s1) s2). lia.
Qed.

Lemma set_or_length_sym (s1 s2 : list str) :
  List.NoDup s1 -> List.NoDup s2 ->
  List.length (set_or s1 s2) = List.length (set_or s2 s1).
Proof.
  intros N1 N2.
  pose proof (set_or_length s1 s2). pose proof (set_or_length s2 s1).
  pose proof (set_and_length_sym N1 N2). lia.
Qed.

(** X12: the similarity is symmetric as soon as the two normal forms share
    two words, but not in general: when they share fewer the sequence
    ratio decides, and the order of its arguments counts, so one name can
    match another that does not match it. *)
Theorem calculate_similarity_symmetry :
  (forall name1 name2,
      2 <= List.length (set_and (to_set (split (normalize_name name1)))
                                (to_set (split (normalize_name name2)))) ->
      calculate_similarity name1 name2 = calculate_similarity name2 name1)
  /\ (exists name1 name2,
         is_name_match name1 name2 default_threshold = true
         /\ is_name_match name2 name1 default_threshold = false).
Proof.
  split.
  - intros name1 name2 H. unfold calculate_similarity.
    rewrite (orb_comm (negb (nonempty name2))).
    destruct (negb (nonempty name1) || negb (nonempty name2)); [reflexivity|].
    cbv zeta.
    set (n1 := normalize_name name1) in *. set (n2 := normalize_name name2) in *.
    rewrite (str_eqb_sym n2 n1). destruct (str_eqb n1 n2); [reflexivity|].
    pose proof (to_set_NoDup (split n1)) as N1.
    pose proof (to_set_NoDup (split n2)) as N2.
    set (w1 := to_set (split n1)) in *. set (w2 := to_set (split n2)) in *.
    rewrite <- (set_and_length_sym N1 N2), <- (set_or_length_sym N1 N2).
    assert (E1 : nonempty w1 = true).
    { destruct w1; [simpl in H; lia | reflexivity]. }
    assert (E2 : nonempty w2 = true).
    { destruct w2; [|reflexivity].
      replace (set_and w1 []) with (@nil str) in H; [simpl in H; lia|].
      clear. induction w1 as [|x t IH]; [reflexivity | exact IH]. }
    rewrite E1, E2. cbn [andb].
    destruct (2 <=? List.length (set_and w1 w2)) eqn:L; [reflexivity|].
    apply Nat.leb_gt in L. lia.
  - exists (lit "Anna Brennan"), (lit "Anna Brannon").
    split; vm_compute; reflexivity.
Qed.

Lemma calculate_similarity_symmetry_witness :
  calculate_similarity (lit "Gale Klappa") (lit "Gale E. Klappa Jr")
  = calculate_similarity (lit "Gale E. Klappa Jr") (lit "Gale Klappa").
Proof.
  apply (proj1 calculate_similarity_symmetry). vm_compute. lia.
Defined.

Lemma starts_with_app (sub post : str) :
  Form4.starts_with sub (sub ++ post) = true.
Proof.
  induction sub as [|c t IH]; [reflexivity|]. simpl.
  now rewrite Ascii.eqb_refl, IH.
Qed.

Lemma contains_app (sub pre post : str) :
  Form4.contains sub (pre ++ sub ++ post) = true.
Proof.
  assert (U : forall s, Form4.starts_with sub s = true ->
                        Form4.contains sub s = true).
  { intros s Hs. destruct s; simpl; now rewrite Hs. }
  induction pre as [|c t IH].
  - apply U. exact (starts_with_app sub post).
  - change (Form4.contains sub (c :: t ++ sub ++ post) = true).
    cbn [Form4.contains]. rewrite IH. apply orb_true_r.
Qed.

Lemma contains_nil (s : str) : Form4.contains [] s = true.
Proof. destruct s; reflexivity. Qed.

(** X13: a name that normalizes to the empty string (only initials,
    titles or punctuation) is found by [smart_name_search] in every
    content. *)
Theorem smart_name_search_blank (search_name : str) :
  normalize_name search_name = [] ->
  forall content, smart_name_search search_name content = true.
Proof.
  intros H content. unfold smart_name_search. rewrite H. apply contains_nil.
Qed.

Lemma smart_name_search_blank_witness :
  smart_name_search (lit "J. R.") (lit "Annual report of WEC Energy") = true.
Proof.
  apply smart_name_search_blank. vm_compute. reflexivity.
Defined.

(** X14: a person whose normal form has two words or more is found in any
    content that has, in whatever case, the last word, a comma, a space
    and the first word. *)
Theorem enhance_name_matching_finds_comma_form
    (person_name xml_content first_name last_name : str)
    (middle : list str) (before after : str) :
  split (normalize_name person_name) = first_name :: middle ++ [last_name] ->
  lower xml_content
  = before ++ lower (last_name ++ lit ", " ++ first_name) ++ after ->
  enhance_name_matching_in_search person_name xml_content = true.
Proof.
  intros Hw Hc. unfold enhance_name_matching_in_search.
  destruct (smart_name_search person_name xml_content); [reflexivity|].
  rewrite Hw.
  assert (L : last (first_name :: middle ++ [last_name]) [] = last_name).
  { rewrite app_comm_cons. apply last_last. }
  destruct (middle ++ [last_name]) as [|m r] eqn:E.
  { destruct middle; discriminate. }
  rewrite L. cbn [existsb]. rewrite Hc, contains_app.
  now rewrite orb_true_r.
Qed.

Lemma enhance_name_matching_finds_comma_form_witness :
  enhance_name_matching_in_search (lit "Gale E. Klappa")
    (lit "<rptOwnerName>KLAPPA, GALE E</rptOwnerName>") = true.
Proof.
  apply (@enhance_name_matching_finds_comma_form
           (lit "Gale E. Klappa")
           (lit "<rptOwnerName>KLAPPA, GALE E</rptOwnerName>")
           (lit "gale") (lit "klappa") []
           (lit "<rptownername>") (lit " e</rptownername>"));
    vm_compute; reflexivity.
Defined.

Lemma unique_spec (variations seen : list str) :
  List.NoDup (unique seen variations)
  /\ Forall (fun v => ~ In v seen /\ v <> [] /\ strip v = v)
            (unique seen variations)
  /\ List.length (unique seen variations) <= List.length variations.
Proof.
  revert seen. induction variations as [|v rest IH]; intros seen.
  - simpl. repeat split; [constructor | constructor | lia].
  - cbn [unique]. cbv zeta.
    destruct (nonempty (strip v) && negb (mem (strip v) seen)) eqn:E.
    + apply andb_true_iff in E as [E1 E2].
      destruct (IH (strip v :: seen)) as [N [F L]].
      split; [|split].
      * constructor; [|exact N]. intros Hin.
        rewrite Forall_forall in F. destruct (F _ Hin) as [Hn _].
        apply Hn. now left.
      * constructor.
        -- split; [|split].
           ++ intros Hin. apply mem_In in Hin. rewrite Hin in E2. discriminate.
           ++ intros Hnil. rewrite Hnil in E1. discriminate.
           ++ apply strip_idem.
        -- eapply Forall_impl; [|exact F]. intros w [Hn Hr].
           split; [|exact Hr]. intros Hin. apply Hn. now right.
      * simpl. lia.
    + destruct (IH seen) as [N [F L]]. split; [exact N|].
      split; [exact F|]. simpl. lia.
Qed.

(** X15: the variations of a name are never an empty list; when the name
    has a normal form they start with the stripped name, hold no
    duplicate, no empty string and no string with outer whitespace, and
    are twelve at most. *)
Theorem generate_name_variations_distinct (person_name : str) :
  let variations := generate_name_variations person_name in
  variations <> []
  /\ (normalize_name person_name = [] -> variations = [person_name])
  /\ (normalize_name person_name <> [] ->
      hd [] variations = strip person_name
      /\ List.NoDup variations
      /\ Forall (fun v => v <> [] /\ strip v = v) variations
      /\ List.length variations <= 12).
Proof.
  cbv zeta. unfold generate_name_variations.
  destruct (normalize_name_words person_name) as [ws [E H]].
  rewrite E, (split_join (words_shaped H)).
  destruct ws as [|first_name ws'].
  - split; [discriminate|]. split; [reflexivity|]. intros C. now elim C.
  - match goal with
    | |- context [unique [] (_ ++ ?x ++ ?y)] => set (two := x); set (three := y)
    end.
    assert (NE : join (lit " ") (first_name :: ws') <> []).
    { destruct (join_head first_name ws') as [s Hs]. rewrite Hs.
      inversion H as [|? ? Hw _].
      destruct first_name; [discriminate Hw | discriminate]. }
    assert (S : nonempty (strip person_name) = true).
    { unfold normalize_name in E.
      destruct (nonempty person_name) eqn:E1; [|now symmetry in E].
      cbn [negb orb] in E.
      destruct (nonempty (strip person_name));
        [reflexivity | now symmetry in E]. }
    assert (Hd : unique []
                   ([person_name; join (lit " ") (first_name :: ws')]
                    ++ two ++ three)
                 = strip person_name
                   :: unique [strip person_name]
                        (join (lit " ") (first_name :: ws') :: two ++ three)).
    { cbn [app unique mem existsb negb andb]. cbv zeta. now rewrite S. }
    assert (Len : List.length
                    ([person_name; join (lit " ") (first_name :: ws')]
                     ++ two ++ three) <= 12).
    { rewrite !length_app. cbn [List.length].
      assert (List.length two <= 6) by (subst two; destruct (2 <=? _); simpl; lia).
      assert (List.length three <= 4).
      { subst three. destruct ws' as [|? [|? [|? ?]]]; simpl; lia. }
      lia. }
    split; [rewrite Hd; discriminate|].
    split.
    + intros C. now elim NE.
    + intros _. split; [now rewrite Hd|].
      destruct (unique_spec
                  ([person_name; join (lit " ") (first_name :: ws')]
                   ++ two ++ three) []) as [N [F L]].
      split; [exact N|]. split; [|lia].
      eapply Forall_impl; [|exact F]. intros v [_ Hv]. exact Hv.
Qed.

Lemma generate_name_variations_distinct_witness :
  hd [] (generate_name_variations (lit " Gale E. Klappa "))
  = lit "Gale E. Klappa"
  /\ List.NoDup (generate_name_variations (lit " Gale E. Klappa ")).
Proof.
  destruct (generate_name_variations_distinct (lit " Gale E. Klappa "))
    as [_ [_ H]].
  destruct H as [Hh [Hn _]]; [vm_compute; discriminate|].
  split; [exact Hh | exact Hn].
Defined.

End NameSymmetry.

(** ** More on the Form 4 parser *)

Section Form4Text.
Import Py Utils Form4.

Lemma run_until_In (stop x : ascii) (s : str) :
  In x (snd (run_until stop s)) -> In x s.
Proof.
  induction s as [|c t IH]; [simpl; tauto|]. cbn [run_until].
  destruct (Ascii.eqb c stop); [simpl; tauto|].
  destruct (run_until stop t) as [n r]. simpl in *. tauto.
Qed.

Lemma skipn_In {A} (n : nat) (x : A) (l : list A) :
  In x (skipn n l) -> In x l.
Proof.
  revert l. induction n as [|n IH]; intros [|c t]; simpl; auto.
Qed.

Lemma match_xmlns_needs_quote (s : str) :
  ~ In dquote s -> match_xmlns s = None.
Proof.
  intros H. unfold match_xmlns.
  destruct (starts_with (lit "xmlns") s); [|reflexivity].
  destruct (run_until "=" (skipn 5 s)) as [n1 r1] eqn:E1.
  destruct r1 as [|e [|q r2]]; try reflexivity.
  destruct (Ascii.eqb q dquote) eqn:Eq; [|reflexivity].
  apply Ascii.eqb_eq in Eq. subst q. exfalso. apply H.
  apply (@skipn_In _ 5), (@run_until_In "="%char).
  rewrite E1. simpl. tauto.
Qed.

Lemma remove_xmlns_needs_quote (s : str) :
  ~ In dquote s -> remove_xmlns 0 s = s.
Proof.
  induction s as [|c t IH]; [reflexivity|]. intros H.
  cbn [remove_xmlns]. rewrite match_xmlns_needs_quote by exact H.
  rewrite IH; [reflexivity|]. intros Hin. apply H. now right.
Qed.

Lemma match_xmlns_colon_needs_quote (s : str) :
  ~ In dquote s -> match_xmlns_colon s = None.
Proof.
  intros H. unfold match_xmlns_colon.
  destruct (starts_with (lit "xmlns:") s); [|reflexivity].
  destruct (run_until "=" (skipn 6 s)) as [n1 r1] eqn:E1.
  destruct r1 as [|e [|q r2]]; try reflexivity.
  destruct (Ascii.eqb q dquote) eqn:Eq; [|reflexivity].
  apply Ascii.eqb_eq in Eq. subst q. exfalso. apply H.
  apply (@skipn_In _ 6), (@run_until_In "="%char).
  rewrite E1. simpl. tauto.
Qed.

Lemma remove_xmlns_colon_needs_quote (s : str) :
  ~ In dquote s -> remove_xmlns_colon 0 s = s.
Proof.
  induction s as [|c t IH]; [reflexivity|]. intros H.
  cbn [remove_xmlns_colon]. rewrite match_xmlns_colon_needs_quote by exact H.
  rewrite IH; [reflexivity|]. intros Hin. apply H. now right.
Qed.

Lemma remove_xmlns_sublist (skip : nat) (s : str) :
  sublist (remove_xmlns skip s) s.
Proof.
  revert skip. induction s as [|c t IH]; intros skip; [constructor|].
  cbn [remove_xmlns]. destruct skip as [|skip'].
  - destruct (match_xmlns (c :: t)) as [[|len]|].
    + apply sublist_skip, IH.
    + apply sublist_cons, IH.
    + apply sublist_skip, IH.
  - apply sublist_cons, IH.
Qed.

Lemma remove_xmlns_colon_sublist (skip : nat) (s : str) :
  sublist (remove_xmlns_colon skip s) s.
Proof.
  revert skip. induction s as [|c t IH]; intros skip; [constructor|].
  cbn [remove_xmlns_colon]. destruct skip as [|skip'].
  - destruct (match_xmlns_colon (c :: t)) as [[|len]|].
    + apply sublist_skip, IH.
    + apply sublist_cons, IH.
    + apply sublist_skip, IH.
  - apply sublist_cons, IH.
Qed.

(** X16: the removal of the namespace declarations only deletes
    characters: what is parsed is a subsequence of the document, and a
    document without a double quote (its attribute values in single
    quotes, say) is parsed as it is. *)
Theorem strip_namespaces_only_deletes (xml_content : str) :
  sublist (strip_namespaces xml_content) xml_content
  /\ (~ In dquote xml_content -> strip_namespaces xml_content = xml_content).
Proof.
  unfold strip_namespaces. split.
  - destruct (contains (lit "xmlns") xml_content); [|reflexivity].
    etransitivity; [apply remove_xmlns_colon_sublist|].
    apply remove_xmlns_sublist.
  - intros H. destruct (contains (lit "xmlns") xml_content); [|reflexivity].
    rewrite remove_xmlns_needs_quote by exact H.
    apply remove_xmlns_colon_needs_quote. exact H.
Qed.

Lemma strip_namespaces_only_deletes_witness :
  strip_namespaces (lit "<ownershipDocument xmlns='http://www.sec.gov'/>")
  = lit "<ownershipDocument xmlns='http://www.sec.gov'/>".
Proof.
  apply (proj2 (strip_namespaces_only_deletes
                  (lit "<ownershipDocument xmlns='http://www.sec.gov'/>"))).
  vm_compute. intuition discriminate.
Defined.

(** X17: [_get_text] gives the default, or a text without whitespace at
    its ends. *)
Theorem _get_text_stripped (element : option ET.Element) (p : ET.path)
    (default : option str) :
  _get_text element p default = default
  \/ exists t, _get_text element p default = Some t /\ strip t = t.
Proof.
  unfold _get_text. destruct element as [el|]; [|now left].
  destruct (found_text (ET.find p el)) as [t|].
  { right. exists (strip t). split; [reflexivity | apply strip_idem]. }
  destruct (negb (ET.anywhere p)); [|now left].
  destruct (found_text (ET.find (ET.deep p) el)) as [t|]; [|now left].
  right. exists (strip t). split; [reflexivity | apply strip_idem].
Qed.

End Form4Text.

Section Form4More.
Import Py Utils Form4 Form4Shape Form4Examples LibExamples.

Variable strptime_date : str -> str -> option date.
Variable py_float : str -> option Q.

Lemma collect_Forall {A} (P : InsiderTransaction -> Prop)
    (parse : A -> option InsiderTransaction) (elems : list A) :
  (forall e r, parse e = Some r -> P r) -> Forall P (collect parse elems).
Proof.
  intros H. unfold collect. induction elems as [|e es IH]; [constructor|].
  simpl. destruct (parse e) as [r|] eqn:E; [|exact IH].
  constructor; [eapply H; exact E | exact IH].
Qed.

Lemma non_derivative_of_filing elem info acc r :
  _parse_non_derivative_transaction strptime_date py_float elem info acc
  = Some r -> of_filing info acc r.
Proof.
  unfold _parse_non_derivative_transaction.
  destruct (_get_text (Some elem) (ET.any_value "securityTitle") None)
    as [title|]; [|discriminate].
  destruct (negb (nonempty title)); [discriminate|].
  destruct (ET.find (ET.any "transactionAmounts") elem) as [amounts|];
    [|discriminate].
  destruct (clean_number py_float _) as [q|]; [|discriminate].
  intros [= <-]. repeat split.
Qed.

Lemma holding_fields elem info acc r :
  _parse_non_derivative_holding py_float elem info acc = Some r ->
  of_filing info acc r
  /\ shares r = 0%Q /\ price_per_share r = None /\ total_value r = None
  /\ transaction_type r = OTHER
  /\ transaction_date r = fi_period_of_report info
  /\ exists owned, shares_owned_after r = Some owned.
Proof.
  unfold _parse_non_derivative_holding.
  destruct (_get_text (Some elem) (ET.any_value "securityTitle") None)
    as [title|]; [|discriminate].
  destruct (negb (nonempty title)); [discriminate|].
  destruct (ET.find (ET.any "postTransactionAmounts") elem) as [post|];
    [|discriminate].
  destruct (clean_number py_float _) as [q|]; [|discriminate].
  intros [= <-]. repeat split. now exists q.
Qed.

Lemma derivative_of_filing elem info acc r :
  _parse_derivative_transaction strptime_date py_float elem info acc
  = Some r -> of_filing info acc r.
Proof.
  unfold _parse_derivative_transaction.
  destruct (_get_text (Some elem) (ET.any_value "securityTitle") None)
    as [title|]; [|discriminate].
  destruct (negb (nonempty title)); [discriminate|].
  destruct (ET.find (ET.any "transactionAmounts") elem) as [amounts|];
    [|discriminate].
  destruct (clean_number py_float
              (_get_text (Some amounts) (ET.any_value "transactionShares")
                 None)) as [q|]; [|discriminate].
  intros [= <-]. repeat split.
Qed.


Variable et_fromstring : str -> option ET.Element.
Variable beautiful_soup : str -> Res Soup.Node.
Variable now : Z.

Lemma extract_filing_info_names root info :
  _extract_filing_info strptime_date now root = Some info ->
  fi_company_name info <> [] /\ fi_insider_name info <> []
  /\ fi_filing_date info = now.
Proof.
  unfold _extract_filing_info. cbv zeta.
  match goal with
  | |- (if truthy_str ?c && truthy_str ?i then _ else _) = _ -> _ =>
      destruct c as [cn|]; [|discriminate];
      destruct i as [inn|]; [|rewrite andb_false_r; discriminate]
  end.
  destruct (truthy_str (Some cn) && truthy_str (Some inn)) eqn:E;
    [|discriminate].
  apply andb_true_iff in E as [E1 E2]. simpl in E1, E2.
  intros [= <-]. cbn. repeat split.
  - intros ->. discriminate.
  - intros ->. discriminate.
Qed.

Lemma soup_filing_info_names soup info :
  soup_filing_info now soup = Some info ->
  fi_company_name info <> [] /\ fi_insider_name info <> []
  /\ fi_filing_date info = now.
Proof.
  unfold soup_filing_info.
  destruct (option_map Soup.get_text (Soup.find (lit "issuerName") soup))
    as [c|]; [|discriminate].
  destruct (option_map Soup.get_text (Soup.find (lit "rptOwnerName") soup))
    as [i|]; [|discriminate].
  destruct (negb (nonempty c) || negb (nonempty i)) eqn:E; [discriminate|].
  apply orb_false_iff in E as [E1 E2].
  intros [= <-]. cbn. repeat split.
  - intros ->. discriminate.
  - intros ->. discriminate.
Qed.

Lemma soup_transactions_of_filing info acc tags :
  Forall (of_filing info acc)
    (soup_transactions strptime_date py_float info acc tags).
Proof.
  induction tags as [|t ts IH]; [constructor|]. cbn [soup_transactions].
  destruct (soup_transaction strptime_date py_float info acc t) as [r|e] eqn:E;
    [|exact IH].
  constructor; [|exact IH]. revert E. unfold soup_transaction.
  repeat match goal with
         | |- bind ?x _ = _ -> _ => destruct x; cbn [bind]; [|discriminate]
         end.
  intros [= <-]. repeat split.
Qed.

(** X19: all the records read from one document carry the accession
    number given and the time of the parse, and one and the same pair of
    company and insider names, neither of them empty. *)
Theorem parse_form4_xml_one_filing (xml_content accession_number : str)
    (transactions : list InsiderTransaction) :
  parse_form4_xml strptime_date py_float et_fromstring beautiful_soup now
    xml_content accession_number = Ok transactions ->
  Forall (fun t => Form4.accession_number t = accession_number
                   /\ filing_date t = now
                   /\ company_name t <> [] /\ insider_name t <> [])
         transactions
  /\ forall t u, In t transactions -> In u transactions ->
       company_name t = company_name u /\ insider_name t = insider_name u.
Proof.
  intros H.
  assert (G : transactions = []
              \/ exists info,
                   (fi_company_name info <> [] /\ fi_insider_name info <> []
                    /\ fi_filing_date info = now)
                   /\ Forall (of_filing info accession_number) transactions).
  { revert H. unfold parse_form4_xml.
    destruct (et_fromstring (strip_namespaces xml_content)) as [root|].
    - destruct (_extract_filing_info strptime_date now root) as [info|] eqn:E;
        intros [= <-]; [|now left].
      right. exists info. split; [eapply extract_filing_info_names; exact E|].
      apply Forall_app. split.
      + unfold _extract_non_derivative_transactions.
        destruct (first_of _ _) as [table|]; [|constructor].
        match goal with
        | |- context [collect ?f ?l] =>
            destruct (collect f l) as [|r rs] eqn:Ec
        end.
        * apply collect_Forall. intros e r Hr.
          now apply holding_fields in Hr.
        * rewrite <- Ec. apply collect_Forall. intros e x Hx.
          eapply non_derivative_of_filing; exact Hx.
      + unfold _extract_derivative_transactions.
        destruct (ET.find (ET.any "derivativeTable") root); [|constructor].
        apply collect_Forall. intros elem x Hx.
        eapply derivative_of_filing; exact Hx.
    - unfold _parse_with_beautifulsoup.
      destruct (beautiful_soup xml_content) as [soup|e]; cbn [bind try_except];
        [|intros [= <-]; now left].
      destruct (soup_filing_info now soup) as [info|] eqn:E;
        intros [= <-]; [|now left].
      right. exists info. split; [eapply soup_filing_info_names; exact E|].
      apply soup_transactions_of_filing. }
  destruct G as [->|[info [[N1 [N2 N3]] F]]].
  { split; [constructor | intros t u []]. }
  split.
  - eapply Forall_impl; [|exact F]. intros t [H1 [H2 [H3 H4]]].
    rewrite H1, H2, H4. auto.
  - rewrite Forall_forall in F. intros t u Ht Hu.
    destruct (F t Ht) as [H1 [H2 _]]. destruct (F u Hu) as [H3 [H4 _]].
    split; congruence.
Qed.

End Form4More.

Section Form4MoreExamples.
Import Py Utils Form4 Form4Examples LibExamples.

Lemma parse_form4_xml_one_filing_witness :
  Forall (fun t => accession_number t = lit "0001209015-26-000012"
                   /\ filing_date t = 0%Z
                   /\ company_name t <> [] /\ insider_name t <> [])
         [sale_record]
  /\ forall t u, In t [sale_record] -> In u [sale_record] ->
       company_name t = company_name u /\ insider_name t = insider_name u.
Proof.
  apply (@parse_form4_xml_one_filing example_strptime example_float
           reads_sale soup_unavailable 0%Z (lit "<ownershipDocument/>")
           (lit "0001209015-26-000012") [sale_record]).
  vm_compute. reflexivity.
Defined.

End Form4MoreExamples.

(** ** More on the position status and on the search result *)

Section StatusMore.
Import Py Utils Status LibExamples.

Variable strptime_date : str -> str -> option date.

Lemma max_loop_unreadable (rest : list pyval) (largest : option date) :
  largest = None
  \/ (exists v, In v rest
                /\ forall d, parse_date_val strptime_date v <> Ok (Some d)) ->
  max_loop strptime_date largest rest = Ok None
  \/ exists e, max_loop strptime_date largest rest = Raise e.
Proof.
  revert largest. induction rest as [|v rest' IH]; intros largest H.
  - destruct H as [->|[v [[] _]]]. now left.
  - cbn [max_loop].
    destruct (parse_date_val strptime_date v) as [[d|]|e] eqn:E; cbn [bind].
    + destruct largest as [m|]; [|right; eauto].
      apply IH. right. destruct H as [H|[v' [[<-|Hin] Hbad]]];
        [discriminate | now elim (Hbad d) | eauto].
    + right. eauto.
    + right. eauto.
Qed.

Lemma max_date_unreadable (vals : list pyval) (v : pyval) :
  In v vals ->
  (forall d, parse_date_val strptime_date v <> Ok (Some d)) ->
  max_date strptime_date vals = Ok None
  \/ exists e, max_date strptime_date vals = Raise e.
Proof.
  intros Hin Hbad. destruct vals as [|v0 rest]; [destruct Hin|].
  cbn [max_date].
  destruct (parse_date_val strptime_date v0) as [first|e] eqn:E; cbn [bind];
    [|right; eauto].
  apply max_loop_unreadable. destruct Hin as [<-|Hin].
  - left. destruct first as [d|]; [now elim (Hbad d) | reflexivity].
  - right. eauto.
Qed.

(** X20: the status is always one of current, former and unknown, and it
    is unknown as soon as one transaction has a date that cannot be
    read, however recent the other transactions are. *)
Theorem determine_position_status_unreadable_date
    (transactions : list dict) (current_date : date) :
  let status :=
    determine_position_status strptime_date transactions current_date in
  (status = lit "current" \/ status = lit "former"
   \/ status = lit "unknown")
  /\ forall t,
       In t transactions ->
       truthy (dict_get t (lit "transaction_date") PNone) = true ->
       (forall d, parse_date_val strptime_date
                    (dict_get t (lit "transaction_date") (PStr []))
                  <> Ok (Some d)) ->
       status = lit "unknown".
Proof.
  cbv zeta. unfold determine_position_status. split.
  - destruct (negb (nonempty transactions)); [auto|].
    destruct (max_date strptime_date (transaction_dates transactions))
      as [latest|e]; cbn [bind try_except]; [|auto].
    destruct (days_since current_date latest) as [n|e];
      cbn [bind try_except]; [|auto].
    destruct (n <=? 365)%Z; [auto|]. destruct (730 <=? n)%Z; auto.
  - intros t Hin Ht Hbad.
    destruct transactions as [|t0 ts]; [destruct Hin|].
    cbn [nonempty negb].
    assert (Hv : In (dict_get t (lit "transaction_date") (PStr []))
                    (transaction_dates (t0 :: ts))).
    { unfold transaction_dates.
      apply (in_map (fun t => dict_get t (lit "transaction_date") (PStr []))).
      apply filter_In. split; [exact Hin | exact Ht]. }
    destruct (max_date_unreadable _ _ Hv Hbad) as [E|[e E]]; rewrite E;
      reflexivity.
Qed.

End StatusMore.

Section StatusMoreExamples.
Import Py Utils Status LibExamples.

Lemma determine_position_status_unreadable_date_witness :
  determine_position_status example_strptime
    [dated "2026-10-05"; dated "October 2026"] 739924%Z = lit "unknown".
Proof.
  apply (proj2 (@determine_position_status_unreadable_date example_strptime
                  [dated "2026-10-05"; dated "October 2026"] 739924%Z)
           (dated "October 2026")).
  - right. left. reflexivity.
  - reflexivity.
  - intros d. vm_compute. discriminate.
Defined.

End StatusMoreExamples.

Section SearchMore.
Import Py Utils Status Search SearchShape.

Lemma insert_desc_perm (c : CompanyInsiderSummary)
    (l : list CompanyInsiderSummary) :
  Permutation (insert_desc c l) (c :: l).
Proof.
  induction l as [|y t IH]; [reflexivity|]. cbn [insert_desc].
  destruct (sort_key c <? sort_key y)%Z; [|reflexivity].
  rewrite IH. apply perm_swap.
Qed.

Lemma sort_desc_perm (l : list CompanyInsiderSummary) :
  Permutation (sort_desc l) l.
Proof.
  induction l as [|c t IH]; [reflexivity|].
  unfold sort_desc in *. cbn [fold_right].
  rewrite insert_desc_perm. now constructor.
Qed.

Lemma insert_desc_sorted (c : CompanyInsiderSummary)
    (l : list CompanyInsiderSummary) :
  StronglySorted not_older l -> StronglySorted not_older (insert_desc c l).
Proof.
  induction l as [|y t IH]; intros H.
  - repeat constructor.
  - cbn [insert_desc]. apply StronglySorted_inv in H as [Ht Hy].
    destruct (sort_key c <? sort_key y)%Z eqn:E.
    + apply Z.ltb_lt in E. constructor; [now apply IH|].
      eapply Permutation_Forall; [symmetry; apply insert_desc_perm|].
      constructor; [unfold not_older; lia | exact Hy].
    + apply Z.ltb_ge in E. constructor; [now constructor|].
      constructor; [exact E|].
      eapply List.Forall_impl; [|exact Hy].
      unfold not_older. intros z Hz. lia.
Qed.

Lemma insert_desc_stable (k : Z) (c : CompanyInsiderSummary)
    (l : list CompanyInsiderSummary) :
  filter (fun x => (sort_key x =? k)%Z) (insert_desc c l)
  = filter (fun x => (sort_key x =? k)%Z) (c :: l).
Proof.
  induction l as [|y t IH]; [reflexivity|]. cbn [insert_desc].
  destruct (sort_key c <? sort_key y)%Z eqn:E; [|reflexivity].
  apply Z.ltb_lt in E. cbn [filter] in *. rewrite IH.
  destruct (sort_key c =? k)%Z eqn:Ec; [|reflexivity].
  destruct (sort_key y =? k)%Z eqn:Ey; [|reflexivity].
  apply Z.eqb_eq in Ec, Ey. lia.
Qed.

Lemma sort_desc_sorted (l : list CompanyInsiderSummary) :
  StronglySorted not_older (sort_desc l).
Proof.
  induction l as [|c t IH]; [constructor|].
  apply insert_desc_sorted, IH.
Qed.

(** X21: the companies are put in a stable order, latest activity first:
    the sort keeps every company, no company comes before one with a
    later last transaction (a company without one counts as the earliest
    date), and companies with the same date stay in the order in which
    they were found. *)
Theorem sort_desc_stable (l : list CompanyInsiderSummary) :
  Permutation (sort_desc l) l
  /\ StronglySorted not_older (sort_desc l)
  /\ forall k, filter (fun c => (sort_key c =? k)%Z) (sort_desc l)
               = filter (fun c => (sort_key c =? k)%Z) l.
Proof.
  split; [apply sort_desc_perm|]. split; [apply sort_desc_sorted|].
  intros k. induction l as [|c t IH]; [reflexivity|].
  change (sort_desc (c :: t)) with (insert_desc c (sort_desc t)).
  rewrite insert_desc_stable. cbn [filter]. now rewrite IH.
Qed.



Variable strptime_date : str -> str -> option date.
Variable today : date.
Variable get_companies_for_person : str -> Res (list company_hit).
Variable get_insider_transactions :
  str -> str -> date -> date -> Res transactions_result.
Variable get_all_public_companies : list dict.
Variable as_completed :
  list (Res (option CompanyInsiderSummary)) ->
  list (Res (option CompanyInsiderSummary)).


Lemma summarize_kept ticker_text company_name cik end_date result :
  ticker (summarize strptime_date ticker_text company_name cik end_date result)
  = ticker_text
  /\ transaction_count
       (summarize strptime_date ticker_text company_name cik end_date result)
     = tr_transaction_count result.
Proof. split; reflexivity. Qed.



Hypothesis as_completed_all :
  forall futures, Permutation (as_completed futures) futures.



End SearchMore.

Section SearchMoreWitness.
Import Py Utils Status Search SearchShape SearchExamples SearchMoreExamples
       LibExamples.


End SearchMoreWitness.

(** ** The full-text search *)

Section SortReverse.
Import Py FullText FullTextShape.

Variable A : Type.
Variable key : A -> option str.

Lemma str_geb_trans (x y z : str) :
  str_ltb x y = false -> str_ltb y z = false -> str_ltb x z = false.
Proof.
  intros H1 H2. destruct (str_ltb x z) eqn:E; [|reflexivity].
  destruct (list_eq_dec ascii_dec y x) as [->|N]; [congruence|].
  destruct (str_ltb_total N) as [H|H]; [|congruence].
  rewrite (str_ltb_trans _ _ _ H E) in H2. discriminate.
Qed.

Lemma insert_reverse_perm (x : A) (l : list A) :
  Permutation (insert_reverse key x l) (x :: l).
Proof.
  induction l as [|y t IH]; [reflexivity|]. cbn [insert_reverse].
  destruct (str_ltb _ _); [|reflexivity]. rewrite IH. apply perm_swap.
Qed.

Lemma fold_insert_reverse_perm (l : list A) :
  Permutation (fold_right (insert_reverse key) [] l) l.
Proof.
  induction l as [|x t IH]; [reflexivity|]. cbn [fold_right].
  rewrite insert_reverse_perm. now constructor.
Qed.

Lemma insert_reverse_sorted (x : A) (l : list A) :
  StronglySorted (not_before key) l ->
  StronglySorted (not_before key) (insert_reverse key x l).
Proof.
  induction l as [|y t IH]; intros H.
  - repeat constructor.
  - cbn [insert_reverse]. apply StronglySorted_inv in H as [Ht Hy].
    destruct (str_ltb (text_of (key x)) (text_of (key y))) eqn:E.
    + constructor; [now apply IH|].
      eapply Permutation_Forall; [symmetry; apply insert_reverse_perm|].
      constructor; [|exact Hy]. unfold not_before.
      now apply str_ltb_asym.
    + constructor; [now constructor|].
      constructor; [exact E|].
      eapply List.Forall_impl; [|exact Hy].
      unfold not_before. intros z Hz. eapply str_geb_trans; eassumption.
Qed.

Lemma sort_reverse_spec (l sorted : list A) :
  sort_reverse key l = Ok sorted ->
  Permutation sorted l /\ StronglySorted (not_before key) sorted.
Proof.
  unfold sort_reverse. destruct l as [|x [|y t]].
  - intros [= <-]. split; [reflexivity | constructor].
  - intros [= <-]. split; [reflexivity | repeat constructor].
  - destruct (forallb _ _); [|discriminate]. intros [= <-].
    split; [exact (fold_insert_reverse_perm (x :: y :: t))|].
    change (StronglySorted (not_before key)
              (fold_right (insert_reverse key) [] (x :: y :: t))).
    generalize (x :: y :: t). intros l.
    induction l as [|c r IH]; [constructor|].
    apply insert_reverse_sorted, IH.
Qed.

End SortReverse.

Section FullTextFacts.
Import Py Utils Search Variations FullText FullTextShape.

Variable today : date.
Variable _perform_search : str -> date -> date -> Z -> Res (list filing).

Lemma NoDup_snoc {B} (l : list B) (x : B) :
  List.NoDup l -> ~ In x l -> List.NoDup (l ++ [x]).
Proof.
  intros N H. apply NoDup_app; [exact N | repeat constructor; simpl; tauto|].
  intros y Hy [<-|[]]. exact (H Hy).
Qed.

Lemma deduplicate_kept (P : filing -> Prop) (results : list filing)
    (seen : list str) (all_results : list filing) :
  Forall P results -> kept P seen all_results ->
  kept P (fst (deduplicate results seen all_results))
         (snd (deduplicate results seen all_results)).
Proof.
  revert seen all_results.
  induction results as [|r rest IH]; intros seen all_results HP K;
    [exact K|].
  apply Forall_cons_iff in HP as [Hr HP]. cbn [deduplicate].
  destruct (accession_number r) as [a|] eqn:Ea; [|now apply IH].
  destruct (nonempty a && negb (mem a seen)) eqn:E; [|now apply IH].
  apply andb_true_iff in E as [E1 E2]. apply negb_true_iff in E2.
  apply IH; [exact HP|]. destruct K as [N F]. split.
  - rewrite map_app. apply NoDup_snoc; [exact N|]. cbn [map]. rewrite Ea.
    intros Hin. apply in_map_iff in Hin as [f [Hf Hin]].
    rewrite Forall_forall in F. destruct (F f Hin) as [_ [a' [Ha' [_ Hs]]]].
    assert (a' = a) by congruence. subst a'.
    apply mem_In in Hs. congruence.
  - apply Forall_app. split.
    + eapply List.Forall_impl; [|exact F].
      intros f [Hf [a' [H1 [H2 H3]]]]. split; [exact Hf|].
      exists a'. repeat split; auto. now right.
    + constructor; [|constructor]. split; [exact Hr|].
      exists a. repeat split; [exact Ea | | now left].
      intros ->. discriminate.
Qed.

Lemma search_variants_kept (P : filing -> Prop) (variants : list str)
    (start_date end_date : date) (limit : Z) (seen : list str)
    (all_results : list filing) :
  (forall v results,
      In v variants ->
      _perform_search v start_date end_date limit = Ok results ->
      Forall P results) ->
  kept P seen all_results ->
  exists seen',
    kept P seen'
      (search_variants _perform_search variants start_date end_date limit
         seen all_results).
Proof.
  revert seen all_results.
  induction variants as [|v rest IH]; intros seen all_results HP K.
  - exists seen. exact K.
  - cbn [search_variants].
    destruct (_perform_search v start_date end_date limit) as [results|e]
      eqn:E.
    + pose proof (@deduplicate_kept P results seen all_results) as D.
      destruct (deduplicate results seen all_results) as [seen' all'].
      apply IH.
      * intros v' rs Hv. apply HP. now right.
      * apply D; [|exact K]. eapply HP; [now left | exact E].
    + apply IH; [|exact K]. intros v' rs Hv. apply HP. now right.
Qed.

Lemma firstn_NoDup {B} (n : nat) (l : list B) :
  List.NoDup l -> List.NoDup (firstn n l).
Proof.
  intros N. rewrite <- (firstn_skipn n l) in N.
  now apply NoDup_app_remove_r in N.
Qed.

Lemma firstn_Forall {B} (P : B -> Prop) (n : nat) (l : list B) :
  Forall P l -> Forall P (firstn n l).
Proof.
  intros F. rewrite <- (firstn_skipn n l) in F.
  now apply Forall_app in F as [F _].
Qed.

Lemma firstn_StronglySorted {B} (R : B -> B -> Prop) (n : nat)
    (l : list B) :
  StronglySorted R l -> StronglySorted R (firstn n l).
Proof.
  revert n. induction l as [|x t IH]; intros [|n] H; simpl;
    try constructor.
  - apply IH. now apply StronglySorted_inv in H.
  - apply firstn_Forall. now apply StronglySorted_inv in H.
Qed.

Lemma slice_to_firstn {B} (n : Z) (l : list B) :
  exists k, slice_to n l = firstn k l
            /\ ((0 <= n)%Z -> (Z.of_nat (List.length (slice_to n l)) <= n)%Z).
Proof.
  unfold slice_to. destruct (0 <=? n)%Z eqn:E.
  - exists (Z.to_nat n). split; [reflexivity|]. intros H.
    pose proof (firstn_le_length (Z.to_nat n) l).
    rewrite length_firstn. lia.
  - eexists. split; [reflexivity|]. apply Z.leb_gt in E. lia.
Qed.

(** X23: the filings found for a person have distinct accession numbers,
    none of them missing or empty, come most recent first, are [limit]
    at most, and each of them was given by the search of one of the
    first three variations of the name. *)
Theorem search_form4_by_person_distinct (person_name : str)
    (start_date end_date : option date) (limit : Z)
    (filings : list filing) :
  search_form4_by_person today _perform_search person_name
    start_date end_date limit = Ok filings ->
  List.NoDup (map accession_number filings)
  /\ Forall (fun f => exists a, accession_number f = Some a /\ a <> [])
            filings
  /\ StronglySorted (not_before filing_date) filings
  /\ ((0 <= limit)%Z -> (Z.of_nat (List.length filings) <= limit)%Z)
  /\ Forall (fun f =>
               exists name_variant start finish results,
                 In name_variant
                    (firstn 3 (generate_name_variations person_name))
                 /\ _perform_search name_variant start finish limit
                    = Ok results
                 /\ In f results) filings.
Proof.
  unfold search_form4_by_person.
  destruct (match start_date with
            | Some d => Ok d
            | None => date_sub today (5 * 365)
            end) as [start|e]; cbn [bind]; [|discriminate].
  set (finish := match end_date with Some d => d | None => today end).
  set (variants := firstn 3 (generate_name_variations person_name)).
  set (P := fun f : filing =>
              exists name_variant start finish results,
                In name_variant variants
                /\ _perform_search name_variant start finish limit
                   = Ok results
                /\ In f results).
  destruct (@search_variants_kept P variants start finish limit [] [])
    as [seen [N F]].
  { intros v results Hv E. apply Forall_forall. intros f Hf.
    exists v, start, finish, results. auto. }
  { split; constructor. }
  destruct (sort_reverse filing_date _) as [sorted|e] eqn:E; cbn [bind];
    [|discriminate].
  apply sort_reverse_spec in E as [Perm Sorted].
  intros [= <-].
  destruct (slice_to_firstn limit sorted) as [k [Ek Hlen]]. rewrite Ek in *.
  assert (N' : List.NoDup (map accession_number sorted)).
  { eapply Permutation_NoDup; [|exact N].
    apply Permutation_map. now symmetry. }
  assert (F' : Forall (fun f => P f /\ exists a, accession_number f = Some a
                                  /\ a <> [] /\ In a seen) sorted).
  { eapply Permutation_Forall; [symmetry; exact Perm | exact F]. }
  split; [rewrite <- firstn_map; now apply firstn_NoDup|].
  split.
  { apply firstn_Forall. eapply List.Forall_impl; [|exact F'].
    intros f [_ [a [H1 [H2 _]]]]. eauto. }
  split; [now apply firstn_StronglySorted|].
  split; [exact Hlen|].
  apply firstn_Forall. eapply List.Forall_impl; [|exact F'].
  intros f [Hf _]. exact Hf.
Qed.







End FullTextFacts.

Section FullTextWitnesses.
Import Py Utils Search Variations FullText FullTextShape FullTextExamples.

Lemma search_form4_by_person_distinct_witness :
  exists filings,
    search_form4_by_person 739924%Z search_same (lit "Gale Klappa")
      None None 200 = Ok filings
    /\ List.length filings = 3
    /\ List.NoDup (map accession_number filings).
Proof.
  eexists. split; [vm_compute; reflexivity|]. split; [reflexivity|].
  eapply (@search_form4_by_person_distinct 739924%Z search_same
            (lit "Gale Klappa") None None 200).
  vm_compute. reflexivity.
Defined.


End FullTextWitnesses.

(** ** The summary of the transactions *)

Section SummaryFacts.
Import Py Utils Form4 InsiderSummary.

Lemma min_loop_dated (rest : list (option date)) (m : date) :
  Forall (fun item => item <> None) rest ->
  exists m', min_loop (Some m) rest = Ok (Some m')
             /\ (m' <= m)%Z
             /\ Forall (fun item => exists d, item = Some d /\ (m' <= d)%Z)
                       rest.
Proof.
  revert m. induction rest as [|item rest' IH]; intros m F.
  - exists m. repeat split; [lia | constructor].
  - apply Forall_cons_iff in F as [Hi F].
    destruct item as [d|]; [|congruence]. cbn [min_loop].
    destruct (IH (if (d <? m)%Z then d else m) F) as [m' [E [L A]]].
    exists m'. split; [exact E|].
    destruct (d <? m)%Z eqn:C;
      [apply Z.ltb_lt in C | apply Z.ltb_ge in C];
      (split; [lia|]); (constructor; [exists d; split; [reflexivity|lia]
                                     | exact A]).
Qed.

Lemma max_loop_dated (rest : list (option date)) (m : date) :
  Forall (fun item => item <> None) rest ->
  exists m', max_loop (Some m) rest = Ok (Some m')
             /\ (m <= m')%Z
             /\ Forall (fun item => exists d, item = Some d /\ (d <= m')%Z)
                       rest.
Proof.
  revert m. induction rest as [|item rest' IH]; intros m F.
  - exists m. repeat split; [lia | constructor].
  - apply Forall_cons_iff in F as [Hi F].
    destruct item as [d|]; [|congruence]. cbn [max_loop].
    destruct (IH (if (m <? d)%Z then d else m) F) as [m' [E [L A]]].
    exists m'. split; [exact E|].
    destruct (m <? d)%Z eqn:C;
      [apply Z.ltb_lt in C | apply Z.ltb_ge in C];
      (split; [lia|]); (constructor; [exists d; split; [reflexivity|lia]
                                     | exact A]).
Qed.

Lemma min_loop_undated (rest : list (option date))
    (smallest : option date) :
  smallest = None \/ In None rest ->
  min_loop smallest rest = Ok None
  \/ exists e, min_loop smallest rest = Raise e.
Proof.
  revert smallest. induction rest as [|item rest' IH]; intros smallest H.
  - destruct H as [->|[]]. now left.
  - cbn [min_loop]. destruct item as [d|]; [|right; eauto].
    destruct smallest as [m|]; [|right; eauto].
    apply IH. destruct H as [H|[H|H]]; [discriminate | discriminate | auto].
Qed.

(** X25: the summary of a list of transactions is computed exactly when
    every transaction has a date: one transaction without a date makes
    the call raise. When it is computed for a list that is not empty,
    it counts all the transactions and its range of dates holds the date
    of each. *)
Theorem calculate_insider_summary_needs_dates
    (transactions : list InsiderTransaction) :
  ((exists s, calculate_insider_summary transactions = Ok s)
   <-> Forall (fun t => transaction_date t <> None) transactions)
  /\ forall s,
       calculate_insider_summary transactions = Ok s ->
       transactions <> [] ->
       total_transactions s = List.length transactions
       /\ exists first last,
            date_range s = Some (first, last)
            /\ Forall (fun t => exists d, transaction_date t = Some d
                                          /\ (first <= d <= last)%Z)
                      transactions.
Proof.
  destruct transactions as [|t0 rest].
  { split; [|intros s _ C; now elim C].
    split; [constructor | eexists; reflexivity]. }
  assert (Good : Forall (fun t => transaction_date t <> None) (t0 :: rest) ->
                 exists s,
                   calculate_insider_summary (t0 :: rest) = Ok s
                   /\ total_transactions s = List.length (t0 :: rest)
                   /\ exists first last,
                        date_range s = Some (first, last)
                        /\ Forall (fun t =>
                                     exists d, transaction_date t = Some d
                                               /\ (first <= d <= last)%Z)
                                  (t0 :: rest)).
  { intros F. apply Forall_cons_iff in F as [H0 F].
    destruct (transaction_date t0) as [d0|] eqn:E0; [|congruence].
    assert (F' : Forall (fun item : option date => item <> None)
                   (map transaction_date rest)).
    { apply Forall_forall. intros item Hi.
      apply in_map_iff in Hi as [t [<- Ht]].
      rewrite Forall_forall in F. now apply F. }
    destruct (min_loop_dated d0 F') as [lo [Elo [Llo Alo]]].
    destruct (max_loop_dated d0 F') as [hi [Ehi [Lhi Ahi]]].
    unfold calculate_insider_summary. rewrite E0, Elo, Ehi. cbn [bind isoformat].
    eexists. split; [reflexivity|]. split; [reflexivity|].
    exists lo, hi. split; [reflexivity|].
    constructor; [exists d0; split; [exact E0 | lia]|].
    apply Forall_forall. intros t Ht.
    rewrite Forall_forall in Alo, Ahi.
    destruct (Alo (transaction_date t)) as [d [Ed Hd]];
      [now apply in_map|].
    destruct (Ahi (transaction_date t)) as [d' [Ed' Hd']];
      [now apply in_map|].
    exists d. split; [exact Ed|]. assert (d' = d) by congruence. lia. }
  assert (Bad : ~ Forall (fun t => transaction_date t <> None) (t0 :: rest) ->
                exists e, calculate_insider_summary (t0 :: rest) = Raise e).
  { intros NF.
    assert (U : transaction_date t0 = None
                \/ In None (map transaction_date rest)).
    { destruct (transaction_date t0) as [d0|] eqn:E0; [|now left].
      right. apply in_map_iff.
      assert (X : Exists (fun t => ~ transaction_date t <> None) rest).
      { apply neg_Forall_Exists_neg.
        - intros t. destruct (transaction_date t); [left | right]; congruence.
        - intros F. apply NF. constructor; [congruence | exact F]. }
      apply Exists_exists in X as [t [Ht Hn]]. exists t. split; [|exact Ht].
      destruct (transaction_date t); [|reflexivity].
      exfalso. apply Hn. discriminate. }
    unfold calculate_insider_summary.
    destruct (min_loop_undated _ U) as [E|[e E]]; rewrite E;
      cbn [bind isoformat]; eauto. }
  split.
  - split.
    + intros [s Hs].
      assert (dec : forall t : InsiderTransaction,
                 {transaction_date t <> None}
                 + {~ transaction_date t <> None}).
      { intros t. destruct (transaction_date t);
          [left; discriminate | right; congruence]. }
      destruct (Forall_Exists_dec _ dec (t0 :: rest)) as [F|X]; [exact F|].
      exfalso. destruct Bad as [e He]; [|congruence].
      intros F. apply Exists_exists in X as [t [Ht Hn]].
      rewrite Forall_forall in F. exact (Hn (F t Ht)).
    + intros F. destruct (Good F) as [s [Hs _]]. eauto.
  - intros s Hs _.
    assert (F : Forall (fun t => transaction_date t <> None) (t0 :: rest)).
    { apply Forall_forall. intros t Ht Hn.
      destruct Bad as [e He]; [|congruence].
      intros F. rewrite Forall_forall in F. exact (F t Ht Hn). }
    destruct (Good F) as [s' [Hs' R]].
    assert (s' = s) by congruence. subst s'. exact R.
Qed.

End SummaryFacts.

Section SummaryWitness.
Import Py Utils Form4 Form4Examples InsiderSummary.

Lemma calculate_insider_summary_needs_dates_witness :
  exists s,
    calculate_insider_summary [sale_record] = Ok s
    /\ total_transactions s = 1
    /\ exists first last,
         date_range s = Some (first, last)
         /\ Forall (fun t => exists d, transaction_date t = Some d
                                       /\ (first <= d <= last)%Z)
                   [sale_record].
Proof.
  eexists. split; [vm_compute; reflexivity|].
  apply (proj2 (calculate_insider_summary_needs_dates [sale_record])).
  - vm_compute. reflexivity.
  - discriminate.
Defined.

End SummaryWitness.

(** ** Dates with outer whitespace, and the current position *)

Section ParseDateMore.
Import Py Utils LibExamples.

Variable strptime_date : str -> str -> option date.

Lemma try_formats_strip (date_str : str) (fmts : list str) :
  try_formats strptime_date (strip date_str) fmts
  = try_formats strptime_date date_str fmts.
Proof.
  induction fmts as [|fmt rest IH]; [reflexivity|]. cbn [try_formats].
  now rewrite strip_idem, IH.
Qed.

Lemma try_formats_empty (fmts : list str) :
  (forall fmt, strptime_date [] fmt = None) ->
  try_formats strptime_date [] fmts = None.
Proof.
  intros H. induction fmts as [|fmt rest IH]; [reflexivity|].
  cbn [try_formats]. change (strip []) with (@nil ascii).
  now rewrite H, IH.
Qed.

(** X26: [parse_date] does not see whitespace around the date: when
    [strptime] reads no date in the empty text, a text and the same text
    stripped give the same date. *)
Theorem parse_date_ignores_outer_whitespace (date_str : str) :
  (forall fmt, strptime_date [] fmt = None) ->
  parse_date strptime_date (strip date_str)
  = parse_date strptime_date date_str.
Proof.
  intros H. unfold parse_date.
  destruct date_str as [|c t]; [reflexivity|]. cbn [nonempty negb].
  destruct (strip (c :: t)) as [|c' t'] eqn:E.
  - cbn [nonempty negb]. symmetry.
    rewrite <- try_formats_strip, E. now apply try_formats_empty.
  - cbn [nonempty negb]. rewrite <- E. apply try_formats_strip.
Qed.

End ParseDateMore.

Section ParseDateWitness.
Import Py Utils LibExamples.

Lemma parse_date_ignores_outer_whitespace_witness :
  parse_date example_strptime (strip (lit " 2026-10-05 "))
  = parse_date example_strptime (lit " 2026-10-05 ").
Proof.
  apply parse_date_ignores_outer_whitespace.
  intros fmt. unfold example_strptime.
  destruct (str_eqb fmt (lit "%Y-%m-%d")); reflexivity.
Defined.

End ParseDateWitness.

Section PositionMore.
Import Py Utils Status Search LibExamples.

Variable strptime_date : str -> str -> option date.

Lemma max_by_key_first_latest (rest : list dict) (best : dict)
    (best_key : date) :
  Forall (fun t => exists k, position_key strptime_date t = Ok k) rest ->
  (max_by_key strptime_date best best_key rest = Ok best
   /\ Forall (fun u => exists ku, position_key strptime_date u = Ok ku
                                  /\ (ku <= best_key)%Z) rest)
  \/ exists before t after k,
       rest = before ++ t :: after
       /\ max_by_key strptime_date best best_key rest = Ok t
       /\ position_key strptime_date t = Ok k
       /\ (best_key < k)%Z
       /\ Forall (fun u => exists ku, position_key strptime_date u = Ok ku
                                      /\ (ku < k)%Z) before
       /\ Forall (fun u => exists ku, position_key strptime_date u = Ok ku
                                      /\ (ku <= k)%Z) after.
Proof.
  revert best best_key.
  induction rest as [|t rest' IH]; intros best best_key F.
  - left. split; [reflexivity | constructor].
  - apply Forall_cons_iff in F as [[k Hk] F]. cbn [max_by_key].
    rewrite Hk. cbn [bind].
    destruct (best_key <? k)%Z eqn:C;
      [apply Z.ltb_lt in C | apply Z.ltb_ge in C].
    + right. destruct (IH t k F) as [[E A]|[b [t' [a [k' H]]]]].
      * exists [], t, rest', k. repeat split; auto.
      * destruct H as [-> [E [Hk' [L [B A]]]]].
        exists (t :: b), t', a, k'. repeat split; auto; [lia|].
        constructor; [exists k; split; [exact Hk | lia] | exact B].
    + destruct (IH best best_key F) as [[E A]|[b [t' [a [k' H]]]]].
      * left. split; [exact E|].
        constructor; [exists k; split; [exact Hk | lia] | exact A].
      * destruct H as [-> [E [Hk' [L [B A]]]]].
        right. exists (t :: b), t', a, k'. repeat split; auto.
        constructor; [exists k; split; [exact Hk | lia] | exact B].
Qed.

Lemma dict_get_first (d pre post : dict) (k : str) (v default : pyval) :
  d = pre ++ (k, v) :: post -> ~ In k (map fst pre) ->
  dict_get d k default = v.
Proof.
  intros -> H. induction pre as [|[k' v'] pre' IH]; cbn [app dict_get].
  - now rewrite str_eqb_refl.
  - destruct (str_eqb k k') eqn:E.
    + apply str_eqb_eq in E. subst k'. exfalso. apply H. now left.
    + apply IH. intros Hin. apply H. now right.
Qed.

Lemma dict_get_absent (d : dict) (k : str) (default : pyval) :
  ~ In k (map fst d) -> dict_get d k default = default.
Proof.
  induction d as [|[k' v'] d' IH]; intros H; [reflexivity|].
  cbn [dict_get]. destruct (str_eqb k k') eqn:E.
  - apply str_eqb_eq in E. subst k'. exfalso. apply H. now left.
  - apply IH. intros Hin. apply H. now right.
Qed.

(** X27: when the dates of the transactions can be read (a missing or
    unreadable date counts as the earliest date), the current position is
    read from the first of the transactions with the latest date: it is
    the value that transaction holds under the key insider_title,
    whatever it is ([None] for a transaction written without a title),
    and Director only when the transaction has no such key. *)
Theorem extract_current_position_first_latest (transactions : list dict) :
  transactions <> [] ->
  Forall (fun t => exists k, position_key strptime_date t = Ok k)
         transactions ->
  exists before t after k,
    transactions = before ++ t :: after
    /\ position_key strptime_date t = Ok k
    /\ Forall (fun u => exists ku, position_key strptime_date u = Ok ku
                                   /\ (ku < k)%Z) before
    /\ Forall (fun u => exists ku, position_key strptime_date u = Ok ku
                                   /\ (ku <= k)%Z) after
    /\ extract_current_position strptime_date transactions
       = dict_get t (lit "insider_title") (PStr (lit "Director"))
    /\ (forall pre title post,
          t = pre ++ (lit "insider_title", title) :: post ->
          ~ In (lit "insider_title") (map fst pre) ->
          extract_current_position strptime_date transactions = title)
    /\ (~ In (lit "insider_title") (map fst t) ->
        extract_current_position strptime_date transactions
        = PStr (lit "Director")).
Proof.
  intros N F. destruct transactions as [|t0 rest]; [now elim N|].
  apply Forall_cons_iff in F as [[k0 H0] F].
  assert (G : exists before t after k,
             t0 :: rest = before ++ t :: after
             /\ position_key strptime_date t = Ok k
             /\ Forall (fun u => exists ku,
                          position_key strptime_date u = Ok ku
                          /\ (ku < k)%Z) before
             /\ Forall (fun u => exists ku,
                          position_key strptime_date u = Ok ku
                          /\ (ku <= k)%Z) after
             /\ extract_current_position strptime_date (t0 :: rest)
                = dict_get t (lit "insider_title") (PStr (lit "Director"))).
  { unfold extract_current_position. rewrite H0. cbn [bind].
    destruct (max_by_key_first_latest t0 k0 F) as [[E A]|[b [t [a [k H]]]]].
    - exists [], t0, rest, k0. rewrite E. cbn [bind try_except].
      repeat split; auto.
    - destruct H as [-> [E [Hk [L [B A]]]]].
      exists (t0 :: b), t, a, k. rewrite E. cbn [bind try_except].
      repeat split; auto.
      constructor; [exists k0; split; [exact H0 | lia] | exact B]. }
  destruct G as [before [t [after [k [E [Hk [B [A R]]]]]]]].
  exists before, t, after, k. repeat split; auto.
  - intros pre title post Et Hn. rewrite R.
    eapply dict_get_first; eassumption.
  - intros Hn. rewrite R. now apply dict_get_absent.
Qed.

End PositionMore.

Section PositionWitness.
Import Py Utils Status Search LibExamples PositionExamples.

(** Two transactions on the latest day: the first of them has no title,
    and the position is [None], not the title of the other one. *)
Example current_position_without_title :
  extract_current_position example_strptime
    [titled "2024-01-01" (PStr (lit "Director"));
     titled "2026-10-05" PNone;
     titled "2026-10-05" (PStr (lit "Executive Chairman"))]
  = PNone.
Proof. reflexivity. Qed.

Lemma extract_current_position_first_latest_witness :
  exists before t after k,
    [titled "2024-01-01" (PStr (lit "Director"));
     titled "2026-10-05" PNone;
     titled "2026-10-05" (PStr (lit "Executive Chairman"))]
    = before ++ t :: after
    /\ position_key example_strptime t = Ok k
    /\ Forall (fun u => exists ku, position_key example_strptime u = Ok ku
                                   /\ (ku < k)%Z) before
    /\ Forall (fun u => exists ku, position_key example_strptime u = Ok ku
                                   /\ (ku <= k)%Z) after
    /\ extract_current_position example_strptime
         [titled "2024-01-01" (PStr (lit "Director"));
          titled "2026-10-05" PNone;
          titled "2026-10-05" (PStr (lit "Executive Chairman"))]
       = dict_get t (lit "insider_title") (PStr (lit "Director"))
    /\ (forall pre title post,
          t = pre ++ (lit "insider_title", title) :: post ->
          ~ In (lit "insider_title") (map fst pre) ->
          extract_current_position example_strptime
            [titled "2024-01-01" (PStr (lit "Director"));
             titled "2026-10-05" PNone;
             titled "2026-10-05" (PStr (lit "Executive Chairman"))]
          = title)
    /\ (~ In (lit "insider_title") (map fst t) ->
        extract_current_position example_strptime
          [titled "2024-01-01" (PStr (lit "Director"));
           titled "2026-10-05" PNone;
           titled "2026-10-05" (PStr (lit "Executive Chairman"))]
        = PStr (lit "Director")).
Proof.
  apply extract_current_position_first_latest; [discriminate|].
  repeat constructor; eexists; vm_compute; reflexivity.
Defined.

End PositionWitness.
